(** * reverse_api: run identity, capture session and analysis orchestration

    A shallow embedding of the Python package [reverse_api]
    ([utils.py], [browser.py], [engineer.py], [tui.py], [cli.py]) and the
    properties of its run-identity and artifact-lifecycle protocol.

    The program is glue around three external collaborators: the file
    system, the browser-automation engine and the agent runtime.  Their
    behaviour is not fixed by the program, so it is a parameter of the
    model: an environment [Env] answers every external call (does it raise,
    what does the wall clock read, is a page still open, what does the agent
    stream).  The program itself is written in a state-and-exception monad
    over that environment, statement by statement as in the source. *)

From Stdlib Require Import ZArith Ascii String List Lia Bool.
From stdpp Require Import base option list strings gmap fin_maps.

Set Warnings "-register-all".
Open Scope Z_scope.
Open Scope nat_scope.

(* ===================================================================== *)
(** * Part I.  Definitions                                                *)
(* ===================================================================== *)

(** ** Python values and library objects the program relies on *)

Module Py.

(** Exceptions deriving from [Exception]: the class name and [str(e)]. *)
Record exn := Exn { exn_class : string; exn_msg : string }.

(** Outcome of running a piece of Python code from state [s]:
    it returns, raises an [Exception], leaves through [sys.exit]
    ([SystemExit], which [except Exception] does not catch), or is still
    polling when the poll budget of the model runs out. *)
Inductive outcome (St A : Type) : Type :=
| Ok (a : A) (s : St)
| Raise (e : exn) (s : St)
| Exit (code : Z) (s : St)
| Hang (s : St).
Arguments Ok {St A} a s.
Arguments Raise {St A} e s.
Arguments Exit {St A} code s.
Arguments Hang {St A} s.

Definition M (St A : Type) : Type := St -> outcome St A.

Definition ret {St A} (a : A) : M St A := fun s => Ok a s.

Definition bind {St A B} (m : M St A) (k : A -> M St B) : M St B :=
  fun s =>
    match m s with
    | Ok a s' => k a s'
    | Raise e s' => Raise e s'
    | Exit c s' => Exit c s'
    | Hang s' => Hang s'
    end.

Definition raise {St A} (e : exn) : M St A := fun s => Raise e s.

(** [sys.exit(code)] *)
Definition sys_exit {St A} (code : Z) : M St A := fun s => Exit code s.

(** [try: m  except Exception as e: h e] *)
Definition try_except {St A} (m : M St A) (h : exn -> M St A) : M St A :=
  fun s =>
    match m s with
    | Raise e s' => h e s'
    | r => r
    end.

(** [try: m  except Exception: pass] *)
Definition try_pass {St A} (m : M St A) : M St unit :=
  try_except (bind m (fun _ => ret tt)) (fun _ => ret tt).

Definition get {St} : M St St := fun s => Ok s s.
Definition gets {St A} (f : St -> A) : M St A := fun s => Ok (f s) s.
Definition modify {St} (f : St -> St) : M St unit := fun s => Ok tt (f s).

(** Run a computation on a component [T] of the state [St]. *)
Definition zoom {St T A} (proj : St -> T) (upd : T -> St -> St)
    (m : M T A) : M St A :=
  fun s =>
    match m (proj s) with
    | Ok a t => Ok a (upd t s)
    | Raise e t => Raise e (upd t s)
    | Exit c t => Exit c (upd t s)
    | Hang t => Hang (upd t s)
    end.

(** [with cm: body], for a context manager whose [__exit__] does not
    suppress exceptions: [exit_] runs however [body] ends, and an
    exception it raises replaces the outcome of [body]. *)
Definition with_ {St A} (enter exit_ : M St unit) (body : M St A) : M St A :=
  bind enter (fun _ s =>
    match body s with
    | Ok a s' => bind exit_ (fun _ => ret a) s'
    | Raise e s' => bind exit_ (fun _ => raise e) s'
    | Exit c s' => bind exit_ (fun _ => sys_exit c) s'
    | Hang s' => Hang s'
    end).

(** The state an outcome ends in. *)
Definition final {St A} (r : outcome St A) : St :=
  match r with Ok _ s | Raise _ s | Exit _ s | Hang s => s end.

(** *** JSON documents, as [json.load] returns and [json.dump] accepts them.
    A [dict] keeps its insertion order; [None] is [JNull]. *)
Inductive json : Type :=
| JNull
| JBool (b : bool)
| JNum (literal : string)
| JStr (s : string)
| JArr (items : list json)
| JObj (fields : list (string * json)).

(** [d.get(key)] on a dict given by its items. *)
Fixpoint assoc (key : string) (fields : list (string * json)) : option json :=
  match fields with
  | [] => None
  | (k, v) :: rest => if decide (k = key) then Some v else assoc key rest
  end.

(** *** [pathlib.Path]: the components of an absolute path, innermost
    first, so that [p / name] is a cons and [p.parent] a tail. *)
Abbreviation Path := (list string).

Definition div (p : Path) (name : string) : Path := name :: p.
Definition parent (p : Path) : Path := tail p.

(** [str(p)] *)
Fixpoint path_str (p : Path) : string :=
  match p with
  | [] => ""
  | name :: up => path_str up +:+ "/" +:+ name
  end.

(** *** The file system: a finite map from paths to nodes.
    Paths are compared by their components, as [pathlib] does. *)
Inductive content : Type :=
| Json (doc : json)       (* text that parses as this JSON document *)
| Raw (text : string)     (* text that is not JSON *)
| Binary (bytes : string). (* bytes that do not decode as text *)

Inductive node : Type :=
| Dir
| File (c : content).

Abbreviation FS := (gmap Path node).

(** The root directory always exists. *)
Definition lookup_node (fs : FS) (p : Path) : option node :=
  match p with
  | [] => Some Dir
  | _ => fs !! p
  end.

Definition exists_ (fs : FS) (p : Path) : bool :=
  match lookup_node fs p with Some _ => true | None => false end.

Definition is_dir (fs : FS) (p : Path) : bool :=
  match lookup_node fs p with Some Dir => true | _ => false end.

Definition is_file (fs : FS) (p : Path) : bool :=
  match lookup_node fs p with Some (File _) => true | _ => false end.

Inductive errno := ENOENT | EEXIST | ENOTDIR | EISDIR.

Definition OSError (e : errno) (p : Path) : exn :=
  Exn (match e with
       | ENOENT => "FileNotFoundError"
       | EEXIST => "FileExistsError"
       | ENOTDIR => "NotADirectoryError"
       | EISDIR => "IsADirectoryError"
       end) (path_str p).

(** [os.mkdir(p)] *)
Definition os_mkdir (p : Path) (fs : FS) : errno + FS :=
  match lookup_node fs p with
  | Some _ => inl EEXIST
  | None =>
      match lookup_node fs (parent p) with
      | None => inl ENOENT
      | Some (File _) => inl ENOTDIR
      | Some Dir => inr (<[p := Dir]> fs)
      end
  end.

(** [p.mkdir(parents=False, exist_ok=True)] *)
Definition mkdir_exist_ok (p : Path) (fs : FS) : errno + FS :=
  match os_mkdir p fs with
  | inr fs' => inr fs'
  | inl ENOENT => inl ENOENT
  | inl e => if is_dir fs p then inr fs else inl e
  end.

(** [p.mkdir(parents=True, exist_ok=True)]: try [os.mkdir]; when the
    parent is missing, create the parent the same way and try again. *)
Fixpoint mkdir_parents (p : Path) (fs : FS) : errno + FS :=
  match os_mkdir p fs with
  | inr fs' => inr fs'
  | inl ENOENT =>
      match p with
      | [] => inl ENOENT
      | _ :: up =>
          match mkdir_parents up fs with
          | inr fs1 => mkdir_exist_ok p fs1
          | inl e => inl e
          end
      end
  | inl e => if is_dir fs p then inr fs else inl e
  end.

(** [open(p, "w")] followed by writing [c]: the file is created or
    truncated; the parent directory must exist. *)
Definition write_file (p : Path) (c : content) (fs : FS) : errno + FS :=
  match lookup_node fs p with
  | Some Dir => inl EISDIR
  | _ =>
      match lookup_node fs (parent p) with
      | None => inl ENOENT
      | Some (File _) => inl ENOTDIR
      | Some Dir => inr (<[p := File c]> fs)
      end
  end.

(** [open(p)] followed by reading everything. *)
Definition read_file (p : Path) (fs : FS) : errno + content :=
  match lookup_node fs p with
  | None => inl ENOENT
  | Some Dir => inl EISDIR
  | Some (File c) => inr c
  end.

(** *** [datetime]: a naive local date and time, as [datetime.now()]
    returns it. *)
Record datetime := DateTime {
  year : N; month : N; day : N;
  hour : N; minute : N; second : N; microsecond : N
}.

(** The ranges a [datetime] object always satisfies. *)
Definition dt_valid (t : datetime) : Prop :=
  (1 <= year t <= 9999 /\ 1 <= month t <= 12 /\ 1 <= day t <= 31 /\
   hour t < 24 /\ minute t < 60 /\ second t < 60 /\
   microsecond t < 1000000)%N.

(** Chronological order of two readings of the same local clock. *)
Definition dt_fields (t : datetime) : list N :=
  [year t; month t; day t; hour t; minute t; second t; microsecond t].

Fixpoint lex_compare (a b : list N) : comparison :=
  match a, b with
  | [], [] => Eq
  | [], _ :: _ => Lt
  | _ :: _, [] => Gt
  | x :: a', y :: b' =>
      match (x ?= y)%N with
      | Eq => lex_compare a' b'
      | c => c
      end
  end.

Definition dt_compare (t u : datetime) : comparison :=
  lex_compare (dt_fields t) (dt_fields u).

Definition dt_le (t u : datetime) : Prop := dt_compare t u <> Gt.

(** ["%0<width>d" % n] for [n < 10 ^ width]: the [width] low decimal
    digits of [n], most significant first. *)
Definition digit_char (d : N) : ascii := ascii_of_N (48 + d).

Fixpoint dec_fixed (width : nat) (n : N) : string :=
  match width with
  | 0 => ""
  | S w =>
      let unit := (10 ^ N.of_nat w)%N in
      String (digit_char ((n / unit) mod 10)%N) (dec_fixed w (n mod unit)%N)
  end.

(** [t.isoformat()] *)
Definition isoformat (t : datetime) : string :=
  dec_fixed 4 (year t) +:+ "-" +:+ dec_fixed 2 (month t) +:+ "-" +:+
  dec_fixed 2 (day t) +:+ "T" +:+ dec_fixed 2 (hour t) +:+ ":" +:+
  dec_fixed 2 (minute t) +:+ ":" +:+ dec_fixed 2 (second t) +:+
  (if decide (microsecond t = 0%N) then ""
   else "." +:+ dec_fixed 6 (microsecond t)).

(** Recogniser of the ISO-8601 form [YYYY-MM-DDTHH:MM:SS[.ffffff]]. *)
Definition is_digit (c : ascii) : bool :=
  (48 <=? nat_of_ascii c) && (nat_of_ascii c <=? 57).

Fixpoint matches (pattern : list (option ascii)) (s : string) : option string :=
  match pattern with
  | [] => Some s
  | want :: pattern' =>
      match s with
      | EmptyString => None
      | String c s' =>
          if match want with
             | None => is_digit c
             | Some lit => bool_decide (c = lit)
             end
          then matches pattern' s' else None
      end
  end.

Definition iso_pattern : list (option ascii) :=
  let d := @None ascii in
  let l (c : ascii) := Some c in
  [d; d; d; d; l "-"; d; d; l "-"; d; d; l "T";
   d; d; l ":"; d; d; l ":"; d; d]%char.

Definition is_iso8601 (s : string) : bool :=
  match matches iso_pattern s with
  | Some EmptyString => true
  | Some (String "." frac) =>
      match matches (replicate 6 None) frac with
      | Some EmptyString => true
      | _ => false
      end
  | _ => false
  end.

(** *** [uuid.uuid4()] and [UUID.hex], from the 16 bytes of [os.urandom]
    read as a big-endian integer [r]. *)
Definition uuid4 (r : Z) : Z :=
  let i := Z.land r (Z.lnot (Z.shiftl 0xc000 48)) in
  let i := Z.lor i (Z.shiftl 0x8000 48) in
  let i := Z.land i (Z.lnot (Z.shiftl 0xf000 64)) in
  Z.lor i (Z.shiftl 4 76).

Definition hex_char (d : Z) : ascii :=
  if (d <? 10)%Z then ascii_of_nat (48 + Z.to_nat d)
  else ascii_of_nat (87 + Z.to_nat d).

(** ["%0<width>x" % n] for [0 <= n < 16 ^ width]. *)
Fixpoint hex_fixed (width : nat) (n : Z) : string :=
  match width with
  | 0 => ""
  | S w => String (hex_char ((n / 16 ^ Z.of_nat w) mod 16)) (hex_fixed w n)
  end.

Definition UUID_hex (u : Z) : string := hex_fixed 32 u.

(** The newline character. *)
Definition nl : string := String (ascii_of_nat 10) "".

(** The value of a lowercase hexadecimal digit. *)
Definition hex_val (c : ascii) : Z :=
  let k := Z.of_nat (nat_of_ascii c) in
  if (k <? 58)%Z then (k - 48)%Z else (k - 87)%Z.

(** [s[:n]] *)
Fixpoint str_take (n : nat) (s : string) : string :=
  match n, s with
  | S n', String c s' => String c (str_take n' s')
  | _, _ => ""
  end.

Definition is_lower_hex (c : ascii) : bool :=
  is_digit c || ((97 <=? nat_of_ascii c) && (nat_of_ascii c <=? 102)).

Fixpoint str_forall (f : ascii -> bool) (s : string) : bool :=
  match s with
  | EmptyString => true
  | String c s' => f c && str_forall f s'
  end.

(** *** Slices and the [str] methods the presenter uses.  A character is
    a code point below 256. *)
Fixpoint str_drop (n : nat) (s : string) : string :=
  match n, s with
  | S n', String _ s' => str_drop n' s'
  | _, _ => s
  end.

(** The position a slice bound [i] denotes in a sequence of [len] items:
    a negative bound counts from the end, and both are clipped. *)
Definition slice_index (i : Z) (len : nat) : nat :=
  if (i <? 0)%Z then Z.to_nat (Z.of_nat len + i) else Nat.min (Z.to_nat i) len.

(** [s[:i]] *)
Definition slice_to (i : Z) (s : string) : string :=
  str_take (slice_index i (String.length s)) s.

(** [s[i:]] *)
Definition slice_from (i : Z) (s : string) : string :=
  str_drop (slice_index i (String.length s)) s.

(** [c.isspace()] *)
Definition isspace (c : ascii) : bool :=
  let k := nat_of_ascii c in
  ((9 <=? k) && (k <=? 13)) || ((28 <=? k) && (k <=? 32)) ||
  (k =? 133) || (k =? 160).

Fixpoint lstrip (s : string) : string :=
  match s with
  | EmptyString => EmptyString
  | String c s' => if isspace c then lstrip s' else s
  end.

Fixpoint rstrip (s : string) : string :=
  match s with
  | EmptyString => EmptyString
  | String c s' =>
      match rstrip s' with
      | EmptyString => if isspace c then EmptyString else String c EmptyString
      | kept => String c kept
      end
  end.

(** [s.strip()] *)
Definition strip (s : string) : string := rstrip (lstrip s).

(** [s.replace(a, b)] for one-character [a] and [b]. *)
Fixpoint replace_char (a b : ascii) (s : string) : string :=
  match s with
  | EmptyString => EmptyString
  | String c s' => String (if Ascii.eqb c a then b else c) (replace_char a b s')
  end.

End Py.

(** ** The world outside the program *)

Module Sdk.
Import Py.

(** Content blocks and messages of the agent runtime
    ([claude_agent_sdk]); the program tells them apart by [isinstance]. *)
Inductive block : Type :=
| ToolUseBlock (name : string) (input : list (string * json))
| ToolResultBlock (is_error : option bool)
| TextBlock (text : string)
| OtherBlock.

Inductive message : Type :=
| AssistantMessage (content : list block)
| ResultMessage (is_error : bool) (result : option string)
| OtherMessage.

(** What one agent session does: whether entering the client, sending the
    query or leaving the client raises, which messages the response stream
    yields, and whether the stream breaks after them. *)
Record agent := Agent {
  enter_fault : option exn;
  query_fault : option exn;
  stream : list message;
  stream_fault : option exn;
  exit_fault : option exn
}.

(** [ClaudeAgentOptions] *)
Record options := Options {
  allowed_tools : list string;
  permission_mode : string;
  cwd : string;
  model : option string
}.

End Sdk.

Module World.
Import Py.

(** The holes of the analysis-task template of
    [APIReverseEngineer._build_analysis_prompt]; the text around them is
    constant. *)
Record task := Task {
  task_har_path : Path;
  task_prompt : json;
  task_script : Path;
  task_additional : option string
}.

(** External calls, in the order the program makes them. *)
Inductive event : Type :=
| EvNow (t : datetime)              (* datetime.now() *)
| EvSignal (signum : nat)           (* signal.signal(signum, handler) *)
| EvPlaywrightStart                 (* sync_playwright().start() *)
| EvLaunch                          (* chromium.launch(...) *)
| EvNewContext (har : Path)         (* browser.new_context(record_har_path=...) *)
| EvNewPage                         (* context.new_page() *)
| EvGoto (url : string)             (* page.goto(url) *)
| EvPages                           (* context.pages *)
| EvWaitForTimeout (ms : nat)       (* page.wait_for_timeout(ms) *)
| EvContextClose                    (* context.close() *)
| EvBrowserClose                    (* browser.close() *)
| EvPlaywrightStop                  (* playwright.stop() *)
| EvClientEnter (o : Sdk.options)   (* ClaudeSDKClient(options).__aenter__() *)
| EvQuery (t : task)                (* client.query(...) *)
| EvClientExit.                     (* ClaudeSDKClient.__aexit__() *)

(** What reaches the terminal: plain lines and the presenter's events. *)
Inductive output : Type :=
| Line (text : string)
| UiHeader (run_id : string) (prompt : json) (model : option string)
| UiStartAnalysis
| UiToolStart (name : string) (input : list (string * json))
| UiToolFailed (name : string)
| UiThinking (text : string)
| UiSuccess (tools : nat) (script_path : string)
| UiError (msg : string)
| UiInstallHint.

Record World := MkWorld {
  fs : FS;
  out : list output;
  trace : list event
}.

Definition set_fs (f : FS) (w : World) : World :=
  MkWorld f (out w) (trace w).
Definition add_out (o : output) (w : World) : World :=
  MkWorld (fs w) (out w ++ [o]) (trace w).
Definition add_event (ev : event) (w : World) : World :=
  MkWorld (fs w) (out w) (trace w ++ [ev]).

(** Logical time: the number of external calls made so far. *)
Definition time (w : World) : nat := length (trace w).

(** The environment answers external calls by the time they are made. *)
Record Env := MkEnv {
  e_root : Path;                   (* Path(__file__).parent.parent.parent *)
  e_now : nat -> datetime;         (* reading of the wall clock *)
  e_fault : nat -> option exn;     (* the call made at this time raises *)
  e_pages : nat -> bool;           (* some page is still open *)
  e_signal : nat -> bool;          (* SIGINT/SIGTERM arrives during this wait *)
  e_har : json;                    (* the archive the capture context saves *)
  e_agent : Sdk.agent              (* the agent session *)
}.

Declare Scope py_scope.
Delimit Scope py_scope with py.
Notation "x <- m ;; k" := (bind m (fun x => k))
  (at level 100, m at next level, right associativity) : py_scope.
Notation "m ;;; k" := (bind m (fun _ => k))
  (at level 100, right associativity) : py_scope.
Infix "/" := div : py_scope.
Open Scope py_scope.

Section Primitives.
Variable env : Env.

(** An external call: logged, and raising if the environment says so. *)
Definition call (ev : event) : M World unit :=
  fun w =>
    match e_fault env (time w) with
    | Some e => Raise e (add_event ev w)
    | None => Ok tt (add_event ev w)
    end.

(** [datetime.now()] *)
Definition now : M World datetime :=
  fun w => let t := e_now env (time w) in Ok t (add_event (EvNow t) w).

(** [print(text)], and [console.print(text)] of cli.py, of which the
    text handed over is recorded: the console reads square brackets in it
    as markup, so what is stated of such a line is stated for
    interpolated texts without them ([markup_free], [plain]). *)
Definition print (text : string) : M World unit := modify (add_out (Line text)).
Definition show (o : output) : M World unit := modify (add_out o).

Definition lift_os {A} (p : Path) (r : errno + A) : M World A :=
  match r with
  | inl e => raise (OSError e p)
  | inr a => ret a
  end.

(** [p.mkdir(parents=True, exist_ok=True)] *)
Definition mkdir (p : Path) : M World unit :=
  w <- get ;;
  f <- lift_os p (mkdir_parents p (fs w)) ;;
  modify (set_fs f).

(** [with open(p, "w") as f: json.dump(doc, f, indent=2)] *)
Definition json_dump (p : Path) (doc : json) : M World unit :=
  w <- get ;;
  f <- lift_os p (write_file p (Json doc) (fs w)) ;;
  modify (set_fs f).

(** [with open(p) as f: json.load(f)] *)
Definition json_load (p : Path) : M World json :=
  w <- get ;;
  c <- lift_os p (read_file p (fs w)) ;;
  match c with
  | Json doc => ret doc
  | Raw _ => raise (Exn "JSONDecodeError" "Expecting value")
  | Binary _ => raise (Exn "UnicodeDecodeError" "invalid start byte")
  end.

(** [p.exists()] *)
Definition path_exists (p : Path) : M World bool :=
  gets (fun w => exists_ (fs w) p).

End Primitives.
End World.

(** ** utils.py *)

Module Utils.
Import Py World.

(** [generate_run_id()], from the 16 random bytes [uuid4] draws. *)
Definition generate_run_id (r : Z) : string :=
  str_take 12 (UUID_hex (uuid4 r)).

Section WithEnv.
Variable env : Env.

Definition get_project_root : Path := e_root env.

Definition get_har_dir (run_id : string) : M World Path :=
  let har_dir := get_project_root / "har" / run_id in
  mkdir har_dir ;;;
  ret har_dir.

Definition get_scripts_dir (run_id : string) : M World Path :=
  let scripts_dir := get_project_root / "scripts" / run_id in
  mkdir scripts_dir ;;;
  ret scripts_dir.

Definition get_timestamp : M World string :=
  t <- now env ;;
  ret (isoformat t).

End WithEnv.
End Utils.

(** ** browser.py *)

Module Browser.
Import Py World Utils.

(** Objects of the automation engine; the program only holds them and
    tests them against [None]. *)
Inductive Playwright := PlaywrightObj.
Inductive BrowserObj := BrowserHandle.
Inductive BrowserContext := ContextObj.

Record ManualBrowser := MkManualBrowser {
  run_id : string;
  prompt : string;
  har_dir : Path;
  har_path : Path;
  metadata_path : Path;
  _playwright : option Playwright;
  _browser : option BrowserObj;
  _context : option BrowserContext;
  _start_time : option string
}.

(** The recorder object together with the world it acts on. *)
Record Session := MkSession {
  self : ManualBrowser;
  world : World
}.

Definition set_world (w : World) (s : Session) : Session := MkSession (self s) w.
Definition set_self (b : ManualBrowser) (s : Session) : Session := MkSession b (world s).

Definition set_playwright (v : option Playwright) (b : ManualBrowser) :=
  MkManualBrowser (run_id b) (prompt b) (har_dir b) (har_path b)
    (metadata_path b) v (_browser b) (_context b) (_start_time b).
Definition set_browser (v : option BrowserObj) (b : ManualBrowser) :=
  MkManualBrowser (run_id b) (prompt b) (har_dir b) (har_path b)
    (metadata_path b) (_playwright b) v (_context b) (_start_time b).
Definition set_context (v : option BrowserContext) (b : ManualBrowser) :=
  MkManualBrowser (run_id b) (prompt b) (har_dir b) (har_path b)
    (metadata_path b) (_playwright b) (_browser b) v (_start_time b).
Definition set_start_time (v : option string) (b : ManualBrowser) :=
  MkManualBrowser (run_id b) (prompt b) (har_dir b) (har_path b)
    (metadata_path b) (_playwright b) (_browser b) (_context b) v.

Definition SIGINT : nat := 2.
Definition SIGTERM : nat := 15.

Section WithEnv.
Variable env : Env.

(** Statements on the world, run inside a method of the recorder. *)
Definition io {A} (m : M World A) : M Session A := zoom world set_world m.
Definition assign (f : ManualBrowser -> ManualBrowser) : M Session unit :=
  modify (fun s => set_self (f (self s)) s).
Definition attr {A} (f : ManualBrowser -> A) : M Session A :=
  gets (fun s => f (self s)).

(** [ManualBrowser(run_id, prompt)] *)
Definition __init__ (run_id prompt : string) : M World ManualBrowser :=
  har_dir <- get_har_dir env run_id ;;
  ret (MkManualBrowser run_id prompt har_dir
         (har_dir / "recording.har") (har_dir / "metadata.json")
         None None None None).

(** The dict [_save_metadata] dumps. *)
Definition metadata_of (b : ManualBrowser) (end_time : string) : json :=
  JObj [("run_id", JStr (run_id b));
        ("prompt", JStr (prompt b));
        ("start_time", match _start_time b with
                       | Some t => JStr t
                       | None => JNull
                       end);
        ("end_time", JStr end_time);
        ("har_file", JStr (path_str (har_path b)))].

Definition _save_metadata (end_time : string) : M Session unit :=
  b <- attr id ;;
  io (json_dump (metadata_path b) (metadata_of b end_time)).

(** [context.close()]: the engine writes the archive, then returns. *)
Definition context_close (har : Path) : M World unit :=
  call env EvContextClose ;;;
  w <- get ;;
  match write_file har (Json (e_har env)) (fs w) with
  | inr f => modify (set_fs f)
  | inl e => raise (OSError e har)
  end.

Definition close : M Session Path :=
  end_time <- io (get_timestamp env) ;;
  ctx <- attr _context ;;
  (match ctx with
   | Some _ =>
       har <- attr har_path ;;
       try_pass (io (context_close har)) ;;;
       assign (set_context None)
   | None => ret tt
   end) ;;;
  br <- attr _browser ;;
  (match br with
   | Some _ =>
       try_pass (io (call env EvBrowserClose)) ;;;
       assign (set_browser None)
   | None => ret tt
   end) ;;;
  pw <- attr _playwright ;;
  (match pw with
   | Some _ =>
       try_pass (io (call env EvPlaywrightStop)) ;;;
       assign (set_playwright None)
   | None => ret tt
   end) ;;;
  _save_metadata end_time ;;;
  b <- attr id ;;
  io (print (nl +:+ "✓ HAR file saved to: " +:+ path_str (har_path b))) ;;;
  io (print ("✓ Metadata saved to: " +:+ path_str (metadata_path b))) ;;;
  io (print (nl +:+ "Run ID: " +:+ run_id b)) ;;;
  ret (har_path b).

Definition _handle_signal {A} : M Session A :=
  io (print (nl +:+ nl +:+ "Closing browser and saving HAR file...")) ;;;
  close ;;;
  sys_exit 0%Z.

(** [page.wait_for_timeout(ms)]; an interrupt that arrives while the
    program waits runs the installed handler. *)
Definition wait_for_timeout (ms : nat) : M Session unit :=
  t <- gets (fun s => time (world s)) ;;
  io (call env (EvWaitForTimeout ms)) ;;;
  if e_signal env t then _handle_signal else ret tt.

(** [context.pages], as a truth value. *)
Definition pages : M Session bool :=
  t <- gets (fun s => time (world s)) ;;
  io (call env EvPages) ;;;
  ret (e_pages env t).

(** [while self._context.pages: self._context.pages[0].wait_for_timeout(500)]
    with at most [budget] iterations. *)
Fixpoint wait_until_closed (budget : nat) : M Session unit :=
  match budget with
  | 0 => fun s => Hang s
  | S budget' =>
      open <- pages ;;
      if open then
        first <- pages ;;
        (if first then wait_for_timeout 500
         else raise (Exn "IndexError" "list index out of range")) ;;;
        wait_until_closed budget'
      else ret tt
  end.

Definition start (budget : nat) (start_url : option string) : M Session Path :=
  t <- io (get_timestamp env) ;;
  assign (set_start_time (Some t)) ;;;
  io (call env (EvSignal SIGINT)) ;;;
  io (call env (EvSignal SIGTERM)) ;;;
  b <- attr id ;;
  io (print "Starting browser session...") ;;;
  io (print ("Run ID: " +:+ run_id b)) ;;;
  io (print ("HAR will be saved to: " +:+ path_str (har_path b))) ;;;
  io (print (nl +:+ "Prompt: " +:+ prompt b)) ;;;
  io (print (nl +:+ "==================================================")) ;;;
  io (print "Browse the web and interact with APIs you want to capture.") ;;;
  io (print "Close the browser window or press Ctrl+C when done.") ;;;
  io (print ("==================================================" +:+ nl)) ;;;
  io (call env EvPlaywrightStart) ;;;
  assign (set_playwright (Some PlaywrightObj)) ;;;
  io (call env EvLaunch) ;;;
  assign (set_browser (Some BrowserHandle)) ;;;
  io (call env (EvNewContext (har_path b))) ;;;
  assign (set_context (Some ContextObj)) ;;;
  io (call env EvNewPage) ;;;
  (match start_url with
   | Some url => if decide (url = "") then ret tt else io (call env (EvGoto url))
   | None => ret tt
   end) ;;;
  try_pass (wait_until_closed budget) ;;;
  close.

End WithEnv.
End Browser.

(** ** tui.py *)

Module Tui.
Import Py World.

Record ClaudeUI := MkClaudeUI {
  verbose : bool;
  _tool_count : nat;
  _tools_used : list string
}.

(** The presenter object together with the terminal it prints to. *)
Record Screen := MkScreen {
  self : ClaudeUI;
  world : World
}.

(** A line of the presenter, recorded as the event it shows.  The
    methods interpolate their arguments into console markup; what is
    stated of such a line is stated for arguments without markup. *)
Definition console (o : output) : M Screen unit :=
  modify (fun s => MkScreen (self s) (add_out o (world s))).

Definition header (run_id : string) (prompt : json) (model : option string)
    : M Screen unit :=
  console (UiHeader run_id prompt model).

Definition start_analysis : M Screen unit := console UiStartAnalysis.

Definition tool_start (tool_name : string) (tool_input : list (string * json))
    : M Screen unit :=
  modify (fun s =>
    MkScreen (MkClaudeUI (verbose (self s)) (_tool_count (self s) + 1)
                (_tools_used (self s) ++ [tool_name])) (world s)) ;;;
  console (UiToolStart tool_name tool_input).

Definition tool_result (tool_name : string) (is_error : bool) : M Screen unit :=
  if is_error then console (UiToolFailed tool_name) else ret tt.

(** Shown only when verbose and at least 20 characters long; the line
    printed is a cleaned prefix of [text]. *)
Definition thinking (text : string) : M Screen unit :=
  v <- gets (fun s => verbose (self s)) ;;
  if negb v then ret tt
  else if String.length text <? 20 then ret tt
  else console (UiThinking text).

Definition success (script_path : string) : M Screen unit :=
  n <- gets (fun s => _tool_count (self s)) ;;
  console (UiSuccess n script_path).

Definition error (message : string) : M Screen unit :=
  console (UiError message).

(** The text [thinking(text, max_length)] puts on its line: the local
    [display_text] when the line is printed. *)
Definition display_text (text : string) (max_length : Z) : string :=
  let display_text :=
    strip (replace_char (ascii_of_nat 10) " " (slice_to max_length text)) in
  if (max_length <? Z.of_nat (String.length text))%Z
  then display_text +:+ "..."
  else display_text.

(** [_truncate_path(path, max_len)] *)
Definition _truncate_path (path : string) (max_len : Z) : string :=
  if (Z.of_nat (String.length path) <=? max_len)%Z then path
  else "..." +:+ slice_from (- (max_len - 3)) path.

End Tui.

(** ** engineer.py *)

Module Engineer.
Import Py World Utils.

Record APIReverseEngineer := MkEngineer {
  run_id : string;
  har_path : Path;
  prompt : json;
  model : option string;
  additional_instructions : option string;
  scripts_dir : Path;
  ui : Tui.ClaudeUI
}.

(** The engineer object together with the world it acts on. *)
Record Run := MkRun {
  self : APIReverseEngineer;
  world : World
}.

Definition set_world (w : World) (s : Run) : Run := MkRun (self s) w.

Definition set_screen (t : Tui.Screen) (s : Run) : Run :=
  let e := self s in
  MkRun (MkEngineer (run_id e) (har_path e) (prompt e) (model e)
           (additional_instructions e) (scripts_dir e) (Tui.self t))
        (Tui.world t).

Definition io {A} (m : M World A) : M Run A := zoom world set_world m.

(** A method call on [self.ui]. *)
Definition on_ui {A} (m : M Tui.Screen A) : M Run A :=
  zoom (fun s => Tui.MkScreen (ui (self s)) (world s)) set_screen m.

Definition attr {A} (f : APIReverseEngineer -> A) : M Run A :=
  gets (fun s => f (self s)).

(** A call into the agent runtime: logged, raising if the session says so. *)
Definition agent_call (ev : event) (fault : option exn) : M World unit :=
  modify (add_event ev) ;;;
  match fault with
  | Some e => raise e
  | None => ret tt
  end.

(** [x or default] on an optional string. *)
Definition str_or (x : option string) (default : string) : string :=
  match x with
  | Some s => if decide (s = "") then default else s
  | None => default
  end.

Section WithEnv.
Variable env : Env.

(** [APIReverseEngineer(run_id, har_path, prompt, model,
    additional_instructions, verbose)] *)
Definition __init__ (run_id : string) (har_path : Path) (prompt : json)
    (model additional_instructions : option string) (verbose : bool)
    : M World APIReverseEngineer :=
  scripts_dir <- get_scripts_dir env run_id ;;
  ret (MkEngineer run_id har_path prompt model additional_instructions
         scripts_dir (Tui.MkClaudeUI verbose 0 [])).

Definition _build_analysis_prompt (e : APIReverseEngineer) : task :=
  Task (har_path e) (prompt e) (scripts_dir e / "api_client.py")
    (match additional_instructions e with
     | Some extra => if decide (extra = "") then None else Some extra
     | None => None
     end).

(** [for block in message.content: ...] *)
Fixpoint show_blocks (content : list Sdk.block) : M Run unit :=
  match content with
  | [] => ret tt
  | Sdk.ToolUseBlock name input :: rest =>
      on_ui (Tui.tool_start name input) ;;;
      show_blocks rest
  | Sdk.ToolResultBlock is_error :: rest =>
      on_ui (Tui.tool_result "Tool" (default false is_error)) ;;;
      show_blocks rest
  | Sdk.TextBlock text :: rest =>
      on_ui (Tui.thinking text) ;;;
      show_blocks rest
  | Sdk.OtherBlock :: rest => show_blocks rest
  end.

(** [async for message in client.receive_response(): ...]; the result is
    [Some v] when the loop body executed [return v], [None] when the
    stream ended. *)
Fixpoint receive_response (messages : list Sdk.message) (fault : option exn)
    : M Run (option (option string)) :=
  match messages with
  | [] =>
      match fault with
      | Some e => raise e
      | None => ret None
      end
  | Sdk.AssistantMessage content :: rest =>
      show_blocks content ;;;
      receive_response rest fault
  | Sdk.ResultMessage is_error result :: rest =>
      if is_error then
        on_ui (Tui.error (str_or result "Unknown error")) ;;;
        ret (Some None)
      else
        dir <- attr scripts_dir ;;
        let script_path := path_str (dir / "api_client.py") in
        on_ui (Tui.success script_path) ;;;
        ret (Some (Some script_path))
  | Sdk.OtherMessage :: rest => receive_response rest fault
  end.

Definition analyze_and_generate : M Run (option string) :=
  e <- attr id ;;
  on_ui (Tui.header (run_id e) (prompt e) (model e)) ;;;
  on_ui Tui.start_analysis ;;;
  let options :=
    Sdk.Options ["Read"; "Write"; "Bash"; "Glob"; "Grep"; "WebSearch"; "WebFetch"]
      "acceptEdits" (path_str (parent (parent (scripts_dir e)))) (model e) in
  let agent := e_agent env in
  try_except
    (returned <-
       with_ (io (agent_call (EvClientEnter options) (Sdk.enter_fault agent)))
             (io (agent_call EvClientExit (Sdk.exit_fault agent)))
         (io (agent_call (EvQuery (_build_analysis_prompt e))
                (Sdk.query_fault agent)) ;;;
          receive_response (Sdk.stream agent) (Sdk.stream_fault agent)) ;;
     match returned with
     | Some v => ret v
     | None => ret None
     end)
    (fun e =>
       on_ui (Tui.error (exn_msg e)) ;;;
       io (show UiInstallHint) ;;;
       ret None).

(** [run_reverse_engineering(...)]: build the engineer, run it to its
    end, keep the world. *)
Definition run_reverse_engineering (run_id : string) (har_path : Path)
    (prompt : json) (model additional_instructions : option string)
    (verbose : bool) : M World (option string) :=
  engineer <- __init__ run_id har_path prompt model additional_instructions verbose ;;
  zoom (MkRun engineer) (fun s _ => world s) analyze_and_generate.

End WithEnv.
End Engineer.

(** ** cli.py *)

Module Cli.
Import Py World Utils.

(** [metadata.get(key, default)] on what [json.load] returned. *)
Definition dict_get (d : json) (key : string) (default : json) : M World json :=
  match d with
  | JObj fields => ret (from_option id default (assoc key fields))
  | _ => raise (Exn "AttributeError" "object has no attribute 'get'")
  end.

Section WithEnv.
Variable env : Env.

(** The [engineer RUN_ID [--model M] [--instructions I]] command. *)
Definition engineer (run_id : string) (model instructions : option string)
    : M World unit :=
  har_dir <- get_har_dir env run_id ;;
  let har_path := har_dir / "recording.har" in
  let metadata_path := har_dir / "metadata.json" in
  found <- path_exists har_path ;;
  if negb found then
    print ("[red]Error:[/red] HAR file not found for run ID: " +:+ run_id) ;;;
    print ("[dim]Expected path: " +:+ path_str har_path +:+ "[/dim]")
  else
    let prompt := JStr "Reverse engineer the captured APIs" in
    has_metadata <- path_exists metadata_path ;;
    prompt <- (if has_metadata then
                 metadata <- json_load metadata_path ;;
                 dict_get metadata "prompt" prompt
               else ret prompt) ;;
    script_path <- Engineer.run_reverse_engineering env run_id har_path prompt
                     model instructions true ;;
    match script_path with
    | Some path =>
        if decide (path = "") then ret tt
        else print (nl +:+ "[green]✓[/green] Generated API script: [cyan]" +:+
                    path +:+ "[/cyan]")
    | None => ret tt
    end.

(** What the operator answers to the four questions of the interactive
    mode; [ask()] returns [None] when a question is cancelled. *)
Record Answers := MkAnswers {
  ans_prompt : option string;     (* "What APIs do you want to capture?" *)
  ans_url : option string;        (* "Starting URL:" *)
  ans_confirm : option bool;      (* "Run reverse engineering ... ?" *)
  ans_model : option string       (* "Select Claude model:" *)
}.

(** The dict [prompt_interactive_options] returns. *)
Record Options := MkOptions {
  opt_prompt : string;
  opt_url : option string;
  opt_reverse_engineer : option bool;
  opt_model : option string
}.

(** [click.Abort()] *)
Definition Abort : exn := Exn "Abort" "".

(** [x if x else None] on an optional string. *)
Definition nonempty (x : option string) : option string :=
  match x with
  | Some s => if decide (s = "") then None else Some s
  | None => None
  end.

Definition prompt_interactive_options (ans : Answers)
    (prompt url : option string) (reverse_engineer : option bool)
    (model : option string) : M World Options :=
  print (nl +:+ "[bold cyan]🔍 Reverse API[/bold cyan]" +:+ nl) ;;;
  let prompt := match prompt with
                | None => ans_prompt ans
                | Some _ => prompt
                end in
  match nonempty prompt with
  | None => raise Abort
  | Some prompt =>
      let url := match url with
                 | None => ans_url ans
                 | Some _ => url
                 end in
      let reverse_engineer := match reverse_engineer with
                              | Some false => ans_confirm ans
                              | _ => reverse_engineer
                              end in
      let model := match model, reverse_engineer with
                   | None, Some true => ans_model ans
                   | _, _ => model
                   end in
      ret (MkOptions prompt (nonempty url) reverse_engineer model)
  end.

(** The [manual] command, the default of the program; [r] is the random
    draw of [generate_run_id], [budget] bounds the polling of [start]. *)
Definition manual (ans : Answers) (r : Z) (budget : nat)
    (prompt url : option string) (reverse_engineer : bool)
    (model instructions : option string) : M World unit :=
  options <- match prompt with
             | None =>
                 prompt_interactive_options ans prompt url
                   (Some reverse_engineer) model
             | Some prompt => ret (MkOptions prompt url (Some reverse_engineer) model)
             end ;;
  let prompt := opt_prompt options in
  let url := opt_url options in
  let reverse_engineer := opt_reverse_engineer options in
  let model := opt_model options in
  let run_id := generate_run_id r in
  browser <- Browser.__init__ env run_id prompt ;;
  har_path <- zoom (Browser.MkSession browser) (fun s _ => Browser.world s)
                (Browser.start env budget url) ;;
  match reverse_engineer with
  | Some true =>
      script_path <- Engineer.run_reverse_engineering env run_id har_path
                       (JStr prompt) model instructions true ;;
      match script_path with
      | Some path =>
          if decide (path = "") then ret tt
          else print (nl +:+ "[green]✓[/green] Generated API script: [cyan]" +:+
                      path +:+ "[/cyan]")
      | None => ret tt
      end
  | _ => ret tt
  end.

End WithEnv.
End Cli.

(** ** Vocabulary of the properties *)

Module Spec.
Import Py World.

(** The value of the 16 bytes [os.urandom(16)] returns. *)
Definition random128 (r : Z) : Prop := (0 <= r < 2 ^ 128)%Z.

(** What [mkdir] changes: it only adds directories, and only at the path
    itself or above it. *)
Definition extends_by_dirs (p : Path) (fs fs' : FS) : Prop :=
  forall q, fs' !! q = fs !! q \/
            (fs !! q = None /\ fs' !! q = Some Dir /\ q `suffix_of` p).

(** Both resolvers are [d.mkdir(parents=True, exist_ok=True); return d]. *)
Definition resolve (d : Path) : M World Path := mkdir d ;;; ret d.

(** The outcome is a return or an [Exception]. *)
Definition settles {St A} (r : outcome St A) : Prop :=
  match r with
  | Ok _ _ | Raise _ _ => True
  | Exit _ _ | Hang _ => False
  end.

(** The teardown calls [close] owes the handles the recorder holds. *)
Definition teardown_steps (b : Browser.ManualBrowser) : list event :=
  (match Browser._context b with Some _ => [EvContextClose] | None => [] end) ++
  (match Browser._browser b with Some _ => [EvBrowserClose] | None => [] end) ++
  (match Browser._playwright b with Some _ => [EvPlaywrightStop] | None => [] end).

(** The recorder with its three handles dropped. *)
Definition torn_down (b : Browser.ManualBrowser) : Browser.ManualBrowser :=
  Browser.set_playwright None (Browser.set_browser None (Browser.set_context None b)).

(** The world after the three teardown steps, whatever each one did. *)
Definition after_teardown (env : Env) (b : Browser.ManualBrowser) (w : World) : World :=
  let w1 := match Browser._context b with
            | Some _ => final (Browser.context_close env (Browser.har_path b) w)
            | None => w
            end in
  let w2 := match Browser._browser b with
            | Some _ => final (call env EvBrowserClose w1)
            | None => w1
            end in
  match Browser._playwright b with
  | Some _ => final (call env EvPlaywrightStop w2)
  | None => w2
  end.

(** The three lines [close] prints before it returns. *)
Definition close_lines (b : Browser.ManualBrowser) : list output :=
  [Line (nl +:+ "✓ HAR file saved to: " +:+ path_str (Browser.har_path b));
   Line ("✓ Metadata saved to: " +:+ path_str (Browser.metadata_path b));
   Line (nl +:+ "Run ID: " +:+ Browser.run_id b)].

(** The world after printing the given lines. *)
Definition printed (lines : list output) (w : World) : World :=
  fold_left (fun w o => add_out o w) lines w.

(** What [__init__] establishes about the paths of a recorder. *)
Definition recorder_paths (b : Browser.ManualBrowser) : Prop :=
  Browser.har_path b = Browser.har_dir b / "recording.har" /\
  Browser.metadata_path b = Browser.har_dir b / "metadata.json".

(** The capture directory is in place and nothing blocks the metadata file. *)
Definition capture_dir_ready (b : Browser.ManualBrowser) (w : World) : Prop :=
  is_dir (fs w) (Browser.har_dir b) = true /\
  is_dir (fs w) (Browser.metadata_path b) = false.

(** [m] ends, however it ends, in a state related to the one it started in. *)
Definition steady {St A} (R : St -> St -> Prop) (m : M St A) : Prop :=
  forall s, R s (final (m s)).

(** The same run, later: identity, prompt, paths and start time are
    unchanged and the log of external calls has only grown. *)
Definition same_run (s s' : Browser.Session) : Prop :=
  let b := Browser.self s in
  let b' := Browser.self s' in
  Browser.run_id b' = Browser.run_id b /\
  Browser.prompt b' = Browser.prompt b /\
  Browser.har_dir b' = Browser.har_dir b /\
  Browser.har_path b' = Browser.har_path b /\
  Browser.metadata_path b' = Browser.metadata_path b /\
  Browser._start_time b' = Browser._start_time b /\
  trace (Browser.world s) `prefix_of` trace (Browser.world s').

(** The state [start] runs its body from: the start time is set from
    the first clock reading, before anything else happens. *)
Definition started (env : Env) (b : Browser.ManualBrowser) (w : World)
    : Browser.Session :=
  let t := e_now env (time w) in
  Browser.MkSession (Browser.set_start_time (Some (isoformat t)) b)
    (add_event (EvNow t) w).

(** The state a successful [close] ends in. *)
Definition closed (env : Env) (b : Browser.ManualBrowser) (w : World)
    : Browser.Session :=
  let t := e_now env (time w) in
  let w' := after_teardown env b (add_event (EvNow t) w) in
  let doc := Browser.metadata_of b (isoformat t) in
  Browser.MkSession (torn_down b)
    (printed (close_lines b)
       (set_fs (<[Browser.metadata_path b := File (Json doc)]> (fs w')) w')).

(** The start time stored in the recorder is a clock reading taken
    after the external call [ev] was made. *)
Definition stamped_after (ev : event) (s : Browser.Session) : Prop :=
  exists i j t,
    trace (Browser.world s) !! i = Some ev /\
    trace (Browser.world s) !! j = Some (EvNow t) /\
    Browser._start_time (Browser.self s) = Some (isoformat t) /\
    i < j.

(** The record [_save_metadata] writes, field by field. *)
Definition metadata_record (run_id prompt : string) (start_time : json)
    (end_time har_file : string) : json :=
  JObj [("run_id", JStr run_id); ("prompt", JStr prompt);
        ("start_time", start_time); ("end_time", JStr end_time);
        ("har_file", JStr har_file)].

(** The wall clock yields well-formed readings and does not run backwards. *)
Definition clock_sane (env : Env) : Prop :=
  (forall n, dt_valid (e_now env n)) /\
  (forall m n, m <= n -> dt_le (e_now env m) (e_now env n)).

(** The terminal event of a response stream: the first result message,
    and whether it reports an error. *)
Fixpoint terminal_event (messages : list Sdk.message) : option bool :=
  match messages with
  | [] => None
  | Sdk.ResultMessage is_error _ :: _ => Some is_error
  | _ :: rest => terminal_event rest
  end.

(** The agent session raises nowhere outside the response stream. *)
Definition session_clean (a : Sdk.agent) : Prop :=
  Sdk.enter_fault a = None /\ Sdk.query_fault a = None /\
  Sdk.exit_fault a = None.

(** What [analyze_and_generate] returns, read off the agent session. *)
Definition analysis_result (a : Sdk.agent) (script : string) : option string :=
  match Sdk.enter_fault a, Sdk.query_fault a,
        terminal_event (Sdk.stream a), Sdk.exit_fault a with
  | None, None, Some false, None => Some script
  | _, _, _, _ => None
  end.

(** The world has only been printed to and called from: the terminal
    output and the log of external calls have grown, the files are the same. *)
Definition grows (w w' : World) : Prop :=
  out w `prefix_of` out w' /\ trace w `prefix_of` trace w' /\ fs w' = fs w.

(** The same engineer, later: only the presenter's counters may differ. *)
Definition same_engineer (s s' : Engineer.Run) : Prop :=
  let e := Engineer.self s in
  let e' := Engineer.self s' in
  Engineer.run_id e' = Engineer.run_id e /\
  Engineer.har_path e' = Engineer.har_path e /\
  Engineer.prompt e' = Engineer.prompt e /\
  Engineer.model e' = Engineer.model e /\
  Engineer.additional_instructions e' = Engineer.additional_instructions e /\
  Engineer.scripts_dir e' = Engineer.scripts_dir e /\
  grows (Engineer.world s) (Engineer.world s').

(** A path and everything above it. *)
Fixpoint ancestors (p : Path) : list Path :=
  p :: match p with
       | [] => []
       | _ :: up => ancestors up
       end.

(** No regular file sits at the path or above it, so the directory can
    be created. *)
Definition unobstructed (f : FS) (p : Path) : Prop :=
  forallb (fun q => negb (is_file f q)) (ancestors p) = true.

(** Every entry of the file system lies in a directory. *)
Definition fs_wf (f : FS) : Prop :=
  map_Forall (fun q _ => is_dir f (parent q) = true) f.

(** The options [analyze_and_generate] configures the agent with. *)
Definition agent_options (e : Engineer.APIReverseEngineer) : Sdk.options :=
  Sdk.Options ["Read"; "Write"; "Bash"; "Glob"; "Grep"; "WebSearch"; "WebFetch"]
    "acceptEdits" (path_str (parent (parent (Engineer.scripts_dir e))))
    (Engineer.model e).

(** The world once [analyze_and_generate] has shown its header and
    entered the client, and sent the query if entering did not raise. *)
Definition analysis_begun (a : Sdk.agent) (e : Engineer.APIReverseEngineer)
    (w : World) : World :=
  let w1 := add_out UiStartAnalysis
              (add_out (UiHeader (Engineer.run_id e) (Engineer.prompt e)
                          (Engineer.model e)) w) in
  let w2 := add_event (EvClientEnter (agent_options e)) w1 in
  match Sdk.enter_fault a with
  | Some _ => w2
  | None => add_event (EvQuery (Engineer._build_analysis_prompt e)) w2
  end.

(** [m] always returns, in a state related to the one it started in. *)
Definition returns {St A} (R : St -> St -> Prop) (m : M St A) : Prop :=
  forall s, exists a s', m s = Ok a s' /\ R s s'.

(** The number a string of lowercase hexadecimal digits denotes. *)
Fixpoint hex_value (s : string) : Z :=
  match s with
  | EmptyString => 0%Z
  | String c s' => (hex_val c * 16 ^ Z.of_nat (String.length s') + hex_value s')%Z
  end.

(** What a directory resolver owes on a well-formed file system: it
    succeeds exactly when no regular file is in the way, a failure changes
    nothing, and a success keeps the file system well-formed, keeps every
    entry there was, and leaves the directory and all above it in place. *)
Definition resolver_contract (resolver : M World Path) (d : Path) (w : World)
    : Prop :=
  (unobstructed (fs w) d <-> exists w', resolver w = Ok d w') /\
  (forall e w', resolver w = Raise e w' -> w' = w) /\
  (forall p w', resolver w = Ok p w' ->
     fs_wf (fs w') /\
     (forall q n, fs w !! q = Some n -> fs w' !! q = Some n) /\
     Forall (fun q => is_dir (fs w') q = true) (ancestors d)).

(** [m] leaves through [sys.exit] only with code 0, and only from the
    state a [close] of the same run has just returned in. *)
Definition exits_closed {A} (env : Env) (m : M Browser.Session A) : Prop :=
  forall s c s', m s = Exit c s' ->
    c = 0%Z /\ exists s0 p, same_run s s0 /\ Browser.close env s0 = Ok p s'.

(** The tools a message's blocks start, and the tools started before
    the terminal event of a stream, in order. *)
Fixpoint block_tools (content : list Sdk.block) : list string :=
  match content with
  | [] => []
  | Sdk.ToolUseBlock name _ :: rest => name :: block_tools rest
  | _ :: rest => block_tools rest
  end.

Fixpoint tool_uses (messages : list Sdk.message) : list string :=
  match messages with
  | [] => []
  | Sdk.AssistantMessage content :: rest => block_tools content ++ tool_uses rest
  | Sdk.ResultMessage _ _ :: _ => []
  | Sdk.OtherMessage :: rest => tool_uses rest
  end.

(** The presenter after it has counted these tools. *)
Definition counted (names : list string) (u : Tui.ClaudeUI) : Tui.ClaudeUI :=
  Tui.MkClaudeUI (Tui.verbose u) (Tui._tool_count u + length names)
    (Tui._tools_used u ++ names).

(** The run after the presenter counted these tools and showed these
    lines; nothing else has changed. *)
Definition presenting (names : list string) (shown : list output)
    (s : Engineer.Run) : Engineer.Run :=
  let e := Engineer.self s in
  let w := Engineer.world s in
  Engineer.MkRun
    (Engineer.MkEngineer (Engineer.run_id e) (Engineer.har_path e)
       (Engineer.prompt e) (Engineer.model e)
       (Engineer.additional_instructions e) (Engineer.scripts_dir e)
       (counted names (Engineer.ui e)))
    (MkWorld (fs w) (out w ++ shown) (trace w)).

(** A line of progress: a tool that starts, a tool that failed, always
    under the name "Tool", or a piece of the agent's text. *)
Definition progress_line (o : output) : Prop :=
  match o with
  | UiToolStart _ _ => True
  | UiToolFailed name => name = "Tool"
  | UiThinking _ => True
  | _ => False
  end.

(** The tools whose start the lines show, in order. *)
Fixpoint shown_tools (shown : list output) : list string :=
  match shown with
  | [] => []
  | UiToolStart name _ :: rest => name :: shown_tools rest
  | _ :: rest => shown_tools rest
  end.

(** The progress lines of these tools, in order. *)
Definition progress_of (names : list string) (shown : list output) : Prop :=
  Forall progress_line shown /\ shown_tools shown = names.

(** The first result message of a stream. *)
Fixpoint first_result (messages : list Sdk.message)
    : option (bool * option string) :=
  match messages with
  | [] => None
  | Sdk.ResultMessage is_error result :: _ => Some (is_error, result)
  | _ :: rest => first_result rest
  end.

(** What leaving the client adds to the terminal: nothing, or the error
    it raised and the installation hint. *)
Definition exit_lines (a : Sdk.agent) : list output :=
  match Sdk.exit_fault a with
  | Some x => [UiError (exn_msg x); UiInstallHint]
  | None => []
  end.

(** How the transcript of an analysis ends once the query is sent: with
    the line of the first result message, or, without one, with the error
    that broke the stream; then what leaving the client adds. *)
Definition ending (a : Sdk.agent) (tools : nat) (script : string) : list output :=
  match first_result (Sdk.stream a) with
  | Some (false, _) => UiSuccess tools script :: exit_lines a
  | Some (true, result) =>
      UiError (Engineer.str_or result "Unknown error") :: exit_lines a
  | None =>
      match Sdk.stream_fault a, Sdk.exit_fault a with
      | Some x, None => [UiError (exn_msg x); UiInstallHint]
      | _, _ => exit_lines a
      end
  end.

(** The prompt the [engineer] command falls back on. *)
Definition fallback_prompt : json := JStr "Reverse engineer the captured APIs".

(** What the commands print once the analysis has returned. *)
Definition announcement (script_path : option string) : list output :=
  match script_path with
  | Some path =>
      [Line (nl +:+ "[green]✓[/green] Generated API script: [cyan]" +:+
             path +:+ "[/cyan]")]
  | None => []
  end.

(** A line the presenter shows, as opposed to a plain printed line. *)
Definition presenter_line (o : output) : Prop :=
  match o with
  | Line _ => False
  | _ => True
  end.

(** Anything but a regular file that holds a JSON object. *)
Definition not_a_record (n : node) : Prop :=
  match n with
  | File (Json (JObj _)) => False
  | _ => True
  end.

(** The metadata file is absent, or holds a record without this key. *)
Definition key_not_stored (f : FS) (metadata : Path) (key : string) : Prop :=
  f !! metadata = None \/
  exists fields, f !! metadata = Some (File (Json (JObj fields))) /\
                 assoc key fields = None.

(** The prompt [engineer] takes from the capture directory: lines 182-186
    of cli.py on their own. *)
Definition stored_prompt (har : Path) : M World json :=
  has_metadata <- path_exists (har / "metadata.json") ;;
  if has_metadata then
    metadata <- json_load (har / "metadata.json") ;;
    Cli.dict_get metadata "prompt" fallback_prompt
  else ret fallback_prompt.



(** The string has no newline character. *)
Definition one_line (s : string) : bool :=
  str_forall (fun c => negb (Ascii.eqb c (ascii_of_nat 10))) s.

(** *** Texts handed to the console.  The lines of cli.py and of the
    presenter go through a console that reads square brackets as markup
    and colon-delimited names as emoji codes.  The model records the text
    handed over; what is stated about such a line is stated for texts the
    console passes through. *)

(** No bracket: nothing in the text is read as a tag. *)
Definition markup_free (s : string) : bool :=
  str_forall (fun c => negb (Ascii.eqb c "[")) s.

(** No bracket and no colon: the text is shown character for character. *)
Definition plain (s : string) : bool :=
  str_forall (fun c => negb (Ascii.eqb c "[") && negb (Ascii.eqb c ":")) s.

Definition markup_free_opt (x : option string) : bool :=
  match x with
  | Some s => markup_free s
  | None => true
  end.

(** [str(prompt)] has no bracket that could open a tag. *)
Definition markup_free_json (j : json) : bool :=
  match j with
  | JStr s => markup_free s
  | JNull | JBool _ | JNum _ => true
  | JArr _ | JObj _ => false
  end.

(** What [header] interpolates. *)
Definition header_plain (run_id : string) (prompt : json) (model : option string)
    : bool :=
  markup_free run_id && markup_free_json prompt && markup_free_opt model.

(** The keys [_summarize_input] reads. *)
Definition summary_keys : list string :=
  ["file_path"; "command"; "pattern"; "query"; "url"].

(** Each field [_summarize_input] may read is absent or a string without
    markup. *)
Definition input_plain (input : list (string * json)) : bool :=
  forallb (fun key => match assoc key input with
                      | None => true
                      | Some (JStr s) => markup_free s
                      | Some _ => false
                      end) summary_keys.

Definition block_plain (b : Sdk.block) : bool :=
  match b with
  | Sdk.ToolUseBlock name input => markup_free name && input_plain input
  | Sdk.TextBlock text => markup_free text
  | Sdk.ToolResultBlock _ | Sdk.OtherBlock => true
  end.

Definition message_plain (m : Sdk.message) : bool :=
  match m with
  | Sdk.AssistantMessage content => forallb block_plain content
  | Sdk.ResultMessage _ result => markup_free_opt result
  | Sdk.OtherMessage => true
  end.

Definition fault_plain (x : option exn) : bool :=
  match x with
  | Some e => markup_free (exn_msg e)
  | None => true
  end.

(** Nothing the agent session makes the presenter print holds markup:
    tool names and the tool inputs summarised, the agent's text, the
    error of a result message, the messages of the exceptions raised. *)
Definition session_plain (a : Sdk.agent) : bool :=
  forallb message_plain (Sdk.stream a) &&
  fault_plain (Sdk.enter_fault a) && fault_plain (Sdk.query_fault a) &&
  fault_plain (Sdk.stream_fault a) && fault_plain (Sdk.exit_fault a).

(** A run identifier as [generate_run_id] makes them. *)
Definition run_token (s : string) : Prop :=
  String.length s = 12 /\ str_forall is_lower_hex s = true.

(** [if script_path: console.print(...)], the last statement of both
    commands. *)
Definition announce (script_path : option string) : M World unit :=
  match script_path with
  | Some path =>
      if decide (path = "") then ret tt
      else print (nl +:+ "[green]✓[/green] Generated API script: [cyan]" +:+
                  path +:+ "[/cyan]")
  | None => ret tt
  end.

End Spec.

(** ** Sample environments, used to run the definitions on concrete inputs *)

Module Sample.
Import Py World.

(** The project lives in [/srv/reverse-api]. *)
Definition root : Path := ["reverse-api"; "srv"].

(** A clock that advances one second per external call for a minute. *)
Definition clock (n : nat) : datetime :=
  DateTime 2024 5 17 10 30 (N.min (N.of_nat n) 59) 250000.

Definition archive : json := JObj [("log", JObj [("entries", JArr [])])].

Definition agent_ok : Sdk.agent :=
  Sdk.Agent None None
    [Sdk.AssistantMessage [Sdk.ToolUseBlock "Read" []; Sdk.TextBlock "ok"];
     Sdk.ResultMessage false None]
    None None.

(** Nothing raises, the operator closes the window at once, no signal. *)
Definition quiet : Env :=
  MkEnv root clock (fun _ => None) (fun _ => false) (fun _ => false)
    archive agent_ok.

Definition disk : FS := {[ ["srv"] := Dir; root := Dir ]}.

Definition w0 : World := MkWorld disk [] [].

Definition rid : string := "a1b2c3d4e5f6".

Definition intent : string := "capture login flow".

(** The capture directory of [rid], as [ManualBrowser.__init__] leaves it. *)
Definition capture_dir : Path := root / "har" / rid.

Definition disk1 : FS :=
  {[ ["srv"] := Dir; root := Dir; root / "har" := Dir; capture_dir := Dir ]}.

Definition w1 : World := MkWorld disk1 [] [].

Definition fresh : Browser.ManualBrowser :=
  Browser.MkManualBrowser rid intent capture_dir
    (capture_dir / "recording.har") (capture_dir / "metadata.json")
    None None None None.

(** A recorder in the middle of a session: all three handles are live. *)
Definition recording : Browser.ManualBrowser :=
  Browser.MkManualBrowser rid intent capture_dir
    (capture_dir / "recording.har") (capture_dir / "metadata.json")
    (Some Browser.PlaywrightObj) (Some Browser.BrowserHandle)
    (Some Browser.ContextObj) (Some "2024-05-17T10:30:00.250000").

(** Every call into the automation engine raises. *)
Definition crashed : Env :=
  MkEnv root clock (fun _ => Some (Exn "Error" "Target closed"))
    (fun _ => false) (fun _ => false) archive agent_ok.

Definition site : string := "https://example.com/login".

(** The scripts directory of [rid], as [APIReverseEngineer.__init__]
    leaves it. *)
Definition scripts_dir : Path := root / "scripts" / rid.

Definition disk2 : FS :=
  <[ root / "scripts" := Dir ]> (<[ scripts_dir := Dir ]> disk1).

Definition w2 : World := MkWorld disk2 [] [].

Definition analyst : Engineer.APIReverseEngineer :=
  Engineer.MkEngineer rid (capture_dir / "recording.har") (JStr intent)
    (Some "sonnet") None scripts_dir (Tui.MkClaudeUI true 0 []).

(** The agent reports success, then leaving the client raises. *)
Definition agent_exit_breaks : Sdk.agent :=
  Sdk.Agent None None [Sdk.ResultMessage false (Some "done")] None
    (Some (Exn "RuntimeError" "Attempted to exit cancel scope in a different task")).

Definition exit_breaks : Env :=
  MkEnv root clock (fun _ => None) (fun _ => false) (fun _ => false)
    archive agent_exit_breaks.

(** The world a capture session of [fresh] leaves behind. *)
Definition captured : World :=
  Browser.world
    (final (Browser.start quiet 3 None (Browser.MkSession fresh w1))).

(** The record that session wrote to [metadata.json]. *)
Definition captured_fields : list (string * json) :=
  [("run_id", JStr rid); ("prompt", JStr intent);
   ("start_time", JStr "2024-05-17T10:30:00.250000");
   ("end_time", JStr "2024-05-17T10:30:08.250000");
   ("har_file", JStr "/srv/reverse-api/har/a1b2c3d4e5f6/recording.har")].

(** The page stays open and an interrupt arrives during every wait. *)
Definition interrupted : Env :=
  MkEnv root clock (fun _ => None) (fun _ => true) (fun _ => true)
    archive agent_ok.

(** The browser cannot be launched: the fifth external call raises. *)
Definition no_browser : Env :=
  MkEnv root clock
    (fun n => if decide (n = 4) then Some (Exn "Error" "Executable doesn't exist")
              else None)
    (fun _ => false) (fun _ => false) archive agent_ok.


(** Two tools are used and the second fails, then the agent succeeds. *)
Definition agent_tools : Sdk.agent :=
  Sdk.Agent None None
    [Sdk.AssistantMessage
       [Sdk.ToolUseBlock "Read" [("file_path", JStr "recording.har")];
        Sdk.ToolUseBlock "Bash" [("command", JStr "python3 api_client.py")];
        Sdk.ToolResultBlock (Some true)];
     Sdk.ResultMessage false None;
     Sdk.AssistantMessage [Sdk.ToolUseBlock "Write" []]]
    None None.

Definition tooling : Env :=
  MkEnv root clock (fun _ => None) (fun _ => false) (fun _ => false)
    archive agent_tools.

(** The stream ends without a result message; nothing raises. *)
Definition agent_trails_off : Sdk.agent :=
  Sdk.Agent None None
    [Sdk.AssistantMessage [Sdk.ToolUseBlock "Glob" [("pattern", JStr "*.har")]];
     Sdk.OtherMessage]
    None None.

Definition trailing_off : Env :=
  MkEnv root clock (fun _ => None) (fun _ => false) (fun _ => false)
    archive agent_trails_off.

(** As [agent_tools] up to the result message; then the stream breaks. *)
Definition agent_tools_cut : Sdk.agent :=
  Sdk.Agent None None
    [Sdk.AssistantMessage
       [Sdk.ToolUseBlock "Read" [("file_path", JStr "recording.har")];
        Sdk.ToolUseBlock "Bash" [("command", JStr "python3 api_client.py")];
        Sdk.ToolResultBlock (Some true)];
     Sdk.ResultMessage false None]
    (Some (Exn "CLIConnectionError" "stream closed")) None.

Definition tooling_cut : Env :=
  MkEnv root clock (fun _ => None) (fun _ => false) (fun _ => false)
    archive agent_tools_cut.

(** A capture directory that holds the archive and nothing else. *)
Definition archive_only : World :=
  MkWorld (<[ capture_dir / "recording.har" := File (Json archive) ]> disk1) [] [].

(** The same with a metadata file cut short while it was written. *)
Definition garbled : World :=
  MkWorld (<[ capture_dir / "metadata.json" := File (Raw "{") ]> (fs archive_only))
    [] [].

(** A random draw and the identifier it gives. *)
Definition draw : Z := 0xa1b2c3d4e5f60718293a4b5c6d7e8f90.

(** The operator cancels every question. *)
Definition no_answers : Cli.Answers := Cli.MkAnswers None None None None.

End Sample.

(* ===================================================================== *)
(** * Part II.  Properties                                                *)
(* ===================================================================== *)

(** ** Strings: fixed-width hexadecimal and decimal fields *)

Section Digits.
Import Py.

Lemma str_take_length n s :
  String.length (str_take n s) = Nat.min n (String.length s).
Proof.
  revert s. induction n as [|n IH]; intros [|c s]; simpl; auto.
Qed.

Lemma hex_fixed_length w n : String.length (hex_fixed w n) = w.
Proof. induction w as [|w IH]; simpl; auto. Qed.

Lemma small_cases (d : Z) : (0 <= d < 16)%Z ->
  In d [0; 1; 2; 3; 4; 5; 6; 7; 8; 9; 10; 11; 12; 13; 14; 15]%Z.
Proof. intros H. simpl. lia. Qed.

Lemma hex_char_lower d : (0 <= d < 16)%Z -> is_lower_hex (hex_char d) = true.
Proof.
  intros H. apply small_cases in H. simpl in H.
  repeat (destruct H as [<-|H]; [reflexivity|]). destruct H.
Qed.

Lemma hex_val_char d : (0 <= d < 16)%Z -> hex_val (hex_char d) = d.
Proof.
  intros H. apply small_cases in H. simpl in H.
  repeat (destruct H as [<-|H]; [reflexivity|]). destruct H.
Qed.

Lemma hex_fixed_lower w n : str_forall is_lower_hex (hex_fixed w n) = true.
Proof.
  induction w as [|w IH]; simpl; [reflexivity|].
  rewrite IH, hex_char_lower; [reflexivity|]. apply Z.mod_pos_bound. lia.
Qed.

(** The first [k] digits of a [(k + m)]-digit field are the field of the
    number shifted right by [m] digits. *)
Lemma str_take_hex_fixed k m n :
  str_take k (hex_fixed (k + m) n) = hex_fixed k (n / 16 ^ Z.of_nat m).
Proof.
  induction k as [|k IH]; simpl.
  - destruct (hex_fixed m n); reflexivity.
  - rewrite IH. f_equal. f_equal.
    rewrite Z.div_div by lia. rewrite <- Z.pow_add_r by lia.
    do 3 f_equal. lia.
Qed.

Lemma hex_fixed_inj w a b :
  hex_fixed w a = hex_fixed w b -> (a mod 16 ^ Z.of_nat w = b mod 16 ^ Z.of_nat w)%Z.
Proof.
  induction w as [|w IH]; intros H.
  - simpl. now rewrite !Z.mod_1_r.
  - simpl in H. injection H as Hc Ht. apply IH in Ht.
    apply (f_equal hex_val) in Hc.
    rewrite !hex_val_char in Hc by (apply Z.mod_pos_bound; lia).
    replace (16 ^ Z.of_nat (S w))%Z with (16 ^ Z.of_nat w * 16)%Z
      by (rewrite Nat2Z.inj_succ, Z.pow_succ_r by lia; lia).
    rewrite !Z.rem_mul_r by lia. congruence.
Qed.

(** Setting the variant and version bits leaves bits 80 and above alone. *)
Lemma uuid4_high r : (uuid4 r / 2 ^ 80 = r / 2 ^ 80)%Z.
Proof.
  rewrite <- !Z.shiftr_div_pow2 by lia.
  apply Z.bits_inj'. intros n Hn.
  rewrite !Z.shiftr_spec by lia. unfold uuid4.
  rewrite Z.lor_spec, Z.land_spec, Z.lor_spec, Z.land_spec.
  rewrite !Z.lnot_spec by lia. rewrite !Z.shiftl_spec by lia.
  rewrite (Z.bits_above_log2 49152) by (simpl; lia).
  rewrite (Z.bits_above_log2 32768) by (simpl; lia).
  rewrite (Z.bits_above_log2 61440) by (simpl; lia).
  rewrite (Z.bits_above_log2 4) by (simpl; lia).
  simpl. now rewrite !orb_false_r, !andb_true_r.
Qed.

End Digits.

(** ** The file system *)

Section FileSystem.
Import Py Spec.
Implicit Types (fs : FS) (p q : Path).

Lemma os_mkdir_inr p fs fs' :
  os_mkdir p fs = inr fs' -> fs !! p = None /\ p <> [] /\ fs' = <[p := Dir]> fs.
Proof.
  unfold os_mkdir. destruct p as [|c up]; simpl; [easy|].
  destruct (fs !! (c :: up)) eqn:E; [easy|].
  destruct (lookup_node fs up) as [[|?]|]; intros H; inversion H; auto.
Qed.

Lemma is_dir_insert_dir p fs : p <> [] -> is_dir (<[p := Dir]> fs) p = true.
Proof.
  intros Hp. unfold is_dir, lookup_node. destruct p; [congruence|].
  now rewrite lookup_insert_eq.
Qed.

Lemma extends_by_dirs_refl p fs : extends_by_dirs p fs fs.
Proof. intros q. now left. Qed.

Lemma extends_by_dirs_insert p fs :
  fs !! p = None -> extends_by_dirs p fs (<[p := Dir]> fs).
Proof.
  intros Hp q. destruct (decide (p = q)) as [<-|Hne].
  - right. rewrite lookup_insert_eq. auto.
  - left. now rewrite lookup_insert_ne.
Qed.

Lemma extends_by_dirs_trans p c fs1 fs2 fs3 :
  extends_by_dirs p fs1 fs2 -> extends_by_dirs (c :: p) fs2 fs3 ->
  extends_by_dirs (c :: p) fs1 fs3.
Proof.
  intros H12 H23 q.
  destruct (H12 q) as [E12|(N1 & D2 & S)], (H23 q) as [E23|(N2 & D3 & S')].
  - left. congruence.
  - right. rewrite <- E12. auto.
  - right. rewrite E23. split; [auto|]. split; [auto|]. now apply suffix_cons_r.
  - congruence.
Qed.

Lemma mkdir_exist_ok_inr p fs fs' :
  mkdir_exist_ok p fs = inr fs' -> is_dir fs' p = true /\ extends_by_dirs p fs fs'.
Proof.
  unfold mkdir_exist_ok. destruct (os_mkdir p fs) as [e|f] eqn:E.
  - destruct e; try easy;
      (destruct (is_dir fs p) eqn:D; [|easy]);
      intros H; inversion H; subst; auto using extends_by_dirs_refl.
  - intros H. inversion H; subst. apply os_mkdir_inr in E as (N & Hp & ->).
    auto using is_dir_insert_dir, extends_by_dirs_insert.
Qed.

Lemma mkdir_parents_inr p : forall fs fs',
  mkdir_parents p fs = inr fs' -> is_dir fs' p = true /\ extends_by_dirs p fs fs'.
Proof.
  induction p as [|c up IH]; intros fs fs'.
  - simpl. intros H. inversion H; subst. auto using extends_by_dirs_refl.
  - cbn [mkdir_parents]. destruct (os_mkdir (c :: up) fs) as [e|f] eqn:E.
    + destruct e.
      * destruct (mkdir_parents up fs) as [e1|f1] eqn:E1; [easy|].
        intros H. apply IH in E1 as [_ X1].
        apply mkdir_exist_ok_inr in H as [D X2].
        split; [exact D|]. eapply extends_by_dirs_trans; eauto.
      * destruct (is_dir fs (c :: up)) eqn:D; [|easy].
        intros H. inversion H; subst. auto using extends_by_dirs_refl.
      * destruct (is_dir fs (c :: up)) eqn:D; [|easy].
        intros H. inversion H; subst. auto using extends_by_dirs_refl.
      * destruct (is_dir fs (c :: up)) eqn:D; [|easy].
        intros H. inversion H; subst. auto using extends_by_dirs_refl.
    + intros H. inversion H; subst. apply os_mkdir_inr in E as (N & Hp & ->).
      auto using is_dir_insert_dir, extends_by_dirs_insert.
Qed.

(** [exist_ok]: a directory that is already there is no error and no change. *)
Lemma mkdir_parents_is_dir p fs :
  is_dir fs p = true -> mkdir_parents p fs = inr fs.
Proof.
  intros D. assert (E : os_mkdir p fs = inl EEXIST).
  { unfold os_mkdir. unfold is_dir in D.
    destruct (lookup_node fs p) as [[|?]|]; congruence. }
  destruct p; cbn [mkdir_parents]; rewrite E, D; reflexivity.
Qed.

End FileSystem.

(** ** Run identifiers and the directory resolvers *)

Section Identity.
Import Py World Utils Spec.

Lemma generate_run_id_prefix r :
  generate_run_id r = hex_fixed 12 (r / 2 ^ 80).
Proof.
  unfold generate_run_id, UUID_hex.
  change 32 with (12 + 20). rewrite str_take_hex_fixed.
  change (16 ^ Z.of_nat 20)%Z with (2 ^ 80)%Z. now rewrite uuid4_high.
Qed.

Lemma generate_run_id_inj r1 r2 :
  random128 r1 -> random128 r2 ->
  generate_run_id r1 = generate_run_id r2 <-> (r1 / 2 ^ 80 = r2 / 2 ^ 80)%Z.
Proof.
  intros H1 H2. rewrite !generate_run_id_prefix. split; [|congruence].
  intros H. apply hex_fixed_inj in H.
  change (16 ^ Z.of_nat 12)%Z with (2 ^ 48)%Z in H.
  assert (B : forall r, random128 r -> (0 <= r / 2 ^ 80 < 2 ^ 48)%Z).
  { intros r [L U]. split; [apply Z.div_pos; lia|].
    apply Z.div_lt_upper_bound; [lia|]. 
    replace (2 ^ 80 * 2 ^ 48)%Z with (2 ^ 128)%Z by reflexivity. exact U. }
  rewrite !Z.mod_small in H by auto. exact H.
Qed.

Lemma NoDup_fmap_equiv {A B C} (f : A -> B) (g : A -> C) (l : list A) :
  (forall x y, x ∈ l -> y ∈ l -> f x = f y <-> g x = g y) ->
  NoDup (f <$> l) <-> NoDup (g <$> l).
Proof.
  induction l as [|a l IH]; intros H; simpl.
  - split; constructor.
  - assert (IH' : NoDup (f <$> l) <-> NoDup (g <$> l)).
    { apply IH. intros x y Hx Hy. apply H; now right. }
    assert (Hin : f a ∈ f <$> l <-> g a ∈ g <$> l).
    { rewrite !list_elem_of_fmap.
      split; intros (x & E & Hx); exists x; split; auto;
        apply (H a x); auto; [left|now right|left|now right]. }
    rewrite !NoDup_cons. tauto.
Qed.

Lemma mkdir_Ok p w :
  is_dir (fs w) p = true -> mkdir p w = Ok tt w.
Proof.
  intros D. unfold mkdir, bind, get, lift_os.
  rewrite mkdir_parents_is_dir by exact D. destruct w; reflexivity.
Qed.

Lemma mkdir_outcome p w :
  (exists f, mkdir_parents p (fs w) = inr f /\ mkdir p w = Ok tt (set_fs f w)) \/
  (exists e, mkdir_parents p (fs w) = inl e /\ mkdir p w = Raise (OSError e p) w).
Proof.
  unfold mkdir, bind, get, lift_os.
  destruct (mkdir_parents p (fs w)) as [e|f]; [right|left]; eauto.
Qed.

Lemma resolve_outcome d w :
  (exists f, mkdir_parents d (fs w) = inr f /\ resolve d w = Ok d (set_fs f w)) \/
  (exists e, mkdir_parents d (fs w) = inl e /\ resolve d w = Raise (OSError e d) w).
Proof.
  unfold resolve, bind.
  destruct (mkdir_outcome d w) as [(f & E & ->)|(e & E & ->)]; [left|right]; eauto.
Qed.

Lemma resolve_Ok d w p w' :
  resolve d w = Ok p w' ->
  p = d /\ is_dir (fs w') d = true /\ extends_by_dirs d (fs w) (fs w') /\
  out w' = out w /\ trace w' = trace w.
Proof.
  destruct (resolve_outcome d w) as [(f & E & ->)|(e & E & ->)]; [|easy].
  intros H. inversion H; subst. apply mkdir_parents_inr in E as [D X].
  simpl. auto.
Qed.

Lemma resolve_present d w : is_dir (fs w) d = true -> resolve d w = Ok d w.
Proof. intros D. unfold resolve, bind. now rewrite mkdir_Ok. Qed.

Lemma resolve_idempotent d w p w' :
  resolve d w = Ok p w' -> resolve d w' = Ok p w'.
Proof.
  intros H. apply resolve_Ok in H as (-> & D & _). now apply resolve_present.
Qed.

(** Two draws that differ only below bit 80 give the same token, so the
    distinctness of tokens rests on the random source alone. *)
Example generate_run_id_collision :
  generate_run_id 0 = generate_run_id 1 /\ generate_run_id 0 = "000000000000".
Proof. split; reflexivity. Qed.

End Identity.

(** ** Timestamps: [isoformat] is well-formed and keeps the order *)

Section IsoFormat.
Import Py.

Lemma digit_char_code d : (d < 10)%N -> N_of_ascii (digit_char d) = (48 + d)%N.
Proof. intros H. unfold digit_char. apply N_ascii_embedding. lia. Qed.

Lemma digit_char_is_digit d : (d < 10)%N -> is_digit (digit_char d) = true.
Proof.
  intros H. unfold is_digit, nat_of_ascii. rewrite digit_char_code by exact H.
  apply andb_true_intro. split; apply Nat.leb_le; lia.
Qed.

Lemma digit_char_compare a b :
  (a < 10)%N -> (b < 10)%N ->
  Ascii.compare (digit_char a) (digit_char b) = (a ?= b)%N.
Proof.
  intros Ha Hb. unfold Ascii.compare. rewrite !digit_char_code by assumption.
  destruct (N.compare_spec a b);
    [apply N.compare_eq_iff|apply N.compare_lt_iff|apply N.compare_gt_iff]; lia.
Qed.

Lemma append_cons c s1 s2 : String c s1 +:+ s2 = String c (s1 +:+ s2).
Proof. reflexivity. Qed.

Lemma append_empty_r s : s +:+ "" = s.
Proof. induction s as [|c s IH]; [reflexivity|]. now rewrite append_cons, IH. Qed.

Lemma mod10_lt n : (n mod 10 < 10)%N.
Proof. apply N.mod_lt. lia. Qed.

(** A decimal field is made of digits. *)
Lemma matches_dec_fixed w : forall n pattern s,
  matches (replicate w None ++ pattern) (dec_fixed w n +:+ s) = matches pattern s.
Proof.
  induction w as [|w IH]; intros n pattern s; [reflexivity|].
  cbn [replicate dec_fixed app]. rewrite append_cons. cbn [matches].
  rewrite digit_char_is_digit by apply mod10_lt. apply IH.
Qed.

Lemma matches_literal c pattern s :
  matches (Some c :: pattern) (String c "" +:+ s) = matches pattern s.
Proof.
  rewrite append_cons. cbn [matches]. rewrite bool_decide_eq_true_2 by reflexivity.
  reflexivity.
Qed.

Lemma isoformat_is_iso8601 t : is_iso8601 (isoformat t) = true.
Proof.
  unfold is_iso8601, isoformat.
  change iso_pattern with
    (replicate 4 None ++ Some "-"%char :: replicate 2 None ++ Some "-"%char ::
     replicate 2 None ++ Some "T"%char :: replicate 2 None ++ Some ":"%char ::
     replicate 2 None ++ Some ":"%char :: replicate 2 (@None ascii) ++ []).
  repeat (rewrite matches_dec_fixed || rewrite matches_literal).
  cbn [matches]. destruct (decide (microsecond t = 0%N)); [reflexivity|].
  rewrite append_cons. change ("" +:+ ?x) with x.
  rewrite <- (append_empty_r (dec_fixed 6 _)).
  rewrite <- (app_nil_r (replicate 6 None)).
  now rewrite matches_dec_fixed.
Qed.

(** Comparing two numbers is comparing their quotients, then their
    remainders. *)
Lemma compare_div_mod a b d :
  (0 < d)%N ->
  (a ?= b)%N = match (a / d ?= b / d)%N with
               | Eq => (a mod d ?= b mod d)%N
               | c => c
               end.
Proof.
  intros Hd.
  pose proof (N.div_mod a d ltac:(lia)) as Ea.
  pose proof (N.div_mod b d ltac:(lia)) as Eb.
  pose proof (N.mod_lt a d ltac:(lia)) as La.
  pose proof (N.mod_lt b d ltac:(lia)) as Lb.
  revert Ea Eb La Lb.
  generalize (a / d)%N (a mod d)%N (b / d)%N (b mod d)%N.
  intros qa ra qb rb -> -> La Lb.
  destruct (N.compare_spec qa qb) as [E|L|L].
  - subst qb. destruct (N.compare_spec ra rb) as [E'|L'|L'].
    + apply N.compare_eq_iff. congruence.
    + apply N.compare_lt_iff. lia.
    + apply N.compare_gt_iff. lia.
  - apply N.compare_lt_iff.
    assert (d * (qa + 1) <= d * qb)%N by (apply N.mul_le_mono_l; lia). lia.
  - apply N.compare_gt_iff.
    assert (d * (qb + 1) <= d * qa)%N by (apply N.mul_le_mono_l; lia). lia.
Qed.

Lemma pow10_pos w : (0 < 10 ^ N.of_nat w)%N.
Proof. apply N.neq_0_lt_0, N.pow_nonzero. lia. Qed.

(** Fixed-width decimal fields compare as the numbers they show. *)
Lemma compare_dec_fixed w : forall a b s1 s2,
  (a < 10 ^ N.of_nat w)%N -> (b < 10 ^ N.of_nat w)%N ->
  String.compare (dec_fixed w a +:+ s1) (dec_fixed w b +:+ s2) =
  match (a ?= b)%N with
  | Eq => String.compare s1 s2
  | c => c
  end.
Proof.
  induction w as [|w IH]; intros a b s1 s2 Ha Hb.
  - simpl in Ha, Hb. assert (a = 0%N) by lia. assert (b = 0%N) by lia. now subst.
  - cbn [dec_fixed]. rewrite !append_cons. cbn [String.compare].
    pose proof (pow10_pos w) as Hp.
    assert (E : (10 ^ N.of_nat (S w) = 10 * 10 ^ N.of_nat w)%N).
    { rewrite Nat2N.inj_succ, N.pow_succ_r'. reflexivity. }
    rewrite E in Ha, Hb.
    assert (Qa : (a / 10 ^ N.of_nat w < 10)%N)
      by (apply N.Div0.div_lt_upper_bound; lia).
    assert (Qb : (b / 10 ^ N.of_nat w < 10)%N)
      by (apply N.Div0.div_lt_upper_bound; lia).
    rewrite !N.mod_small by assumption.
    rewrite digit_char_compare by assumption.
    rewrite (compare_div_mod a b (10 ^ N.of_nat w)) by exact Hp.
    destruct (a / 10 ^ N.of_nat w ?= b / 10 ^ N.of_nat w)%N; try reflexivity.
    apply IH; apply N.mod_lt; lia.
Qed.

Lemma compare_literal c s1 s2 :
  String.compare (String c "" +:+ s1) (String c "" +:+ s2) = String.compare s1 s2.
Proof.
  rewrite !append_cons. cbn [String.compare].
  replace (Ascii.compare c c) with Eq; [reflexivity|].
  symmetry. unfold Ascii.compare. apply N.compare_refl.
Qed.

(** The fraction [isoformat] appends: nothing for zero microseconds. *)
Lemma compare_fraction a b :
  (a < 1000000)%N -> (b < 1000000)%N ->
  String.compare
    (if decide (a = 0%N) then "" else "." +:+ dec_fixed 6 a)
    (if decide (b = 0%N) then "" else "." +:+ dec_fixed 6 b) = (a ?= b)%N.
Proof.
  intros Ha Hb.
  destruct (decide (a = 0%N)) as [->|Na], (decide (b = 0%N)) as [->|Nb].
  - reflexivity.
  - rewrite append_cons. cbn [String.compare]. symmetry.
    apply N.compare_lt_iff. lia.
  - rewrite append_cons. cbn [String.compare]. symmetry.
    apply N.compare_gt_iff. lia.
  - rewrite <- (append_empty_r (dec_fixed 6 a)), <- (append_empty_r (dec_fixed 6 b)).
    rewrite compare_literal, compare_dec_fixed by exact Ha || exact Hb.
    destruct (a ?= b)%N; reflexivity.
Qed.

(** Strings produced by [isoformat] compare as the instants they denote. *)
Lemma isoformat_compare t u :
  dt_valid t -> dt_valid u ->
  String.compare (isoformat t) (isoformat u) = dt_compare t u.
Proof.
  intros (Y & Mo & D & H & Mi & S & U) (Y' & Mo' & D' & H' & Mi' & S' & U').
  unfold isoformat, dt_compare, dt_fields. cbn [lex_compare].
  rewrite compare_dec_fixed by (simpl; lia).
  rewrite compare_literal, compare_dec_fixed by (simpl; lia).
  rewrite compare_literal, compare_dec_fixed by (simpl; lia).
  rewrite compare_literal, compare_dec_fixed by (simpl; lia).
  rewrite compare_literal, compare_dec_fixed by (simpl; lia).
  rewrite compare_literal, compare_dec_fixed by (simpl; lia).
  rewrite compare_fraction by assumption.
  destruct (year t ?= year u)%N, (month t ?= month u)%N, (day t ?= day u)%N,
    (hour t ?= hour u)%N, (minute t ?= minute u)%N, (second t ?= second u)%N,
    (microsecond t ?= microsecond u)%N; reflexivity.
Qed.

Lemma isoformat_le t u :
  dt_valid t -> dt_valid u -> dt_le t u ->
  String.leb (isoformat t) (isoformat u) = true.
Proof.
  intros Vt Vu L. unfold String.leb. rewrite isoformat_compare by assumption.
  unfold dt_le in L. destruct (dt_compare t u); congruence.
Qed.

End IsoFormat.

(** ** The session recorder: what [close] does *)

Section Close.
Import Py World Utils Browser Spec.
Variable env : Env.
Implicit Types (b : ManualBrowser) (w : World) (s : Session).

Lemma call_final ev w : final (call env ev w) = add_event ev w.
Proof. unfold call. destruct (e_fault env (time w)); reflexivity. Qed.

Lemma call_settles ev w : settles (call env ev w).
Proof. unfold call. destruct (e_fault env (time w)); exact I. Qed.

Lemma context_close_settles har w : settles (context_close env har w).
Proof.
  unfold context_close, bind, get, call.
  destruct (e_fault env (time w)); simpl; [exact I|].
  destruct (write_file har _ _); exact I.
Qed.

(** [context.close()] is logged once and touches the archive file only. *)
Lemma context_close_final har w :
  let w' := final (context_close env har w) in
  trace w' = trace w ++ [EvContextClose] /\ out w' = out w /\
  forall q, q <> har -> fs w' !! q = fs w !! q.
Proof.
  unfold context_close, bind, get, call.
  destruct (e_fault env (time w)); simpl; [auto|].
  destruct (write_file har _ _) as [e|f] eqn:E; simpl; [auto|].
  repeat split; auto. intros q Hq. unfold write_file in E.
  destruct (lookup_node _ har) as [[|?]|]; try easy;
    destruct (lookup_node _ (parent har)) as [[|?]|]; try easy;
    inversion E; subst; now rewrite lookup_insert_ne.
Qed.

(** A guarded teardown step never fails. *)
Lemma try_pass_io (m : M World unit) s :
  settles (m (world s)) ->
  try_pass (io m) s = Ok tt (set_world (final (m (world s))) s).
Proof.
  unfold try_pass, try_except, bind, io, zoom, ret.
  destruct (m (world s)); simpl; intros H; try reflexivity; destruct H.
Qed.

Lemma after_teardown_trace b w :
  trace (after_teardown env b w) = trace w ++ teardown_steps b.
Proof.
  unfold after_teardown, teardown_steps.
  destruct (_context b), (_browser b), (_playwright b); simpl;
    rewrite ?call_final; simpl;
    rewrite ?(proj1 (context_close_final _ _)); simpl;
    rewrite <- ?app_assoc; simpl; rewrite ?app_nil_r; reflexivity.
Qed.


Lemma after_teardown_fs b w q :
  q <> har_path b -> fs (after_teardown env b w) !! q = fs w !! q.
Proof.
  intros Hq. unfold after_teardown.
  destruct (_context b), (_browser b), (_playwright b); simpl;
    rewrite ?call_final; simpl;
    rewrite ?(proj2 (proj2 (context_close_final _ _))); auto.
Qed.

Lemma after_teardown_idle b w :
  _context b = None -> _browser b = None -> _playwright b = None ->
  after_teardown env b w = w.
Proof. intros C B P. unfold after_teardown. now rewrite C, B, P. Qed.

(** [close], step by step: read the clock, run the three guarded steps,
    then write the metadata; only that write decides the outcome. *)
Lemma close_run b w :
  let t := e_now env (time w) in
  let w' := after_teardown env b (add_event (EvNow t) w) in
  close env (MkSession b w) =
  match write_file (metadata_path b)
          (Json (metadata_of (torn_down b) (isoformat t))) (fs w') with
  | inr f =>
      Ok (har_path b)
         (MkSession (torn_down b) (printed (close_lines b) (set_fs f w')))
  | inl e =>
      Raise (OSError e (metadata_path b)) (MkSession (torn_down b) w')
  end.
Proof.
  intros t w'. subst w'. unfold close.
  unfold bind at 1. unfold io at 1, zoom, get_timestamp, bind at 1, now.
  cbn [world self set_world ret].
  fold t. set (w1 := add_event (EvNow t) w).
  destruct b as [rid pr hd hp mp pw br cx st].
  unfold after_teardown, torn_down, close_lines, printed.
  Opaque call context_close write_file.
  destruct cx as [[]|], br as [[]|], pw as [[]|];
    unfold bind, attr, gets, assign, modify, set_world, set_self,
      set_context, set_browser, set_playwright; simpl;
    repeat (rewrite try_pass_io by
              (simpl; auto using call_settles, context_close_settles);
            unfold set_world; simpl);
    unfold _save_metadata, json_dump, io, zoom, bind, attr, gets, get,
      lift_os, raise, ret, modify, print, set_world; simpl;
    match goal with
    | |- context [write_file ?p ?c ?f] => destruct (write_file p c f)
    end; reflexivity.
  Transparent call context_close write_file.
Qed.


Lemma printed_fs lines w : fs (printed lines w) = fs w.
Proof.
  unfold printed. revert w.
  induction lines as [|l ls IH]; intros w; simpl; [reflexivity|].
  now rewrite IH.
Qed.

Lemma printed_trace lines w : trace (printed lines w) = trace w.
Proof.
  unfold printed. revert w.
  induction lines as [|l ls IH]; intros w; simpl; [reflexivity|].
  now rewrite IH.
Qed.

End Close.

(** ** The session recorder: what stays the same during a run *)

Section Steady.
Import Py Spec.
Context {St : Type} (R : St -> St -> Prop) `{!PreOrder R}.

Lemma final_bind {A B} (m : M St A) (k : A -> M St B) s :
  final (bind m k s) =
  match m s with
  | Ok a s' => final (k a s')
  | r => final r
  end.
Proof. unfold bind. destruct (m s); reflexivity. Qed.

Lemma final_try_pass {A} (m : M St A) s : final (try_pass m s) = final (m s).
Proof.
  unfold try_pass, try_except, bind, ret. destruct (m s); reflexivity.
Qed.

Lemma steady_ret {A} (a : A) : steady R (ret a).
Proof. intros s. simpl. reflexivity. Qed.

Lemma steady_raise {A} e : steady R (@raise St A e).
Proof. intros s. simpl. reflexivity. Qed.

Lemma steady_sys_exit {A} c : steady R (@sys_exit St A c).
Proof. intros s. simpl. reflexivity. Qed.

Lemma steady_gets {A} (f : St -> A) : steady R (gets f).
Proof. intros s. simpl. reflexivity. Qed.

Lemma steady_bind {A B} (m : M St A) (k : A -> M St B) :
  steady R m -> (forall a, steady R (k a)) -> steady R (bind m k).
Proof.
  intros Hm Hk s. rewrite final_bind. specialize (Hm s).
  destruct (m s) as [a s'| | |]; simpl in *; auto.
  etransitivity; [exact Hm|apply Hk].
Qed.

Lemma steady_try_pass {A} (m : M St A) : steady R m -> steady R (try_pass m).
Proof. intros Hm s. rewrite final_try_pass. apply Hm. Qed.

(** A computation that returns passed through a state its steady prefix
    reached. *)
Lemma bind_Ok_inv {A B} (m : M St A) (k : A -> M St B) s b s2 :
  steady R m -> bind m k s = Ok b s2 ->
  exists a s1, R s s1 /\ k a s1 = Ok b s2.
Proof.
  intros Hm. specialize (Hm s). unfold bind.
  destruct (m s) as [a s1| | |]; try easy. simpl in Hm. eauto.
Qed.

End Steady.

Section SameRun.
Import Py World Utils Browser Spec.
Variable env : Env.

#[local] Instance same_run_preorder : PreOrder same_run.
Proof.
  split.
  - intros s. unfold same_run. repeat split; reflexivity.
  - intros s1 s2 s3 (A1 & A2 & A3 & A4 & A5 & A6 & A7)
      (B1 & B2 & B3 & B4 & B5 & B6 & B7).
    unfold same_run. repeat split; try congruence. etransitivity; eauto.
Qed.

Lemma io_final {A} (m : M World A) s :
  final (io m s) = set_world (final (m (world s))) s.
Proof. unfold io, zoom. destruct (m (world s)); reflexivity. Qed.

(** Statements that touch the world only by logging or printing. *)
Lemma steady_io {A} (m : M World A) :
  (forall w, trace w `prefix_of` trace (final (m w))) ->
  steady same_run (io m).
Proof.
  intros H s. rewrite io_final. unfold same_run. simpl. repeat split; auto.
Qed.

Lemma steady_call ev : steady same_run (io (call env ev)).
Proof.
  apply steady_io. intros w. rewrite call_final. simpl. now apply prefix_app_r.
Qed.

Lemma steady_print text : steady same_run (io (print text)).
Proof. apply steady_io. intros w. reflexivity. Qed.

Lemma steady_context_close har : steady same_run (io (context_close env har)).
Proof.
  apply steady_io. intros w.
  rewrite (proj1 (context_close_final env har w)). now apply prefix_app_r.
Qed.

Lemma steady_assign (f : ManualBrowser -> ManualBrowser) :
  (forall b, run_id (f b) = run_id b /\ prompt (f b) = prompt b /\
             har_dir (f b) = har_dir b /\ har_path (f b) = har_path b /\
             metadata_path (f b) = metadata_path b /\
             _start_time (f b) = _start_time b) ->
  steady same_run (assign f).
Proof.
  intros H s. unfold assign, modify, same_run. simpl.
  destruct (H (self s)) as (? & ? & ? & ? & ? & ?). repeat split; auto.
Qed.

Lemma steady_attr {A} (f : ManualBrowser -> A) : steady same_run (attr f).
Proof. intros s. simpl. reflexivity. Qed.

Lemma steady_close : steady same_run (close env).
Proof.
  intros [b w]. rewrite close_run.
  set (t := e_now env (time w)).
  assert (P : trace w `prefix_of`
              trace (after_teardown env b (add_event (EvNow t) w))).
  { rewrite after_teardown_trace. simpl. rewrite <- app_assoc.
    now apply prefix_app_r. }
  destruct (write_file _ _ _); unfold same_run; simpl;
    rewrite ?printed_trace; simpl; repeat split; auto.
Qed.

Create HintDb steady.
#[local] Hint Resolve same_run_preorder steady_ret steady_raise
  steady_sys_exit steady_gets steady_try_pass steady_call steady_print
  steady_context_close steady_attr steady_close : steady.
#[local] Hint Extern 1 (steady _ (assign _)) =>
  (apply steady_assign; intros []; repeat split) : steady.

(** Split a block into its statements and settle each one. *)
Ltac steady_block :=
  repeat first
    [ solve [auto with steady]
    | apply (steady_bind same_run); [|intros ?]
    | match goal with
      | |- steady _ (match ?x with _ => _ end) => destruct x
      end ].

Lemma steady_handle_signal {A} : steady same_run (@_handle_signal env A).
Proof. unfold _handle_signal. steady_block. Qed.

Lemma steady_wait_for_timeout ms : steady same_run (wait_for_timeout env ms).
Proof.
  unfold wait_for_timeout.
  apply (steady_bind same_run); [auto with steady|]. intros t.
  apply (steady_bind same_run); [auto with steady|]. intros _.
  destruct (e_signal env t); auto using steady_handle_signal with steady.
Qed.

Lemma steady_pages : steady same_run (pages env).
Proof. unfold pages. steady_block. Qed.

Lemma steady_wait_until_closed budget :
  steady same_run (wait_until_closed env budget).
Proof.
  induction budget as [|n IH]; simpl.
  - intros s. simpl. reflexivity.
  - apply (steady_bind same_run); [apply steady_pages|].
    intros [|]; [|auto with steady].
    apply (steady_bind same_run); [apply steady_pages|]. intros first.
    apply (steady_bind same_run); [|intros _; exact IH].
    destruct first; auto using steady_wait_for_timeout with steady.
Qed.

Lemma steady_wait : forall budget,
  steady same_run (try_pass (wait_until_closed env budget)).
Proof. auto using steady_wait_until_closed with steady. Qed.

(** However [start] ends, it ends in the run that began with that reading. *)
Lemma start_final budget url b w :
  same_run (started env b w) (final (start env budget url (MkSession b w))).
Proof.
  unfold start. rewrite final_bind.
  unfold io at 1, zoom, get_timestamp, bind at 1, now, ret.
  cbn [world]. rewrite final_bind. unfold assign at 1, modify.
  cbn [self world set_self set_world].
  refine ((_ : steady same_run _) (started env b w)).
  Opaque close.
  pose proof steady_wait.
  steady_block.
  Transparent close.
Qed.

(** When [start] returns, it returns what its final [close] returned, and
    that [close] ran in the same run. *)
Lemma start_Ok budget url b w p s1 :
  start env budget url (MkSession b w) = Ok p s1 ->
  exists s', same_run (started env b w) s' /\ close env s' = Ok p s1.
Proof.
  unfold start. unfold bind at 1.
  unfold io at 1, zoom, get_timestamp, bind at 1, now, ret.
  cbn [world]. unfold bind at 1, assign at 1, modify. intros H.
  match type of H with
  | ?m ?s = _ => change s with (started env b w) in H
  end.
  set (s0 := started env b w) in *. clearbody s0.
  assert (Acc : same_run s0 s0) by reflexivity.
  revert H Acc. generalize s0 at 1 3. intros s H Acc.
  Opaque close.
  pose proof steady_wait.
  repeat
    (let R := fresh "R" in
     apply (bind_Ok_inv same_run) in H as (? & ? & R & H);
     [ pose proof (transitivity Acc R); clear Acc R;
       match goal with X : same_run s0 _ |- _ => rename X into Acc end
     | solve [steady_block] ]).
  Transparent close.
  eauto.
Qed.

End SameRun.

(** ** The session recorder: closing *)

Section Recorder.
Import Py World Utils Browser Spec.
Variable env : Env.
Implicit Types (b : ManualBrowser) (w : World) (s : Session) (p q : Path).

Lemma tail_neq {A} (l : list A) : l <> [] -> tail l <> l.
Proof.
  intros Hl E. apply (f_equal length) in E.
  destruct l; [congruence|]. simpl in E. lia.
Qed.

Lemma is_dir_agree (f f' : FS) q : f' !! q = f !! q -> is_dir f' q = is_dir f q.
Proof. unfold is_dir, lookup_node. destruct q; [reflexivity|]. now intros ->. Qed.

Lemma write_file_inr p (c : content) (f f' : FS) :
  write_file p c f = inr f' ->
  f' = <[p := File c]> f /\ is_dir f (parent p) = true /\ is_dir f p = false.
Proof.
  unfold write_file, is_dir.
  destruct (lookup_node f p) as [[|?]|]; [easy|..];
    destruct (lookup_node f (parent p)) as [[|?]|]; try easy;
    intros H; inversion H; auto.
Qed.

Lemma write_file_ready p (c : content) (f : FS) :
  is_dir f (parent p) = true -> is_dir f p = false ->
  write_file p c f = inr (<[p := File c]> f).
Proof.
  unfold write_file, is_dir.
  destruct (lookup_node f p) as [[|?]|]; [easy|..];
    destruct (lookup_node f (parent p)) as [[|?]|]; easy.
Qed.

Lemma metadata_of_torn_down b e : metadata_of (torn_down b) e = metadata_of b e.
Proof. destruct b; reflexivity. Qed.

Lemma recorder_paths_distinct b :
  recorder_paths b ->
  har_dir b <> har_path b /\ metadata_path b <> har_path b /\
  parent (metadata_path b) = har_dir b.
Proof.
  intros [-> ->]. unfold div. repeat split; try congruence.
  intros E. apply (f_equal length) in E. simpl in E. lia.
Qed.

(** The teardown steps leave the capture directory as it was. *)
Lemma after_teardown_ready b w :
  recorder_paths b ->
  is_dir (fs (after_teardown env b w)) (har_dir b) = is_dir (fs w) (har_dir b) /\
  is_dir (fs (after_teardown env b w)) (metadata_path b) =
  is_dir (fs w) (metadata_path b).
Proof.
  intros P. destruct (recorder_paths_distinct b P) as (D1 & D2 & _).
  split; apply is_dir_agree, after_teardown_fs; assumption.
Qed.

Lemma close_ready b w :
  recorder_paths b -> capture_dir_ready b w ->
  close env (MkSession b w) = Ok (har_path b) (closed env b w).
Proof.
  intros P [D M]. rewrite close_run. rewrite metadata_of_torn_down.
  destruct (after_teardown_ready b (add_event (EvNow (e_now env (time w))) w) P)
    as [D' M'].
  rewrite write_file_ready.
  - reflexivity.
  - destruct (recorder_paths_distinct b P) as (_ & _ & ->).
    rewrite D'. exact D.
  - rewrite M'. exact M.
Qed.

Lemma close_Ok b w p s' :
  recorder_paths b -> close env (MkSession b w) = Ok p s' ->
  capture_dir_ready b w /\ p = har_path b /\ s' = closed env b w.
Proof.
  intros P. rewrite close_run. rewrite metadata_of_torn_down.
  destruct (write_file _ _ _) as [e|f] eqn:E; [easy|].
  intros H. inversion H; subst. apply write_file_inr in E as (-> & D & M).
  destruct (after_teardown_ready b (add_event (EvNow (e_now env (time w))) w) P)
    as [D' M'].
  destruct (recorder_paths_distinct b P) as (_ & _ & Par).
  rewrite Par, D' in D. rewrite M' in M.
  repeat split; auto.
Qed.

(** What a successful [close] leaves behind. *)
Lemma closed_self b w : self (closed env b w) = torn_down b.
Proof. reflexivity. Qed.

Lemma closed_trace b w :
  trace (world (closed env b w)) =
  trace w ++ EvNow (e_now env (time w)) :: teardown_steps b.
Proof.
  unfold closed. cbn [world]. rewrite printed_trace. cbn [trace set_fs].
  rewrite after_teardown_trace. simpl. now rewrite <- app_assoc.
Qed.


Lemma closed_metadata b w :
  fs (world (closed env b w)) !! metadata_path b =
  Some (File (Json (metadata_of b (isoformat (e_now env (time w)))))).
Proof.
  unfold closed. cbn [world]. rewrite printed_fs. cbn [fs set_fs].
  apply lookup_insert_eq.
Qed.

Lemma closed_frame b w q :
  q <> metadata_path b -> q <> har_path b ->
  fs (world (closed env b w)) !! q = fs w !! q.
Proof.
  intros Hm Hh. unfold closed. cbn [world]. rewrite printed_fs. cbn [fs set_fs].
  rewrite lookup_insert_ne by congruence.
  now rewrite after_teardown_fs by assumption.
Qed.

Lemma torn_down_paths b : recorder_paths b -> recorder_paths (torn_down b).
Proof. destruct b. unfold recorder_paths. simpl. auto. Qed.

Lemma closed_ready b w :
  recorder_paths b -> capture_dir_ready b w ->
  capture_dir_ready (torn_down b) (world (closed env b w)).
Proof.
  intros P [D M]. destruct (recorder_paths_distinct b P) as (D1 & D2 & Par).
  assert (Hd : har_dir b <> metadata_path b).
  { destruct P as [_ ->]. unfold div. intros E.
    apply (f_equal length) in E. simpl in E. lia. }
  unfold capture_dir_ready.
  replace (har_dir (torn_down b)) with (har_dir b) by (now destruct b).
  replace (metadata_path (torn_down b)) with (metadata_path b) by (now destruct b).
  split.
  - rewrite (is_dir_agree (fs w)); [exact D|]. now apply closed_frame.
  - unfold is_dir, lookup_node. rewrite closed_metadata.
    destruct (metadata_path b); [|reflexivity].
    unfold is_dir in M. simpl in M. discriminate M.
Qed.

End Recorder.

(** ** C6, C10, C1, C7: the claims about [close] and [start] *)

Section RecorderClaims.
Import Py World Utils Browser Spec.
Implicit Types (b : ManualBrowser) (w : World) (s : Session) (p q : Path).

Lemma torn_down_steps b : teardown_steps (torn_down b) = [].
Proof. destruct b; reflexivity. Qed.

Lemma torn_down_handles b :
  _context (torn_down b) = None /\ _browser (torn_down b) = None /\
  _playwright (torn_down b) = None.
Proof. destruct b; repeat split. Qed.

(** What the constructor establishes. *)
Lemma init_Ok env run_id prompt w b w1 :
  __init__ env run_id prompt w = Ok b w1 ->
  let dir := e_root env / "har" / run_id in
  b = MkManualBrowser run_id prompt dir (dir / "recording.har")
        (dir / "metadata.json") None None None None /\
  is_dir (fs w1) dir = true /\ extends_by_dirs dir (fs w) (fs w1) /\
  out w1 = out w /\ trace w1 = trace w.
Proof.
  unfold __init__. unfold bind at 1.
  change (get_har_dir env run_id) with (resolve (e_root env / "har" / run_id)).
  destruct (resolve _ w) as [d w'| | |] eqn:E; try easy.
  intros H. inversion H; subst. apply resolve_Ok in E as (-> & D & X & O & T).
  simpl. auto.
Qed.

Lemma init_ready env run_id prompt w b w1 :
  __init__ env run_id prompt w = Ok b w1 ->
  is_dir (fs w) (e_root env / "har" / run_id / "metadata.json") = false ->
  recorder_paths b /\ capture_dir_ready b w1.
Proof.
  intros H M. apply init_Ok in H as (-> & D & X & _).
  split; [split; reflexivity|]. split; [exact D|]. cbn [metadata_path].
  rewrite (is_dir_agree (fs w)); [exact M|].
  destruct (X (e_root env / "har" / run_id / "metadata.json"))
    as [E|(_ & _ & S)]; [exact E|].
  apply suffix_length in S. unfold div in S. simpl in S. lia.
Qed.

(** C6.  In [close] each of the three teardown steps the recorder owes is
    attempted, in order, whatever the others did; no exception of a step
    reaches the caller or keeps the later steps and the metadata write from
    running: [close] ends exactly as the metadata write ends, and with the
    capture directory in place it returns the archive path with the
    metadata written and every handle dropped. *)
Theorem teardown_best_effort_total env b w :
  let t := e_now env (time w) in
  let w' := after_teardown env b (add_event (EvNow t) w) in
  trace w' = trace w ++ EvNow t :: teardown_steps b /\
  close env (MkSession b w) =
    match write_file (metadata_path b)
            (Json (metadata_of b (isoformat t))) (fs w') with
    | inr f => Ok (har_path b)
                 (MkSession (torn_down b) (printed (close_lines b) (set_fs f w')))
    | inl e => Raise (OSError e (metadata_path b)) (MkSession (torn_down b) w')
    end /\
  (recorder_paths b -> capture_dir_ready b w ->
   exists s',
     close env (MkSession b w) = Ok (har_path b) s' /\
     trace (world s') = trace w ++ EvNow t :: teardown_steps b /\
     _context (self s') = None /\ _browser (self s') = None /\
     _playwright (self s') = None /\
     fs (world s') !! metadata_path b =
       Some (File (Json (metadata_of b (isoformat t))))).
Proof.
  intros t w'. split; [|split].
  - subst w'. rewrite after_teardown_trace. simpl. now rewrite <- app_assoc.
  - rewrite close_run. now rewrite metadata_of_torn_down.
  - intros P R. exists (closed env b w).
    rewrite close_ready, closed_trace, closed_metadata by assumption.
    destruct (torn_down_handles b) as (C & B & W).
    rewrite closed_self. repeat split; assumption.
Qed.

Lemma teardown_best_effort_total_witness :
  exists s',
    close Sample.crashed (MkSession Sample.recording Sample.w1) =
      Ok (Sample.capture_dir / "recording.har") s' /\
    trace (world s') =
      [EvNow (Sample.clock 0); EvContextClose; EvBrowserClose; EvPlaywrightStop].
Proof.
  destruct (teardown_best_effort_total Sample.crashed Sample.recording Sample.w1)
    as (_ & _ & Ready).
  destruct Ready as (s' & C & T & _).
  - split; reflexivity.
  - split; vm_compute; reflexivity.
  - exists s'. split; [exact C|exact T].
Defined.

(** C10.  [close] on a recorder that was constructed but never started
    does not raise: no teardown call is made, and the metadata file is
    written with [start_time] null.  (The capture directory exists by
    construction; the one way the write can fail is a directory sitting at
    the metadata path, which is excluded.) *)
Theorem close_without_start env run_id prompt w b w1 :
  __init__ env run_id prompt w = Ok b w1 ->
  is_dir (fs w) (e_root env / "har" / run_id / "metadata.json") = false ->
  let t := e_now env (time w1) in
  exists s',
    close env (MkSession b w1) = Ok (har_path b) s' /\
    teardown_steps b = [] /\
    trace (world s') = trace w1 ++ [EvNow t] /\
    fs (world s') !! metadata_path b =
      Some (File (Json (metadata_record run_id prompt JNull (isoformat t)
                          (path_str (har_path b))))).
Proof.
  intros H M t. destruct (init_ready _ _ _ _ _ _ H M) as [P R].
  apply init_Ok in H as (-> & _).
  eexists. rewrite close_ready by assumption.
  rewrite closed_trace, closed_metadata. repeat split.
Qed.

Lemma close_without_start_witness :
  exists s',
    close Sample.quiet (MkSession Sample.fresh Sample.w1) =
      Ok (Sample.capture_dir / "recording.har") s' /\
    fs (world s') !! (Sample.capture_dir / "metadata.json") =
      Some (File (Json (metadata_record Sample.rid Sample.intent JNull
                          "2024-05-17T10:30:00.250000"
                          "/srv/reverse-api/har/a1b2c3d4e5f6/recording.har"))).
Proof.
  destruct (close_without_start Sample.quiet Sample.rid Sample.intent
              Sample.w0 Sample.fresh Sample.w1) as (s' & C & _ & _ & F).
  - vm_compute. reflexivity.
  - vm_compute. reflexivity.
  - exists s'. split; [exact C|exact F].
Defined.

(** A session whose recorder came from the constructor and whose run it
    still is keeps the constructor's paths. *)
Lemma same_run_fields env b w s' :
  same_run (started env b w) s' ->
  run_id (self s') = run_id b /\ prompt (self s') = prompt b /\
  har_dir (self s') = har_dir b /\ har_path (self s') = har_path b /\
  metadata_path (self s') = metadata_path b /\
  _start_time (self s') = Some (isoformat (e_now env (time w))) /\
  exists later, trace (world s') = trace w ++ EvNow (e_now env (time w)) :: later.
Proof.
  intros (A1 & A2 & A3 & A4 & A5 & A6 & [k A7]).
  destruct b; simpl in *. repeat split; auto.
  exists k. rewrite A7. now rewrite <- app_assoc.
Qed.

Lemma metadata_of_record b e :
  metadata_of b e =
  metadata_record (run_id b) (prompt b)
    (match _start_time b with Some t => JStr t | None => JNull end)
    e (path_str (har_path b)).
Proof. reflexivity. Qed.

(** C1.  After [start] has completed, two [close] calls in succession
    both return the archive path [har/<run_id>/recording.har], neither
    raises, neither makes a teardown call, and after each the metadata file
    holds one record with the same [run_id], prompt, start time and archive
    path; only the end time is rewritten. *)
Theorem close_twice_after_start env run_id prompt w b w1 budget url p s1 :
  __init__ env run_id prompt w = Ok b w1 ->
  start env budget url (MkSession b w1) = Ok p s1 ->
  let archive := e_root env / "har" / run_id / "recording.har" in
  let metadata := e_root env / "har" / run_id / "metadata.json" in
  exists s2 s3 started_at e1 e2 e3,
    p = archive /\
    close env s1 = Ok archive s2 /\
    close env s2 = Ok archive s3 /\
    (exists t2, trace (world s2) = trace (world s1) ++ [EvNow t2]) /\
    (exists t3, trace (world s3) = trace (world s2) ++ [EvNow t3]) /\
    let record e :=
      File (Json (metadata_record run_id prompt (JStr started_at) e
                    (path_str archive))) in
    fs (world s1) !! metadata = Some (record e1) /\
    fs (world s2) !! metadata = Some (record e2) /\
    fs (world s3) !! metadata = Some (record e3).
Proof.
  intros Hi Hs archive metadata.
  apply init_Ok in Hi as (Hb & _).
  apply start_Ok in Hs as (s' & Same & Hc).
  apply same_run_fields in Same as (F1 & F2 & F3 & F4 & F5 & F6 & _).
  destruct s' as [b' w']. cbn [self world] in *.
  assert (Fb : Browser.run_id b = run_id /\ Browser.prompt b = prompt /\
               har_path b = archive /\ metadata_path b = metadata /\
               har_dir b = e_root env / "har" / run_id) by (subst b; repeat split).
  destruct Fb as (G1 & G2 & G3 & G4 & G5).
  assert (P : recorder_paths b').
  { unfold recorder_paths. rewrite F3, F4, F5, G3, G4, G5. split; reflexivity. }
  apply close_Ok in Hc as (R & -> & ->); [|exact P].
  pose proof (closed_ready env b' w' P R) as R1.
  pose proof (torn_down_paths b' P) as P1.
  set (s1 := closed env b' w') in *.
  assert (E1 : s1 = MkSession (torn_down b') (world s1)) by reflexivity.
  pose proof (closed_ready env _ _ P1 R1) as R2.
  pose proof (torn_down_paths _ P1) as P2.
  set (s2 := closed env (torn_down b') (world s1)) in *.
  set (s3 := closed env (torn_down (torn_down b')) (world s2)).
  assert (T : forall c, har_path (torn_down c) = har_path c /\
                        metadata_path (torn_down c) = metadata_path c /\
                        metadata_of (torn_down c) = metadata_of c)
    by (intros []; repeat split).
  destruct (T b') as (T1 & T2 & T3).
  destruct (T (torn_down b')) as (U1 & U2 & U3).
  exists s2, s3.
  exists (isoformat (e_now env (time w1))).
  exists (isoformat (e_now env (time w'))).
  exists (isoformat (e_now env (time (world s1)))).
  exists (isoformat (e_now env (time (world s2)))).
  assert (Rec : forall e, metadata_of b' e =
            metadata_record run_id prompt
              (JStr (isoformat (e_now env (time w1)))) e (path_str archive)).
  { intros e. rewrite metadata_of_record, F1, F2, F4, F6, G1, G2, G3.
    reflexivity. }
  split; [congruence|]. split.
  { rewrite E1. rewrite close_ready by assumption. f_equal. congruence. }
  split.
  { change s2 with (MkSession (torn_down (torn_down b')) (world s2)).
    rewrite close_ready by assumption. f_equal. congruence. }
  split.
  { eexists. unfold s2. rewrite closed_trace, torn_down_steps. reflexivity. }
  split.
  { eexists. unfold s3. rewrite closed_trace, torn_down_steps. reflexivity. }
  cbv zeta. rewrite <- !Rec. rewrite <- G4, <- F5.
  split; [apply closed_metadata|]. split.
  - rewrite <- T2, <- T3. apply closed_metadata.
  - rewrite <- T2, <- U2, <- T3, <- U3. apply closed_metadata.
Qed.

Lemma close_twice_after_start_witness :
  exists s1 s2 s3,
    start Sample.quiet 3 None (MkSession Sample.fresh Sample.w1) =
      Ok (Sample.capture_dir / "recording.har") s1 /\
    close Sample.quiet s1 = Ok (Sample.capture_dir / "recording.har") s2 /\
    close Sample.quiet s2 = Ok (Sample.capture_dir / "recording.har") s3.
Proof.
  destruct (start Sample.quiet 3 None (MkSession Sample.fresh Sample.w1))
    as [p s1| | |] eqn:Hs; try (vm_compute in Hs; discriminate Hs).
  destruct (close_twice_after_start Sample.quiet Sample.rid Sample.intent
              Sample.w0 Sample.fresh Sample.w1 3 None p s1)
    as (s2 & s3 & _ & _ & _ & _ & Hp & C2 & C3 & _).
  - vm_compute. reflexivity.
  - exact Hs.
  - exists s1, s2, s3. rewrite Hp. auto.
Defined.

(** C7, as the code has it.  [start] reads the clock as its first action
    and stores that reading: however [start] ends, the stored start time is
    the reading taken on entry, and every call [start] makes - installing
    the signal handlers, starting the engine, opening the browser and the
    capture context, navigating, polling - is logged after it. *)
Theorem start_time_recorded_on_entry env budget url b w :
  let r := start env budget url (MkSession b w) in
  let t := e_now env (time w) in
  _start_time (self (final r)) = Some (isoformat t) /\
  exists later, trace (world (final r)) = trace w ++ EvNow t :: later.
Proof.
  intros r t. pose proof (start_final env budget url b w) as Same.
  apply same_run_fields in Same as (_ & _ & _ & _ & _ & St & Tr).
  split; assumption.
Qed.

(** C7, as stated, fails: in a session that navigates to a start URL the
    stored start time is the reading taken before the browser was
    launched, not one taken after the capture context was opened or after
    the navigation. *)
Lemma start_time_precedes_browser :
  let r := start Sample.quiet 3 (Some Sample.site)
             (MkSession Sample.fresh Sample.w1) in
  (exists s, r = Ok (Sample.capture_dir / "recording.har") s) /\
  trace (world (final r)) =
    [EvNow (Sample.clock 0); EvSignal SIGINT; EvSignal SIGTERM;
     EvPlaywrightStart; EvLaunch;
     EvNewContext (Sample.capture_dir / "recording.har"); EvNewPage;
     EvGoto Sample.site; EvPages; EvNow (Sample.clock 9); EvContextClose;
     EvBrowserClose; EvPlaywrightStop] /\
  ~ stamped_after EvLaunch (final r) /\
  ~ stamped_after (EvNewContext (Sample.capture_dir / "recording.har")) (final r) /\
  ~ stamped_after (EvGoto Sample.site) (final r).
Proof.
  intros r.
  assert (T : trace (world (final r)) =
    [EvNow (Sample.clock 0); EvSignal SIGINT; EvSignal SIGTERM;
     EvPlaywrightStart; EvLaunch;
     EvNewContext (Sample.capture_dir / "recording.har"); EvNewPage;
     EvGoto Sample.site; EvPages; EvNow (Sample.clock 9); EvContextClose;
     EvBrowserClose; EvPlaywrightStop]) by (vm_compute; reflexivity).
  assert (S : _start_time (self (final r)) = Some "2024-05-17T10:30:00.250000")
    by (vm_compute; reflexivity).
  split; [|split; [exact T|]].
  { exists (final r). vm_compute. reflexivity. }
  assert (N : forall ev, ev <> EvNow (Sample.clock 0) ->
                ~ stamped_after ev (final r)).
  { intros ev Hev (i & j & t & Hi & Hj & Ht & Lt).
    rewrite T in Hi, Hj. rewrite S in Ht.
    destruct j as [|[|[|[|[|[|[|[|[|[|[|[|[|j]]]]]]]]]]]]];
      simpl in Hj; try discriminate Hj.
    - lia.
    - injection Hj as <-. vm_compute in Ht. discriminate Ht. }
  repeat split; apply N; discriminate.
Qed.

Lemma sample_clock_sane : clock_sane Sample.quiet.
Proof.
  split.
  - intros n. unfold dt_valid. simpl. lia.
  - intros m n Hmn. unfold dt_le, dt_compare, dt_fields. simpl.
    destruct (N.compare_spec (N.min (N.of_nat m) 59) (N.min (N.of_nat n) 59));
      try discriminate. lia.
Qed.

(** C3.  When [start] has run to its end - its last act is [close] -
    the metadata file [har/<run_id>/metadata.json] holds a JSON object
    with exactly the five fields [run_id], [prompt], [start_time],
    [end_time], [har_file]; both times are ISO-8601 strings, the start
    time being the reading taken on entry to [start] and the end time a
    later reading of the same clock, so that on a clock that does not run
    backwards [end_time >= start_time], as instants and as strings; and
    [har_file] is the archive path. *)
Theorem metadata_after_session env run_id prompt w b w1 budget url p s1 :
  clock_sane env ->
  __init__ env run_id prompt w = Ok b w1 ->
  start env budget url (MkSession b w1) = Ok p s1 ->
  let archive := e_root env / "har" / run_id / "recording.har" in
  let metadata := e_root env / "har" / run_id / "metadata.json" in
  exists (n : nat) (fields : list (string * json)),
    let t0 := e_now env (time w1) in
    let t1 := e_now env (time w1 + S n) in
    fs (world s1) !! metadata = Some (File (Json (JObj fields))) /\
    fields = [("run_id", JStr run_id); ("prompt", JStr prompt);
              ("start_time", JStr (isoformat t0));
              ("end_time", JStr (isoformat t1));
              ("har_file", JStr (path_str archive))] /\
    is_iso8601 (isoformat t0) = true /\
    is_iso8601 (isoformat t1) = true /\
    dt_le t0 t1 /\
    String.leb (isoformat t0) (isoformat t1) = true.
Proof.
  intros [Valid Mono] Hi Hs archive metadata.
  apply init_Ok in Hi as (Hb & _).
  apply start_Ok in Hs as (s' & Same & Hc).
  apply same_run_fields in Same as (F1 & F2 & F3 & F4 & F5 & F6 & later & Tr).
  destruct s' as [b' w']. cbn [self world] in *.
  assert (Fb : Browser.run_id b = run_id /\ Browser.prompt b = prompt /\
               har_path b = archive /\ metadata_path b = metadata /\
               har_dir b = e_root env / "har" / run_id) by (subst b; repeat split).
  destruct Fb as (G1 & G2 & G3 & G4 & G5).
  assert (P : recorder_paths b').
  { unfold recorder_paths. rewrite F3, F4, F5, G3, G4, G5. split; reflexivity. }
  apply close_Ok in Hc as (R & -> & ->); [|exact P].
  assert (Tm : time w' = time w1 + S (length later)).
  { unfold time. rewrite Tr, length_app. reflexivity. }
  exists (length later). eexists. cbv zeta. rewrite <- Tm.
  split; [|split; [reflexivity|]].
  - rewrite <- G4, <- F5, closed_metadata, metadata_of_record.
    rewrite F1, F2, F4, F6, G1, G2, G3. reflexivity.
  - assert (L : dt_le (e_now env (time w1)) (e_now env (time w')))
      by (apply Mono; lia).
    auto using isoformat_is_iso8601, isoformat_le.
Qed.

Lemma metadata_after_session_witness :
  let r := start Sample.quiet 3 None (MkSession Sample.fresh Sample.w1) in
  exists (n : nat) (fields : list (string * json)),
    fs (world (final r)) !! (Sample.capture_dir / "metadata.json") =
      Some (File (Json (JObj fields))) /\
    String.leb (isoformat (Sample.clock 0)) (isoformat (Sample.clock (S n))) = true.
Proof.
  intros r.
  assert (Hs : r = Ok (Sample.capture_dir / "recording.har") (final r))
    by (vm_compute; reflexivity).
  destruct (metadata_after_session Sample.quiet Sample.rid Sample.intent
              Sample.w0 Sample.fresh Sample.w1 3 None _ _
              sample_clock_sane eq_refl Hs)
    as (n & fields & F & _ & _ & _ & _ & L).
  exists n, fields. split; [exact F|exact L].
Defined.

End RecorderClaims.

(** ** The analysis orchestrator *)

Section Analysis.
Import Py World Utils Engineer Spec.
Variable env : Env.
Implicit Types (s : Run) (e : APIReverseEngineer) (w : World).

#[local] Instance grows_preorder : PreOrder grows.
Proof.
  split.
  - intros w. unfold grows. repeat split; reflexivity.
  - intros w1 w2 w3 (A1 & A2 & A3) (B1 & B2 & B3).
    unfold grows. repeat split; [etransitivity; eauto..|congruence].
Qed.

Lemma grows_add_out o w w' : grows w w' -> grows w (add_out o w').
Proof.
  intros (A & B & C). unfold grows. simpl. repeat split; auto.
  etransitivity; [exact A|]. now apply prefix_app_r.
Qed.

Lemma grows_add_event ev w w' : grows w w' -> grows w (add_event ev w').
Proof.
  intros (A & B & C). unfold grows. simpl. repeat split; auto.
  etransitivity; [exact B|]. now apply prefix_app_r.
Qed.

#[local] Instance same_engineer_preorder : PreOrder same_engineer.
Proof.
  split.
  - intros s. unfold same_engineer. repeat split; reflexivity.
  - intros s1 s2 s3 (A1 & A2 & A3 & A4 & A5 & A6 & A7)
      (B1 & B2 & B3 & B4 & B5 & B6 & B7).
    unfold same_engineer. do 6 (split; [congruence|]).
    etransitivity; eauto.
Qed.

Lemma returns_bind {A B} (m : M Run A) (k : A -> M Run B) :
  returns same_engineer m -> (forall a, returns same_engineer (k a)) ->
  returns same_engineer (bind m k).
Proof.
  intros Hm Hk s. destruct (Hm s) as (a & s1 & E1 & R1).
  destruct (Hk a s1) as (b & s2 & E2 & R2).
  exists b, s2. unfold bind. rewrite E1. split; [exact E2|].
  etransitivity; eauto.
Qed.

Lemma returns_ret {A} (a : A) : returns same_engineer (ret a).
Proof. intros s. exists a, s. split; reflexivity. Qed.

(** A presenter method that always returns and only prints. *)
Lemma returns_on_ui {A} (m : M Tui.Screen A) :
  (forall t, exists a t', m t = Ok a t' /\ grows (Tui.world t) (Tui.world t')) ->
  returns same_engineer (on_ui m).
Proof.
  intros H s. unfold on_ui, zoom.
  destruct (H (Tui.MkScreen (ui (self s)) (world s))) as (a & t' & -> & F).
  exists a. eexists. split; [reflexivity|].
  unfold same_engineer, set_screen. simpl.
  do 6 (split; [reflexivity|]). exact F.
Qed.

(** Settle a presenter method by running it. *)
Ltac presenter :=
  apply returns_on_ui; intros t; eexists _, _; split; [reflexivity|];
  simpl; repeat first [reflexivity | apply grows_add_out].

Lemma returns_tool_start n i : returns same_engineer (on_ui (Tui.tool_start n i)).
Proof. presenter. Qed.

Lemma returns_tool_result n b : returns same_engineer (on_ui (Tui.tool_result n b)).
Proof. destruct b; presenter. Qed.

Lemma returns_thinking text : returns same_engineer (on_ui (Tui.thinking text)).
Proof.
  apply returns_on_ui. intros t. unfold Tui.thinking, bind, gets.
  destruct (negb _); [eexists _, _; split; reflexivity|].
  destruct (_ <? 20); eexists _, _; (split; [reflexivity|]); simpl;
    repeat first [reflexivity | apply grows_add_out].
Qed.

Lemma returns_error msg : returns same_engineer (on_ui (Tui.error msg)).
Proof. presenter. Qed.

Lemma returns_success path : returns same_engineer (on_ui (Tui.success path)).
Proof. presenter. Qed.

Lemma returns_show_blocks content : returns same_engineer (show_blocks content).
Proof.
  induction content as [|[name input|is_error|text|] rest IH]; cbn [show_blocks].
  - apply returns_ret.
  - apply returns_bind; [apply returns_tool_start|intros _; exact IH].
  - apply returns_bind; [apply returns_tool_result|intros _; exact IH].
  - apply returns_bind; [apply returns_thinking|intros _; exact IH].
  - exact IH.
Qed.

(** The response loop ends as the terminal event of the stream says; a
    stream without one ends the loop, or breaks it if the stream breaks. *)
Lemma receive_response_run messages fault : forall s,
  exists s', same_engineer s s' /\
    receive_response messages fault s =
    match terminal_event messages with
    | Some false =>
        Ok (Some (Some (path_str (scripts_dir (self s) / "api_client.py")))) s'
    | Some true => Ok (Some None) s'
    | None =>
        match fault with
        | Some x => Raise x s'
        | None => Ok None s'
        end
    end.
Proof.
  induction messages as [|[content|is_error result|] rest IH]; intros s;
    cbn [receive_response terminal_event].
  - exists s. split; [reflexivity|]. destruct fault; reflexivity.
  - destruct (returns_show_blocks content s) as ([] & s1 & E1 & R1).
    destruct (IH s1) as (s' & R' & E').
    exists s'. split; [etransitivity; eauto|].
    unfold bind. rewrite E1, E'.
    destruct R1 as (_ & _ & _ & _ & _ & -> & _). reflexivity.
  - destruct is_error.
    + destruct (returns_error (str_or result "Unknown error") s) as ([] & s1 & E1 & R1).
      exists s1. split; [exact R1|]. unfold bind. now rewrite E1.
    + destruct (returns_success (path_str (scripts_dir (self s) / "api_client.py")) s)
        as ([] & s1 & E1 & R1).
      exists s1. split; [exact R1|]. unfold bind, attr, gets. now rewrite E1.
  - apply IH.
Qed.

(** [analyze_and_generate] always returns, and returns the script path
    exactly when the session raised nowhere and its terminal event
    reported success; what it printed and called extends the header, the
    entry into the client and the query. *)
Lemma analyze_and_generate_run e w :
  exists s',
    analyze_and_generate env (MkRun e w) =
    Ok (analysis_result (e_agent env)
          (path_str (scripts_dir e / "api_client.py"))) s' /\
    grows (analysis_begun (e_agent env) e w) (world s').
Proof.
  unfold analyze_and_generate, analysis_result, analysis_begun.
  fold (agent_options e).
  set (agent := e_agent env).
  cbv [bind attr gets try_except with_ io zoom agent_call modify raise ret
       on_ui Tui.header Tui.start_analysis Tui.console Tui.error show
       sys_exit].
  cbn [self world set_world set_screen Tui.self Tui.world scripts_dir].
  destruct (Sdk.enter_fault agent) as [x|].
  { eexists. split; [reflexivity|]. cbn [world set_world set_screen Tui.world].
    repeat first [reflexivity | apply grows_add_out | apply grows_add_event]. }
  destruct (Sdk.query_fault agent) as [x|].
  { destruct (Sdk.exit_fault agent); (eexists; split; [reflexivity|]);
      cbn [world set_world set_screen Tui.world];
      repeat first [reflexivity | apply grows_add_out | apply grows_add_event]. }
  match goal with
  | |- context [receive_response ?m ?f ?s] =>
      destruct (receive_response_run m f s) as (s' & R & ->)
  end.
  destruct R as (_ & _ & _ & _ & _ & _ & G). cbn [world set_world] in G.
  cbn [self world set_world set_screen Tui.self Tui.world scripts_dir].
  destruct (terminal_event (Sdk.stream agent)) as [[|]|],
    (Sdk.stream_fault agent), (Sdk.exit_fault agent);
    (eexists; split; [reflexivity|]);
    cbn [world set_world set_screen Tui.world];
    repeat first [exact G | apply grows_add_out | apply grows_add_event].
Qed.

(** What the constructor establishes. *)
Lemma engineer_init_Ok run_id har prompt model extra verbose w e w1 :
  __init__ env run_id har prompt model extra verbose w = Ok e w1 ->
  let dir := e_root env / "scripts" / run_id in
  e = MkEngineer run_id har prompt model extra dir (Tui.MkClaudeUI verbose 0 []) /\
  is_dir (fs w1) dir = true /\ extends_by_dirs dir (fs w) (fs w1) /\
  out w1 = out w /\ trace w1 = trace w.
Proof.
  unfold __init__. unfold bind at 1.
  change (get_scripts_dir env run_id) with (resolve (e_root env / "scripts" / run_id)).
  destruct (resolve _ w) as [d w'| | |] eqn:E; try easy.
  intros H. inversion H; subst. apply resolve_Ok in E as (-> & D & X & O & T).
  simpl. auto.
Qed.

End Analysis.

(** ** C2: the outcome of an analysis *)

Section AnalysisClaims.
Import Py World Utils Engineer Spec.




End AnalysisClaims.

(** ** The [engineer] command *)

Section Command.
Import Py World Utils Spec.
Implicit Types (f : FS) (p q : Path) (w : World).

Lemma is_file_lookup f p : is_file f p = true <-> exists c, lookup_node f p = Some (File c).
Proof.
  unfold is_file. destruct (lookup_node f p) as [[|c]|]; split; try easy.
  - intros [c H]. discriminate H.
  - eauto.
  - intros [c' H]. discriminate H.
Qed.

Lemma is_dir_lookup f p : is_dir f p = true <-> lookup_node f p = Some Dir.
Proof. unfold is_dir. destruct (lookup_node f p) as [[|c]|]; split; easy. Qed.

Lemma suffix_longer {A} (l k : list A) : length k < length l -> ~ l `suffix_of` k.
Proof. intros L S. apply suffix_length in S. lia. Qed.

(** Creating a directory leaves everything that is not above it alone. *)
Lemma extends_by_dirs_outside p f f' q :
  extends_by_dirs p f f' -> ~ q `suffix_of` p -> f' !! q = f !! q.
Proof. intros X N. destruct (X q) as [E|(_ & _ & S)]; [exact E|easy]. Qed.

Lemma lookup_node_agree f f' q : f' !! q = f !! q -> lookup_node f' q = lookup_node f q.
Proof. destruct q; simpl; auto. Qed.

Lemma mkdir_parents_unobstructed p : forall f,
  unobstructed f p -> exists f', mkdir_parents p f = inr f'.
Proof.
  unfold unobstructed.
  induction p as [|c up IH]; intros f U.
  - exists f. reflexivity.
  - cbn [ancestors forallb] in U. apply andb_true_iff in U as [Uc Uup].
    apply negb_true_iff in Uc.
    cbn [mkdir_parents]. unfold os_mkdir. cbn [parent tail].
    destruct (lookup_node f (c :: up)) as [[|x]|] eqn:L.
    + unfold is_dir. rewrite L. eauto.
    + unfold is_file in Uc. rewrite L in Uc. discriminate Uc.
    + destruct (lookup_node f up) as [[|x]|] eqn:Lup.
      * eauto.
      * assert (F : is_file f up = true) by (apply is_file_lookup; eauto).
        destruct up; cbn [ancestors forallb] in Uup;
          apply andb_true_iff in Uup as [Uu _]; rewrite F in Uu; discriminate Uu.
      * destruct (IH f Uup) as (f1 & E1). rewrite E1.
        apply mkdir_parents_inr in E1 as [D1 X1].
        unfold mkdir_exist_ok, os_mkdir. cbn [parent tail].
        assert (L1 : lookup_node f1 (c :: up) = None).
        { rewrite (lookup_node_agree f); [exact L|].
          apply (extends_by_dirs_outside up); [exact X1|].
          apply suffix_longer. simpl. lia. }
        rewrite L1. apply is_dir_lookup in D1. rewrite D1. eauto.
Qed.

Lemma resolve_unobstructed d w :
  unobstructed (fs w) d ->
  exists f, mkdir_parents d (fs w) = inr f /\ resolve d w = Ok d (set_fs f w).
Proof.
  intros U. destruct (mkdir_parents_unobstructed d (fs w) U) as (f & E).
  destruct (resolve_outcome d w) as [(f' & E' & R)|(e & E' & _)]; [|congruence].
  exists f'. auto.
Qed.

(** *** C4: run identifiers and their directories *)

(** C4.  Every token of [generate_run_id] is 12 lowercase hexadecimal
    characters, the leading 48 bits of the 128 random bits [uuid4] draws;
    the tokens of N draws are pairwise distinct exactly when those 48-bit
    prefixes are, which is all the program contributes to the
    probabilistic distinctness.  For every such token the resolvers map it
    to the fixed paths [<root>/har/<run_id>] and [<root>/scripts/<run_id>]
    and create the directory: whenever no regular file sits at the
    directory or above it they return the path, having added directories
    only, with the directory in place; called again they return the same
    path and change nothing; and they raise nothing when the directory
    already exists. *)
Theorem run_identity_and_paths (env : Env) :
  (forall r, random128 r ->
     String.length (generate_run_id r) = 12 /\
     str_forall is_lower_hex (generate_run_id r) = true /\
     generate_run_id r = hex_fixed 12 (r / 2 ^ 80)) /\
  (forall rs, Forall random128 rs ->
     NoDup (generate_run_id <$> rs) <-> NoDup ((fun r => r / 2 ^ 80)%Z <$> rs)) /\
  (forall r w, random128 r ->
     let run_id := generate_run_id r in
     let har := e_root env / "har" / run_id in
     let scripts := e_root env / "scripts" / run_id in
     (unobstructed (fs w) har ->
      exists w', get_har_dir env run_id w = Ok har w' /\
                 is_dir (fs w') har = true /\
                 extends_by_dirs har (fs w) (fs w') /\
                 get_har_dir env run_id w' = Ok har w') /\
     (unobstructed (fs w) scripts ->
      exists w', get_scripts_dir env run_id w = Ok scripts w' /\
                 is_dir (fs w') scripts = true /\
                 extends_by_dirs scripts (fs w) (fs w') /\
                 get_scripts_dir env run_id w' = Ok scripts w') /\
     (forall p w', get_har_dir env run_id w = Ok p w' -> p = har) /\
     (forall p w', get_scripts_dir env run_id w = Ok p w' -> p = scripts) /\
     (is_dir (fs w) har = true -> get_har_dir env run_id w = Ok har w) /\
     (is_dir (fs w) scripts = true -> get_scripts_dir env run_id w = Ok scripts w)).
Proof.
  split; [|split].
  - intros r _. rewrite generate_run_id_prefix.
    auto using hex_fixed_length, hex_fixed_lower.
  - intros rs Hrs. apply NoDup_fmap_equiv. intros x y Hx Hy.
    rewrite Forall_forall in Hrs. apply generate_run_id_inj; auto.
  - intros r w _ run_id har scripts.
    change (get_har_dir env run_id) with (resolve har).
    change (get_scripts_dir env run_id) with (resolve scripts).
    assert (Creates : forall d, unobstructed (fs w) d ->
              exists w', resolve d w = Ok d w' /\ is_dir (fs w') d = true /\
                         extends_by_dirs d (fs w) (fs w') /\ resolve d w' = Ok d w').
    { intros d U. destruct (resolve_unobstructed d w U) as (f & E & R).
      exists (set_fs f w). split; [exact R|].
      apply mkdir_parents_inr in E as [D X].
      split; [exact D|]. split; [exact X|]. now apply resolve_present. }
    split; [apply Creates|]. split; [apply Creates|].
    split; [intros p w' H; now apply resolve_Ok in H as (-> & _)|].
    split; [intros p w' H; now apply resolve_Ok in H as (-> & _)|].
    split; intros D; now apply resolve_present.
Qed.

Lemma run_identity_and_paths_witness :
  String.length (generate_run_id 0x0123456789abcdef0123456789abcdef) = 12 /\
  (NoDup (generate_run_id <$> [0; 2 ^ 80; 2 ^ 81]%Z) <->
   NoDup ((fun r => r / 2 ^ 80)%Z <$> [0; 2 ^ 80; 2 ^ 81]%Z)) /\
  Sample.disk !! Sample.capture_dir = None /\
  exists w', get_har_dir Sample.quiet Sample.rid Sample.w0 =
               Ok Sample.capture_dir w' /\
             is_dir (fs w') Sample.capture_dir = true.
Proof.
  destruct (run_identity_and_paths Sample.quiet) as (Token & Distinct & Paths).
  split; [|split; [|split]].
  - apply Token. unfold random128. lia.
  - apply Distinct. unfold random128. repeat constructor; lia.
  - vm_compute. reflexivity.
  - destruct (Paths Sample.draw Sample.w0) as (Har & _).
    + unfold random128, Sample.draw. lia.
    + destruct Har as (w' & R & D & _); [vm_compute; reflexivity|].
      exists w'. split; [exact R|exact D].
Defined.





Lemma sample_disk_wf : fs_wf Sample.disk.
Proof.
  intros q n H. unfold Sample.disk in H.
  apply lookup_insert_Some in H as [[<- _]|[_ H]]; [reflexivity|].
  apply lookup_singleton_Some in H as [<- _]. reflexivity.
Qed.


(** The command with a metadata record: the stored value is what the
    analysis is run with. *)
Lemma engineer_with_record env run_id model instructions w fields original :
  let har := e_root env / "har" / run_id in
  is_dir (fs w) har = true ->
  exists_ (fs w) (har / "recording.har") = true ->
  fs w !! (har / "metadata.json") = Some (File (Json (JObj fields))) ->
  assoc "prompt" fields = Some original ->
  Cli.engineer env run_id model instructions w =
  (script_path <- Engineer.run_reverse_engineering env run_id
                    (har / "recording.har") original model instructions true ;;
   announce script_path) w.
Proof.
  intros har D Found Meta Prompt.
  unfold Cli.engineer.
  change (get_har_dir env run_id) with (resolve har).
  unfold bind at 1. rewrite (resolve_present har w D).
  unfold bind at 1, path_exists at 1, gets. fold har. rewrite Found.
  cbn [negb].
  unfold bind at 1, path_exists, gets.
  assert (Ex : exists_ (fs w) (har / "metadata.json") = true).
  { unfold exists_, div. simpl. unfold div in Meta. now rewrite Meta. }
  rewrite Ex.
  unfold bind at 1. unfold bind at 1.
  assert (Load : json_load (har / "metadata.json") w = Ok (JObj fields) w).
  { unfold json_load, bind, get, lift_os, read_file, div. simpl.
    unfold div in Meta. now rewrite Meta. }
  rewrite Load. unfold Cli.dict_get at 1, ret at 1. rewrite Prompt.
  reflexivity.
Qed.

(** How an analysis begins, and what it has shown and called by the time
    the command ends. *)
Lemma analysis_begins env run_id har_path prompt model instructions w :
  let scripts := e_root env / "scripts" / run_id in
  let e := Engineer.MkEngineer run_id har_path prompt model instructions scripts
             (Tui.MkClaudeUI true 0 []) in
  let r := (script_path <- Engineer.run_reverse_engineering env run_id har_path
                             prompt model instructions true ;;
            announce script_path) w in
  unobstructed (fs w) scripts ->
  exists shown called,
    r = Ok tt (final r) /\
    out (final r) = out w ++ UiHeader run_id prompt model :: UiStartAnalysis :: shown /\
    trace (final r) = trace w ++ EvClientEnter (agent_options e) :: called /\
    (Sdk.enter_fault (e_agent env) = None ->
     exists rest, called = EvQuery (Engineer._build_analysis_prompt e) :: rest).
Proof.
  intros scripts e r U.
  destruct (resolve_unobstructed scripts w U) as (f & E & R).
  destruct (analyze_and_generate_run env e (set_fs f w)) as (s' & A & G).
  destruct G as (Go & Gt & _).
  assert (O : exists shown, out (Engineer.world s') =
            out w ++ UiHeader run_id prompt model :: UiStartAnalysis :: shown).
  { destruct Go as [k ->]. exists k. unfold analysis_begun.
    destruct (Sdk.enter_fault (e_agent env)); cbn [out add_out add_event set_fs];
      rewrite <- !app_assoc; reflexivity. }
  assert (T : exists called, trace (Engineer.world s') =
            trace w ++ EvClientEnter (agent_options e) :: called /\
            (Sdk.enter_fault (e_agent env) = None ->
             exists rest, called = EvQuery (Engineer._build_analysis_prompt e) :: rest)).
  { destruct Gt as [k ->]. unfold analysis_begun.
    destruct (Sdk.enter_fault (e_agent env)); cbn [trace add_out add_event set_fs];
      rewrite <- !app_assoc; eexists; (split; [reflexivity|]); [easy|eauto]. }
  destruct O as (shown & O). destruct T as (called & T & Q).
  assert (Er : exists w', r = Ok tt w' /\ out w' = out (Engineer.world s') ++
                 announcement
                   (if analysis_result (e_agent env)
                         (path_str (scripts / "api_client.py"))
                    is Some path then
                      if decide (path = "") then None else Some path
                    else None) /\
               trace w' = trace (Engineer.world s')).
  { subst r. unfold bind at 1, Engineer.run_reverse_engineering.
    unfold bind at 1, Engineer.__init__. unfold bind at 1.
    change (get_scripts_dir env run_id) with (resolve scripts).
    rewrite R. unfold ret at 1, zoom. fold e. rewrite A.
    cbn [Engineer.scripts_dir e]. unfold announce.
    destruct (analysis_result _ _) as [path|]; [destruct (decide (path = ""))|];
      eexists; (split; [reflexivity|]); cbn [announcement out trace add_out];
      rewrite ?app_nil_r; auto. }
  destruct Er as (w' & -> & O' & T'). cbn [final].
  eexists (shown ++ _), called. split; [reflexivity|].
  rewrite O', T', O, T. split; [rewrite <- app_assoc; reflexivity|]. auto.
Qed.

(** C8.  When the archive of a run exists and its metadata file holds
    a record with a [prompt] field - as [_save_metadata] writes it - the
    analysis command, which takes no prompt argument, runs the analysis
    with that prompt and not with the fallback text: the command is the
    analysis of the stored prompt followed by the announcement of its
    result, whatever the prompt is.  When the run identifier, that prompt
    and the model hold no markup, the prompt is the one shown in the
    session header and the one placed in the task sent to the agent, by
    the time the command ends.  (The run identifier is a token as
    [generate_run_id] makes them; no regular file sits at the scripts
    directory or above it.) *)
Theorem analysis_recovers_prompt env run_id model instructions w fields original :
  let har := e_root env / "har" / run_id in
  let scripts := e_root env / "scripts" / run_id in
  let e := Engineer.MkEngineer run_id (har / "recording.har") original model
             instructions scripts (Tui.MkClaudeUI true 0 []) in
  let r := Cli.engineer env run_id model instructions w in
  run_token run_id ->
  is_dir (fs w) har = true ->
  exists_ (fs w) (har / "recording.har") = true ->
  fs w !! (har / "metadata.json") = Some (File (Json (JObj fields))) ->
  assoc "prompt" fields = Some original ->
  r = (script_path <- Engineer.run_reverse_engineering env run_id
                        (har / "recording.har") original model instructions true ;;
       announce script_path) w /\
  task_prompt (Engineer._build_analysis_prompt e) = original /\
  (unobstructed (fs w) scripts ->
   header_plain run_id original model = true ->
   exists shown called,
     out (final r) = out w ++ UiHeader run_id original model :: UiStartAnalysis :: shown /\
     trace (final r) = trace w ++ EvClientEnter (agent_options e) :: called /\
     (Sdk.enter_fault (e_agent env) = None ->
      exists rest, called = EvQuery (Engineer._build_analysis_prompt e) :: rest)).
Proof.
  intros har scripts e r _ D Found Meta Prompt. subst r.
  rewrite (engineer_with_record env run_id model instructions w fields original
             D Found Meta Prompt).
  fold har. split; [reflexivity|]. split; [reflexivity|].
  intros U _.
  destruct (analysis_begins env run_id (har / "recording.har") original model
              instructions w U) as (shown & called & _ & O & T & Q).
  exists shown, called. auto.
Qed.

Lemma analysis_recovers_prompt_witness :
  let r := Cli.engineer Sample.quiet Sample.rid None None Sample.captured in
  exists shown,
    out (final r) = out Sample.captured ++
      UiHeader Sample.rid (JStr Sample.intent) None :: UiStartAnalysis :: shown.
Proof.
  destruct (analysis_recovers_prompt Sample.quiet Sample.rid None None
              Sample.captured Sample.captured_fields (JStr Sample.intent))
    as (_ & _ & Shown).
  - split; reflexivity.
  - vm_compute. reflexivity.
  - vm_compute. reflexivity.
  - vm_compute. reflexivity.
  - reflexivity.
  - destruct Shown as (shown & called & O & _).
    + vm_compute. reflexivity.
    + reflexivity.
    + exists shown. exact O.
Defined.

End Command.

(* ===================================================================== *)
(** * Part III.  Further properties of the code                           *)
(* ===================================================================== *)

(** ** utils.py: tokens, timestamps and the directory resolvers *)

Section UtilsMore.
Import Py World Utils Spec.
Implicit Types (f : FS) (p q : Path) (w : World).

Lemma hex_char_val c : is_lower_hex c = true -> hex_char (hex_val c) = c.
Proof.
  destruct c as [[] [] [] [] [] [] [] []]; intros H;
    try discriminate H; reflexivity.
Qed.

Lemma hex_val_range c : is_lower_hex c = true -> (0 <= hex_val c < 16)%Z.
Proof.
  destruct c as [[] [] [] [] [] [] [] []]; intros H;
    try discriminate H; vm_compute; split; congruence.
Qed.

Lemma hex_value_range s :
  str_forall is_lower_hex s = true ->
  (0 <= hex_value s < 16 ^ Z.of_nat (String.length s))%Z.
Proof.
  induction s as [|c s IH]; intros H; [simpl; lia|].
  cbn [str_forall] in H. apply andb_true_iff in H as [Hc Hs].
  specialize (IH Hs). pose proof (hex_val_range c Hc) as R.
  cbn [hex_value String.length]. rewrite Nat2Z.inj_succ, Z.pow_succ_r by lia.
  nia.
Qed.

(** The low digits of a number do not see what lies above them. *)
Lemma hex_fixed_low n : forall m x y,
  n <= m -> hex_fixed n (x * 16 ^ Z.of_nat m + y) = hex_fixed n y.
Proof.
  induction n as [|n IHn]; intros m x y L; [reflexivity|].
  cbn [hex_fixed]. rewrite IHn by lia. f_equal. f_equal.
  replace (16 ^ Z.of_nat m)%Z
    with (16 ^ Z.of_nat (m - n - 1) * 16 * 16 ^ Z.of_nat n)%Z.
  2:{ replace (Z.of_nat m) with (Z.of_nat (m - n - 1) + 1 + Z.of_nat n)%Z by lia.
      rewrite !Z.pow_add_r, Z.pow_1_r by lia. reflexivity. }
  replace (x * (16 ^ Z.of_nat (m - n - 1) * 16 * 16 ^ Z.of_nat n) + y)%Z
    with (y + (x * 16 ^ Z.of_nat (m - n - 1) * 16) * 16 ^ Z.of_nat n)%Z by ring.
  rewrite Z.div_add by lia.
  now rewrite Z.mod_add by lia.
Qed.

Lemma hex_fixed_value s :
  str_forall is_lower_hex s = true ->
  hex_fixed (String.length s) (hex_value s) = s.
Proof.
  induction s as [|c s IH]; intros H; [reflexivity|].
  cbn [str_forall] in H. apply andb_true_iff in H as [Hc Hs].
  pose proof (hex_value_range s Hs) as R. pose proof (hex_val_range c Hc) as Rc.
  cbn [hex_value String.length hex_fixed].
  rewrite hex_fixed_low by lia. rewrite (IH Hs). f_equal.
  rewrite Z.add_comm, Z.div_add by lia. rewrite Z.div_small by lia.
  rewrite Z.add_0_l, Z.mod_small by lia. now apply hex_char_val.
Qed.

(** X1.  Every string of 12 lowercase hexadecimal digits is a token of
    [generate_run_id], and the draws that give it are exactly those whose
    leading 48 bits spell it: the tokens cover the whole 48-bit space
    evenly. *)
Theorem every_token_is_generated s :
  String.length s = 12 ->
  str_forall is_lower_hex s = true ->
  exists r, random128 r /\ generate_run_id r = s /\
    forall r', random128 r' ->
      (generate_run_id r' = s <-> (r' / 2 ^ 80 = hex_value s)%Z).
Proof.
  intros L H. pose proof (hex_value_range s H) as R. rewrite L in R.
  change (16 ^ Z.of_nat 12)%Z with (2 ^ 48)%Z in R.
  assert (Gen : forall r, (r / 2 ^ 80 = hex_value s)%Z -> generate_run_id r = s).
  { intros r E. rewrite generate_run_id_prefix, E, <- L. now apply hex_fixed_value. }
  assert (D : (hex_value s * 2 ^ 80 / 2 ^ 80 = hex_value s)%Z)
    by (apply Z.div_mul; lia).
  assert (Rr : random128 (hex_value s * 2 ^ 80)).
  { unfold random128. change (2 ^ 128)%Z with (2 ^ 48 * 2 ^ 80)%Z. nia. }
  exists (hex_value s * 2 ^ 80)%Z. split; [exact Rr|]. split; [now apply Gen|].
  intros r' Rr'. split; [|apply Gen].
  intros E. rewrite <- D. apply generate_run_id_inj; [assumption..|].
  rewrite E. symmetry. now apply Gen.
Qed.

Lemma every_token_is_generated_witness :
  exists r, random128 r /\ generate_run_id r = "a1b2c3d4e5f6".
Proof.
  destruct (every_token_is_generated "a1b2c3d4e5f6" eq_refl eq_refl)
    as (r & R & G & _).
  exists r. split; assumption.
Defined.

Lemma lex_compare_eq a : forall b,
  length a = length b -> lex_compare a b = Eq -> a = b.
Proof.
  induction a as [|x a IH]; intros [|y b] L H; try discriminate; [reflexivity|].
  cbn [lex_compare] in H. destruct (N.compare_spec x y) as [->| |]; try discriminate.
  f_equal. apply IH; [simpl in L; lia|exact H].
Qed.

Lemma dt_compare_eq t u : dt_compare t u = Eq -> t = u.
Proof.
  intros H. apply lex_compare_eq in H; [|reflexivity].
  destruct t, u. unfold dt_fields in H. simpl in H. congruence.
Qed.

(** X2.  The strings [get_timestamp] returns sort as the instants they
    were taken at: comparing two of them as strings is comparing the two
    clock readings, and equal strings mean equal readings. *)
Theorem timestamps_sort_chronologically env w1 w2 s1 s2 w1' w2' :
  dt_valid (e_now env (time w1)) -> dt_valid (e_now env (time w2)) ->
  get_timestamp env w1 = Ok s1 w1' ->
  get_timestamp env w2 = Ok s2 w2' ->
  String.compare s1 s2 = dt_compare (e_now env (time w1)) (e_now env (time w2)) /\
  (s1 = s2 <-> e_now env (time w1) = e_now env (time w2)).
Proof.
  intros V1 V2 E1 E2. unfold get_timestamp, bind, now, ret in E1, E2.
  inversion E1; subst. inversion E2; subst.
  pose proof (isoformat_compare _ _ V1 V2) as C. split; [exact C|].
  split.
  - intros E. apply dt_compare_eq. rewrite <- C. rewrite E.
    clear. induction (isoformat _) as [|c s IH]; [reflexivity|].
    cbn [String.compare]. unfold Ascii.compare. now rewrite N.compare_refl.
  - now intros ->.
Qed.

Lemma timestamps_sort_chronologically_witness :
  String.compare "2024-05-17T10:30:00.250000" "2024-05-17T10:30:03.250000" = Lt.
Proof.
  pose (w3 := MkWorld Sample.disk [] [EvPages; EvPages; EvPages]).
  destruct (timestamps_sort_chronologically Sample.quiet Sample.w0 w3
              "2024-05-17T10:30:00.250000" "2024-05-17T10:30:03.250000"
              (add_event (EvNow (Sample.clock 0)) Sample.w0)
              (add_event (EvNow (Sample.clock 3)) w3)) as [C _].
  - unfold dt_valid. simpl. lia.
  - unfold dt_valid. simpl. lia.
  - reflexivity.
  - reflexivity.
  - rewrite C. reflexivity.
Defined.

(** Well-formedness survives a new directory under an existing one. *)
Lemma fs_wf_insert_dir f p :
  fs_wf f -> is_dir f (parent p) = true -> f !! p = None ->
  fs_wf (<[p := Dir]> f).
Proof.
  intros Wf D N q n H.
  assert (G : is_dir f (parent q) = true).
  { apply lookup_insert_Some in H as [[<- _]|[_ H]]; [exact D|]. eapply Wf; eauto. }
  unfold is_dir, lookup_node in *.
  destruct (parent q) as [|c up] eqn:E; [reflexivity|].
  destruct (decide (p = c :: up)) as [->|Ne].
  - now rewrite lookup_insert_eq.
  - now rewrite lookup_insert_ne.
Qed.

Lemma mkdir_exist_ok_wf p f f' :
  fs_wf f -> mkdir_exist_ok p f = inr f' -> fs_wf f'.
Proof.
  intros Wf. unfold mkdir_exist_ok.
  destruct (os_mkdir p f) as [e|g] eqn:E.
  - destruct e; try easy; destruct (is_dir f p); try easy;
      intros H; inversion H; subst; exact Wf.
  - intros H. inversion H; subst.
    assert (D : is_dir f (parent p) = true).
    { unfold os_mkdir in E. unfold is_dir.
      destruct (lookup_node f p); [easy|].
      destruct (lookup_node f (parent p)) as [[|?]|]; easy. }
    apply os_mkdir_inr in E as (N & _ & ->). now apply fs_wf_insert_dir.
Qed.

Lemma mkdir_parents_wf p : forall f f',
  fs_wf f -> mkdir_parents p f = inr f' -> fs_wf f'.
Proof.
  induction p as [|c up IH]; intros f f' Wf.
  - simpl. intros H. inversion H; subst. exact Wf.
  - cbn [mkdir_parents].
    destruct (os_mkdir (c :: up) f) as [e|g] eqn:E.
    + destruct e.
      * destruct (mkdir_parents up f) as [e1|f1] eqn:E1; [easy|].
        intros H. eapply mkdir_exist_ok_wf; [|exact H]. eapply IH; eauto.
      * destruct (is_dir f (c :: up)); [|easy]. intros H. inversion H; subst. exact Wf.
      * destruct (is_dir f (c :: up)); [|easy]. intros H. inversion H; subst. exact Wf.
      * destruct (is_dir f (c :: up)); [|easy]. intros H. inversion H; subst. exact Wf.
    + intros H. inversion H; subst.
      assert (D : is_dir f (parent (c :: up)) = true).
      { unfold os_mkdir in E. unfold is_dir.
        destruct (lookup_node f (c :: up)); [easy|].
        destruct (lookup_node f (parent (c :: up))) as [[|?]|]; easy. }
      apply os_mkdir_inr in E as (N & _ & ->). now apply fs_wf_insert_dir.
Qed.

(** On a well-formed file system everything above an entry is a directory. *)
Lemma fs_wf_ancestors f p :
  fs_wf f -> exists_ f p = true ->
  Forall (fun q => is_dir f q = true) (ancestors (parent p)).
Proof.
  intros Wf. induction p as [|c up IH]; intros E.
  - simpl. constructor; [reflexivity|constructor].
  - cbn [parent tail].
    assert (D : is_dir f up = true).
    { unfold exists_, lookup_node in E.
      destruct (f !! (c :: up)) as [n|] eqn:L; [|discriminate E].
      apply (Wf _ _ L). }
    destruct up as [|c' up'].
    + simpl. constructor; [reflexivity|constructor].
    + cbn [ancestors]. constructor; [exact D|].
      apply IH. unfold exists_. unfold is_dir in D.
      destruct (lookup_node f (c' :: up')); [reflexivity|discriminate D].
Qed.

Lemma unobstructed_tail f c up : unobstructed f (c :: up) -> unobstructed f up.
Proof.
  unfold unobstructed. cbn [ancestors forallb].
  intros H. now apply andb_true_iff in H as [_ H].
Qed.

(** On a well-formed file system a regular file in the way makes
    [mkdir] fail. *)
Lemma mkdir_parents_obstructed p : forall f,
  fs_wf f -> ~ unobstructed f p -> exists e, mkdir_parents p f = inl e.
Proof.
  unfold unobstructed.
  induction p as [|c up IH]; intros f Wf U.
  - exfalso. apply U. reflexivity.
  - cbn [ancestors forallb] in U. cbn [mkdir_parents]. unfold os_mkdir.
    cbn [parent tail].
    destruct (lookup_node f (c :: up)) as [[|x]|] eqn:L.
    + (* the directory exists: nothing above it is a file *)
      exfalso. apply U. apply andb_true_iff. split.
      * unfold is_file. now rewrite L.
      * assert (E : exists_ f (c :: up) = true) by (unfold exists_; now rewrite L).
        pose proof (fs_wf_ancestors f (c :: up) Wf E) as A. cbn [parent tail] in A.
        apply forallb_forall. intros q Hq. rewrite Forall_forall in A.
        apply list_elem_of_In in Hq. specialize (A q Hq).
        unfold is_file. unfold is_dir in A.
        destruct (lookup_node f q) as [[|?]|]; easy.
    + unfold is_dir. rewrite L. eauto.
    + destruct (lookup_node f up) as [[|x]|] eqn:Lup.
      * exfalso. apply U. apply andb_true_iff. split.
        -- unfold is_file. now rewrite L.
        -- assert (E : exists_ f up = true) by (unfold exists_; now rewrite Lup).
           pose proof (fs_wf_ancestors f up Wf E) as A.
           destruct up as [|c' up']; [reflexivity|].
           cbn [ancestors forallb]. apply andb_true_iff. split.
           ++ unfold is_file. now rewrite Lup.
           ++ cbn [parent tail] in A.
              apply forallb_forall. intros q Hq. rewrite Forall_forall in A.
              apply list_elem_of_In in Hq. specialize (A q Hq).
              unfold is_file. unfold is_dir in A.
              destruct (lookup_node f q) as [[|?]|]; easy.
      * unfold is_dir. rewrite L. eauto.
      * destruct (IH f Wf) as (e & ->); [|eauto].
        intros Uup. apply U. apply andb_true_iff. split; [|exact Uup].
        unfold is_file. now rewrite L.
Qed.

Lemma extends_by_dirs_keeps p f f' q n :
  extends_by_dirs p f f' -> f !! q = Some n -> f' !! q = Some n.
Proof.
  intros X H. destruct (X q) as [E|(N & _)]; congruence.
Qed.

Lemma resolve_contract d w : fs_wf (fs w) -> resolver_contract (resolve d) d w.
Proof.
  intros Wf. unfold resolver_contract. split; [|split].
  - split.
    + intros U. destruct (resolve_unobstructed d w U) as (f & _ & R). eauto.
    + intros (w' & R). unfold unobstructed.
      destruct (forallb _ (ancestors d)) eqn:U; [reflexivity|].
      exfalso. destruct (mkdir_parents_obstructed d (fs w) Wf) as (e & E).
      { unfold unobstructed. rewrite U. discriminate. }
      destruct (resolve_outcome d w) as [(f & E' & _)|(e' & _ & R')]; congruence.
  - intros e w' R.
    destruct (resolve_outcome d w) as [(f & _ & R')|(e' & _ & R')]; congruence.
  - intros p w' R.
    destruct (resolve_outcome d w) as [(f & E & R')|(e' & _ & R')]; [|congruence].
    rewrite R' in R. injection R as <- <-. cbn [fs set_fs].
    pose proof (mkdir_parents_wf d _ _ Wf E) as Wf'.
    apply mkdir_parents_inr in E as [D X].
    split; [exact Wf'|]. split; [intros q n; now apply (extends_by_dirs_keeps d)|].
    destruct d as [|c up]; [constructor; [reflexivity|constructor]|].
    cbn [ancestors]. constructor; [exact D|].
    apply (fs_wf_ancestors f (c :: up) Wf').
    unfold exists_. unfold is_dir in D.
    destruct (lookup_node f (c :: up)); [reflexivity|discriminate D].
Qed.

(** X3.  For a run identifier as [generate_run_id] makes them, on a
    well-formed file system [get_har_dir] and [get_scripts_dir] fail
    exactly when a regular file sits at the directory or above it; a
    failure changes nothing; a success keeps the file system well-formed,
    removes or replaces no entry, and leaves the directory and every
    directory above it in place. *)
Theorem resolvers_contract env run_id w :
  run_token run_id ->
  fs_wf (fs w) ->
  resolver_contract (get_har_dir env run_id) (e_root env / "har" / run_id) w /\
  resolver_contract (get_scripts_dir env run_id)
    (e_root env / "scripts" / run_id) w.
Proof. intros _ Wf. split; apply resolve_contract; exact Wf. Qed.

Lemma resolvers_contract_witness :
  exists w', get_har_dir Sample.quiet Sample.rid Sample.w0 =
             Ok Sample.capture_dir w' /\ fs_wf (fs w').
Proof.
  destruct (resolvers_contract Sample.quiet Sample.rid Sample.w0
              (conj eq_refl eq_refl) sample_disk_wf)
    as [(Iff & _ & Keeps) _].
  destruct (proj1 Iff) as (w' & R); [vm_compute; reflexivity|].
  exists w'. split; [exact R|]. now destruct (Keeps _ _ R).
Defined.

End UtilsMore.

(** ** browser.py: interrupts and engine failures *)

Section BrowserMore.
Import Py World Utils Browser Spec.
Variable env : Env.
Implicit Types (b : ManualBrowser) (w : World) (s : Session) (p q : Path).

#[local] Existing Instance same_run_preorder.

Lemma exits_bind {A B} (m : M Session A) (k : A -> M Session B) :
  steady same_run m -> exits_closed env m -> (forall a, exits_closed env (k a)) ->
  exits_closed env (bind m k).
Proof.
  intros St Hm Hk s c s' H. unfold bind in H. specialize (St s).
  destruct (m s) as [a s1| | |] eqn:E; try discriminate H.
  - simpl in St. destruct (Hk a s1 c s' H) as (-> & s0 & p & R & C).
    split; [reflexivity|]. exists s0, p. split; [|exact C].
    etransitivity; [exact St|exact R].
  - injection H as <- <-. apply (Hm s). exact E.
Qed.

(** Statements that cannot leave through [sys.exit]. *)
Lemma exits_never {A} (m : M Session A) :
  (forall s, settles (m s)) -> exits_closed env m.
Proof. intros H s c s' E. specialize (H s). rewrite E in H. destruct H. Qed.

Lemma exits_io {A} (m : M World A) :
  (forall w, settles (m w)) -> exits_closed env (io m).
Proof.
  intros H. apply exits_never. intros s. unfold io, zoom.
  specialize (H (world s)). destruct (m (world s)); exact H.
Qed.

Lemma exits_try_pass {A} (m : M Session A) :
  exits_closed env m -> exits_closed env (try_pass m).
Proof.
  intros H s c s' E. unfold try_pass, try_except, bind, ret in E.
  destruct (m s) as [a s1|x s1|c1 s1|s1] eqn:Em; try discriminate E.
  injection E as <- <-. apply (H s). exact Em.
Qed.

Lemma close_settles s : settles (close env s).
Proof. destruct s as [b w]. rewrite close_run. destruct (write_file _ _ _); exact I. Qed.

Lemma exits_handle_signal {A} : exits_closed env (@_handle_signal env A).
Proof.
  intros s c s' H.
  pose proof (steady_print (nl +:+ nl +:+ "Closing browser and saving HAR file...") s) as St.
  cbv [_handle_signal bind io zoom print modify sys_exit] in H.
  cbv [final io zoom print modify] in St.
  match type of H with
  | match close env ?x with _ => _ end = _ =>
      pose proof (close_settles x) as S;
      destruct (close env x) as [p s2| | |] eqn:C; try discriminate H;
      try (destruct S)
  end.
  injection H as <- <-. split; [reflexivity|]. eauto.
Qed.

Lemma exits_call ev : exits_closed env (io (call env ev)).
Proof. apply exits_io. intros w. apply call_settles. Qed.

Lemma exits_wait_for_timeout ms : exits_closed env (wait_for_timeout env ms).
Proof.
  unfold wait_for_timeout.
  apply exits_bind; [apply (steady_gets same_run)|now apply exits_never|].
  intros t. apply exits_bind; [apply steady_call|apply exits_call|]. intros _.
  destruct (e_signal env t); [apply exits_handle_signal|now apply exits_never].
Qed.

Lemma exits_pages : exits_closed env (pages env).
Proof.
  unfold pages.
  apply exits_bind; [apply (steady_gets same_run)|now apply exits_never|].
  intros t. apply exits_bind; [apply steady_call|apply exits_call|]. intros _.
  now apply exits_never.
Qed.

Lemma exits_wait_until_closed budget : exits_closed env (wait_until_closed env budget).
Proof.
  induction budget as [|n IH]; simpl.
  - intros s c s' H. discriminate H.
  - apply exits_bind; [apply steady_pages|apply exits_pages|].
    intros [|]; [|now apply exits_never].
    apply exits_bind; [apply steady_pages|apply exits_pages|]. intros first.
    apply exits_bind; [| |intros _; exact IH].
    + destruct first; [apply steady_wait_for_timeout|apply (steady_raise same_run)].
    + destruct first; [apply exits_wait_for_timeout|now apply exits_never].
Qed.

(** When [start] leaves through [sys.exit], a [close] of the run has
    just returned. *)
Lemma start_Exit budget url b w c s' :
  start env budget url (MkSession b w) = Exit c s' ->
  c = 0%Z /\ exists s0 p, same_run (started env b w) s0 /\ close env s0 = Ok p s'.
Proof.
  unfold start. unfold bind at 1.
  unfold io at 1, zoom, get_timestamp, bind at 1, now, ret.
  cbn [world]. unfold bind at 1, assign at 1, modify. intros H.
  match type of H with
  | ?m ?s = _ =>
      change s with (started env b w) in H;
      cut (exits_closed env m); [intros X; exact (X _ _ _ H)|]
  end.
  clear H.
  pose proof (steady_wait env) as SW.
  pose proof (fun n => exits_try_pass _ (exits_wait_until_closed n)) as EW.
  Opaque close.
  repeat
    (apply exits_bind;
     [ first [ apply steady_call | apply steady_print | apply steady_attr
             | apply SW
             | apply steady_assign; intros []; repeat split
             | destruct url as [u|]; [destruct (decide (u = ""))|];
               first [apply steady_call | apply (steady_ret same_run)] ]
     | first [ apply exits_call | apply EW
             | apply exits_never; intros ?; exact I
             | destruct url as [u|]; [destruct (decide (u = ""))|];
               first [apply exits_call | apply exits_never; intros ?; exact I] ]
     | intros ? ]).
  apply exits_never. intros ?. apply close_settles.
  Transparent close.
Qed.

(** X4.  An interrupt during the wait is a transition, not a crash:
    whenever [start] leaves through [sys.exit] the exit code is 0, the three
    handles have been dropped, and the metadata file holds the record of
    the run with the start time read on entry to [start]. *)
Theorem interrupt_closes_then_exits run_id prompt w b w1 budget url c s' :
  __init__ env run_id prompt w = Ok b w1 ->
  start env budget url (MkSession b w1) = Exit c s' ->
  let archive := e_root env / "har" / run_id / "recording.har" in
  let metadata := e_root env / "har" / run_id / "metadata.json" in
  c = 0%Z /\
  _context (self s') = None /\ _browser (self s') = None /\
  _playwright (self s') = None /\
  exists end_time,
    fs (world s') !! metadata =
      Some (File (Json (metadata_record run_id prompt
                          (JStr (isoformat (e_now env (time w1))))
                          end_time (path_str archive)))).
Proof.
  intros Hi Hs archive metadata.
  apply init_Ok in Hi as (Hb & _).
  apply start_Exit in Hs as (-> & s0 & p & Same & Hc).
  apply same_run_fields in Same as (F1 & F2 & F3 & F4 & F5 & F6 & _).
  destruct s0 as [b' w']. cbn [self world] in *.
  assert (Fb : Browser.run_id b = run_id /\ Browser.prompt b = prompt /\
               har_path b = archive /\ metadata_path b = metadata /\
               har_dir b = e_root env / "har" / run_id) by (subst b; repeat split).
  destruct Fb as (G1 & G2 & G3 & G4 & G5).
  assert (P : recorder_paths b').
  { unfold recorder_paths. rewrite F3, F4, F5, G3, G4, G5. split; reflexivity. }
  apply close_Ok in Hc as (R & -> & ->); [|exact P].
  destruct (torn_down_handles b') as (H1 & H2 & H3).
  rewrite closed_self. repeat split; try assumption.
  eexists. rewrite <- G4, <- F5, closed_metadata, metadata_of_record.
  rewrite F1, F2, F4, F6, G1, G2, G3. reflexivity.
Qed.

Lemma time_add_event ev w : time (add_event ev w) = S (time w).
Proof. unfold time, add_event. cbn [trace]. rewrite length_app. simpl. lia. Qed.

(** X5.  When the browser cannot be launched, [start] raises the
    engine's exception and cleans nothing up: the automation engine it
    started is still held and is not stopped, the other handles are as
    they were, [close] is not called, and no metadata is written - the
    file system is as it was. *)
Theorem launch_failure_is_not_cleaned_up budget url b w x :
  e_fault env (S (time w)) = None ->
  e_fault env (S (S (time w))) = None ->
  e_fault env (S (S (S (time w)))) = None ->
  e_fault env (S (S (S (S (time w))))) = Some x ->
  exists s',
    start env budget url (MkSession b w) = Raise x s' /\
    _playwright (self s') = Some PlaywrightObj /\
    _browser (self s') = _browser b /\
    _context (self s') = _context b /\
    fs (world s') = fs w /\
    trace (world s') =
      trace w ++ [EvNow (e_now env (time w)); EvSignal SIGINT; EvSignal SIGTERM;
                  EvPlaywrightStart; EvLaunch].
Proof.
  intros F1 F2 F3 F4.
  assert (C : forall ev w0, call env ev w0 =
            match e_fault env (time w0) with
            | Some e => Raise e (add_event ev w0)
            | None => Ok tt (add_event ev w0)
            end) by reflexivity.
  assert (T : forall o w0, time (add_out o w0) = time w0) by reflexivity.
  unfold start.
  cbv [bind io zoom get_timestamp now ret assign modify print attr gets].
  cbn [world self set_world set_self].
  rewrite !C; repeat (rewrite T || rewrite time_add_event);
    rewrite F1; cbn [world self set_world set_self].
  rewrite !C; repeat (rewrite T || rewrite time_add_event);
    rewrite F2; cbn [world self set_world set_self].
  rewrite !C; repeat (rewrite T || rewrite time_add_event);
    rewrite F3; cbn [world self set_world set_self].
  rewrite !C; repeat (rewrite T || rewrite time_add_event);
    rewrite F4.
  eexists. split; [reflexivity|].
  cbn [world self set_world set_self trace fs _playwright _browser _context
       set_playwright set_start_time add_out add_event].
  repeat split. now rewrite <- !app_assoc.
Qed.





End BrowserMore.

Section BrowserMoreRuns.
Import Py World Utils Browser Spec.

Lemma interrupt_closes_then_exits_witness :
  let r := start Sample.interrupted 3 None (MkSession Sample.fresh Sample.w1) in
  r = Exit 0 (final r) /\ _context (self (final r)) = None.
Proof.
  intros r.
  assert (E : r = Exit 0 (final r)) by (vm_compute; reflexivity).
  destruct (interrupt_closes_then_exits Sample.interrupted Sample.rid
              Sample.intent Sample.w0 Sample.fresh Sample.w1 3 None _ _
              eq_refl E) as (_ & C & _).
  split; [exact E|exact C].
Defined.

Lemma launch_failure_is_not_cleaned_up_witness :
  exists s',
    start Sample.no_browser 3 None (MkSession Sample.fresh Sample.w1) =
      Raise (Exn "Error" "Executable doesn't exist") s' /\
    _playwright (self s') = Some PlaywrightObj /\
    fs (world s') = Sample.disk1.
Proof.
  destruct (launch_failure_is_not_cleaned_up Sample.no_browser 3 None
              Sample.fresh Sample.w1 (Exn "Error" "Executable doesn't exist")
              eq_refl eq_refl eq_refl eq_refl)
    as (s' & R & P & _ & _ & F & _).
  exists s'. split; [exact R|]. split; [exact P|exact F].
Defined.


End BrowserMoreRuns.

(** ** engineer.py: what the presenter counts and shows *)

Section EngineerMore.
Import Py World Utils Engineer Spec.
Implicit Types (s : Run) (e : APIReverseEngineer) (w : World).

Lemma presenting_nil s : presenting [] [] s = s.
Proof.
  destruct s as [[? ? ? ? ? ? [v c u]] [f o t]]. unfold presenting, counted.
  simpl. now rewrite Nat.add_0_r, !app_nil_r.
Qed.

Lemma presenting_app n1 k1 n2 k2 s :
  presenting n2 k2 (presenting n1 k1 s) = presenting (n1 ++ n2) (k1 ++ k2) s.
Proof.
  unfold presenting, counted. simpl.
  now rewrite length_app, Nat.add_assoc, <- !app_assoc.
Qed.

Lemma shown_tools_app k1 k2 :
  shown_tools (k1 ++ k2) = shown_tools k1 ++ shown_tools k2.
Proof.
  induction k1 as [|[] k1 IH]; simpl; auto. now rewrite IH.
Qed.

Lemma progress_of_nil : progress_of [] [].
Proof. split; [constructor|reflexivity]. Qed.

Lemma progress_of_app n1 k1 n2 k2 :
  progress_of n1 k1 -> progress_of n2 k2 -> progress_of (n1 ++ n2) (k1 ++ k2).
Proof.
  intros [F1 E1] [F2 E2]. split.
  - apply Forall_app; split; assumption.
  - rewrite shown_tools_app. congruence.
Qed.

Lemma on_ui_ret {A} (a : A) s : on_ui (ret a) s = Ok a s.
Proof. destruct s as [[] []]. reflexivity. Qed.

(** A line printed by the presenter that counts nothing. *)
Lemma on_ui_console o s :
  on_ui (Tui.console o) s = Ok tt (presenting [] [o] s).
Proof.
  destruct s as [[? ? ? ? ? ? [v c u]] [f t x]]. unfold presenting, counted.
  simpl. rewrite Nat.add_0_r, app_nil_r. reflexivity.
Qed.

(** The blocks of a message: each tool use is counted and shown, a failed
    result is shown as "Tool", text may be shown. *)
Lemma show_blocks_run content : forall s,
  exists k, show_blocks content s = Ok tt (presenting (block_tools content) k s) /\
            progress_of (block_tools content) k.
Proof.
  induction content as [|[name input|is_error|text|] rest IH]; intros s;
    cbn [show_blocks block_tools].
  - exists []. rewrite presenting_nil. split; [reflexivity|apply progress_of_nil].
  - destruct (IH (presenting [name] [UiToolStart name input] s)) as (k & E & F).
    exists ([UiToolStart name input] ++ k). split.
    + unfold bind.
      assert (S1 : on_ui (Tui.tool_start name input) s =
                   Ok tt (presenting [name] [UiToolStart name input] s)).
      { destruct s as [[? ? ? ? ? ? [v c u]] [f o t]]. reflexivity. }
      rewrite S1, E, presenting_app. reflexivity.
    + apply (progress_of_app [name] _ _ _); [|exact F].
      split; [repeat constructor|reflexivity].
  - assert (S1 : exists k1, on_ui (Tui.tool_result "Tool" (default false is_error)) s =
                            Ok tt (presenting [] k1 s) /\ progress_of [] k1).
    { destruct is_error as [[|]|]; unfold default; cbn [from_option id Tui.tool_result].
      - exists [UiToolFailed "Tool"]. split; [apply on_ui_console|].
        split; [repeat constructor|reflexivity].
      - exists []. rewrite presenting_nil. split; [apply on_ui_ret|apply progress_of_nil].
      - exists []. rewrite presenting_nil. split; [apply on_ui_ret|apply progress_of_nil]. }
    destruct S1 as (k1 & S1 & F1).
    destruct (IH (presenting [] k1 s)) as (k & E & F).
    exists (k1 ++ k). split; [|apply (progress_of_app [] _ _ _); assumption].
    unfold bind. rewrite S1, E, presenting_app. reflexivity.
  - assert (S1 : exists k1, on_ui (Tui.thinking text) s = Ok tt (presenting [] k1 s) /\
                            progress_of [] k1).
    { assert (Q : on_ui (Tui.thinking text) s = Ok tt s \/
                  on_ui (Tui.thinking text) s = on_ui (Tui.console (UiThinking text)) s).
      { unfold on_ui, zoom, Tui.thinking, bind, gets.
        destruct (negb _); [left; destruct s as [[] []]; reflexivity|].
        destruct (_ <? 20); [left; destruct s as [[] []]; reflexivity|].
        right. reflexivity. }
      destruct Q as [Q|Q]; rewrite Q.
      - exists []. rewrite presenting_nil. split; [reflexivity|apply progress_of_nil].
      - exists [UiThinking text]. split; [apply on_ui_console|].
        split; [repeat constructor|reflexivity]. }
    destruct S1 as (k1 & S1 & F1).
    destruct (IH (presenting [] k1 s)) as (k & E & F).
    exists (k1 ++ k). split; [|apply (progress_of_app [] _ _ _); assumption].
    unfold bind. rewrite S1, E, presenting_app. reflexivity.
  - apply IH.
Qed.

(** The response loop: the progress of the tools used before the first
    result message, then the line of that message. *)
Lemma receive_response_shows messages fault : forall s,
  exists k, progress_of (tool_uses messages) k /\
    let names := tool_uses messages in
    receive_response messages fault s =
    match first_result messages with
    | Some (false, _) =>
        let script := path_str (scripts_dir (self s) / "api_client.py") in
        Ok (Some (Some script))
          (presenting names
             (k ++ [UiSuccess (Tui._tool_count (ui (self s)) + length names) script]) s)
    | Some (true, result) =>
        Ok (Some None)
          (presenting names (k ++ [UiError (str_or result "Unknown error")]) s)
    | None =>
        match fault with
        | Some x => Raise x (presenting names k s)
        | None => Ok None (presenting names k s)
        end
    end.
Proof.
  induction messages as [|[content|is_error result|] rest IH]; intros s;
    cbn [receive_response first_result tool_uses].
  - exists []. split; [apply progress_of_nil|]. cbn zeta. rewrite presenting_nil.
    destruct fault; reflexivity.
  - destruct (show_blocks_run content s) as (k1 & E1 & F1).
    destruct (IH (presenting (block_tools content) k1 s)) as (k & F & E).
    exists (k1 ++ k). split; [apply progress_of_app; assumption|].
    cbn zeta in *. unfold bind. rewrite E1, E.
    destruct (first_result rest) as [[[|] result]|].
    + now rewrite presenting_app, app_assoc.
    + rewrite presenting_app, app_assoc. cbn [presenting self ui scripts_dir counted
        Tui._tool_count]. now rewrite length_app, Nat.add_assoc.
    + destruct fault; now rewrite presenting_app.
  - exists []. split; [apply progress_of_nil|]. cbn zeta.
    destruct is_error; unfold bind, attr, gets; cbn [app length].
    + unfold Tui.error. now rewrite on_ui_console.
    + rewrite Nat.add_0_r. destruct s as [[? ? ? ? ? ? [v c u]] [f t x]].
      unfold presenting, counted. simpl. rewrite Nat.add_0_r, app_nil_r.
      reflexivity.
  - apply IH.
Qed.

Variable env : Env.

(** The terminal after an analysis whose client was entered and whose
    query was sent: the header, the progress of the tools used before the
    first result message, and the ending. *)
Lemma analyze_and_generate_shows e w :
  let agent := e_agent env in
  let names := tool_uses (Sdk.stream agent) in
  let script := path_str (scripts_dir e / "api_client.py") in
  Sdk.enter_fault agent = None -> Sdk.query_fault agent = None ->
  exists k s',
    progress_of names k /\
    analyze_and_generate env (MkRun e w) = Ok (analysis_result agent script) s' /\
    ui (self s') = counted names (ui e) /\
    out (world s') =
      out w ++ [UiHeader (run_id e) (prompt e) (model e); UiStartAnalysis] ++ k ++
      ending agent (Tui._tool_count (ui e) + length names) script.
Proof.
  intros agent names script En Qu.
  unfold analyze_and_generate, analysis_result, ending, exit_lines.
  fold agent. rewrite En, Qu.
  cbv [bind attr gets try_except with_ io zoom agent_call modify raise ret
       on_ui Tui.header Tui.start_analysis Tui.console Tui.error show
       sys_exit].
  cbn [self world set_world set_screen Tui.self Tui.world scripts_dir].
  match goal with
  | |- context [receive_response ?m ?f ?s] =>
      destruct (receive_response_shows m f s) as (k & F & E)
  end.
  cbn zeta in E. fold names in E, F. rewrite E. clear E.
  exists k.
  assert (T : terminal_event (Sdk.stream agent) =
              match first_result (Sdk.stream agent) with
              | Some (b, _) => Some b
              | None => None
              end).
  { clear. induction (Sdk.stream agent) as [|[] rest IH]; simpl; auto. }
  rewrite T. clear T.
  cbn [self world set_world set_screen Tui.self Tui.world scripts_dir ui
       Tui._tool_count]. fold script.
  destruct (first_result (Sdk.stream agent)) as [[[|] result]|],
    (Sdk.stream_fault agent), (Sdk.exit_fault agent);
    (eexists; split; [exact F|]; split; [reflexivity|]);
    cbn [self world set_world set_screen Tui.self Tui.world ui out presenting
         add_out add_event];
    (split; [reflexivity|]);
    unfold id; rewrite <- ?app_assoc, ?app_nil_r; reflexivity.
Qed.

(** Once the result message has come, nothing of the stream is read. *)
Lemma receive_response_cut messages post fault fault' s :
  terminal_event messages <> None ->
  receive_response (messages ++ post) fault s = receive_response messages fault' s.
Proof.
  revert s. induction messages as [|[content|is_error result|] rest IH];
    intros s T; cbn [receive_response terminal_event app] in *.
  - now contradiction T.
  - unfold bind. destruct (show_blocks content s); auto.
  - reflexivity.
  - auto.
Qed.


(** X9.  A stream that ends without a result message.  When nothing in
    the session raises and the stream yields no result message, the
    analysis returns no path and tells nothing about it: after the header
    the terminal shows the progress lines only, with no success summary,
    no error and no installation hint.  (The texts of the header and what
    the session makes the presenter print hold no markup, and the tool
    inputs summarised are strings.) *)
Theorem stream_without_result_is_silent run_id har prompt model extra verbose w e w1 :
  __init__ env run_id har prompt model extra verbose w = Ok e w1 ->
  header_plain run_id prompt model = true ->
  session_plain (e_agent env) = true ->
  let agent := e_agent env in
  let r := analyze_and_generate env (MkRun e w1) in
  session_clean agent -> Sdk.stream_fault agent = None ->
  terminal_event (Sdk.stream agent) = None ->
  exists shown,
    r = Ok None (final r) /\
    Forall progress_line shown /\
    shown_tools shown = tool_uses (Sdk.stream agent) /\
    out (world (final r)) =
      out w1 ++ [UiHeader run_id prompt model; UiStartAnalysis] ++ shown.
Proof.
  intros Hi _ _ agent r (En & Qu & Ex) Sf T.
  apply engineer_init_Ok in Hi as (-> & _).
  subst r.
  match goal with
  | |- context [MkRun ?e _] =>
      destruct (analyze_and_generate_shows e w1 En Qu) as (k & s' & [F N] & E & U & O)
  end.
  rewrite E. cbn [final].
  cbn [ui Engineer.run_id Engineer.prompt Engineer.model scripts_dir
       Tui._tool_count] in *.
  assert (R : first_result (Sdk.stream agent) = None).
  { clear -T. induction (Sdk.stream agent) as [|[] rest IH]; simpl in *;
      try discriminate; auto. }
  exists k. split; [|split; [exact F|split; [exact N|]]].
  - f_equal. unfold analysis_result. fold agent. now rewrite En, Qu, T.
  - rewrite O. unfold ending, exit_lines. fold agent. rewrite R, Sf, Ex.
    now rewrite app_nil_r.
Qed.

End EngineerMore.

Section EngineerMoreRuns.
Import Py World Utils Engineer Spec.

(** X8.  Nothing is read after the result message.  Two agent sessions
    that enter, query and leave alike, and whose streams agree up to and
    including a result message, drive the analysis to the same outcome:
    what is sent after the first result message, and whether the stream
    breaks after it, has no effect. *)
Theorem result_message_ends_the_stream env1 env2 messages post1 post2 s :
  let a1 := e_agent env1 in
  let a2 := e_agent env2 in
  terminal_event messages <> None ->
  Sdk.stream a1 = messages ++ post1 -> Sdk.stream a2 = messages ++ post2 ->
  Sdk.enter_fault a1 = Sdk.enter_fault a2 ->
  Sdk.query_fault a1 = Sdk.query_fault a2 ->
  Sdk.exit_fault a1 = Sdk.exit_fault a2 ->
  analyze_and_generate env1 s = analyze_and_generate env2 s.
Proof.
  intros a1 a2 T S1 S2 En Qu Ex.
  unfold analyze_and_generate. fold a1 a2. rewrite S1, S2, En, Qu, Ex.
  cbv [bind attr gets try_except with_ io zoom agent_call modify raise ret
       on_ui Tui.header Tui.start_analysis Tui.console Tui.error show
       sys_exit].
  cbn [self world set_world set_screen Tui.self Tui.world scripts_dir].
  destruct (Sdk.enter_fault a2); [reflexivity|].
  destruct (Sdk.query_fault a2); [reflexivity|].
  rewrite (receive_response_cut messages post1 (Sdk.stream_fault a1) None _ T).
  rewrite (receive_response_cut messages post2 (Sdk.stream_fault a2) None _ T).
  reflexivity.
Qed.


Lemma stream_without_result_is_silent_witness :
  let r := analyze_and_generate Sample.trailing_off
             (MkRun Sample.analyst Sample.w2) in
  exists shown,
    r = Ok None (final r) /\ shown_tools shown = ["Glob"] /\
    out (world (final r)) =
      [UiHeader Sample.rid (JStr Sample.intent) (Some "sonnet"); UiStartAnalysis] ++
      shown.
Proof.
  destruct (stream_without_result_is_silent Sample.trailing_off Sample.rid
              (Sample.capture_dir / "recording.har") (JStr Sample.intent)
              (Some "sonnet") None true Sample.w1 Sample.analyst Sample.w2)
    as (shown & R & _ & N & O);
    [vm_compute; reflexivity|reflexivity|reflexivity|repeat split
    |reflexivity|reflexivity|].
  exists shown. split; [exact R|]. split; [exact N|exact O].
Defined.

Lemma result_message_ends_the_stream_witness :
  analyze_and_generate Sample.tooling (MkRun Sample.analyst Sample.w2) =
  analyze_and_generate Sample.tooling_cut (MkRun Sample.analyst Sample.w2).
Proof.
  apply (result_message_ends_the_stream Sample.tooling Sample.tooling_cut
           [Sdk.AssistantMessage
              [Sdk.ToolUseBlock "Read" [("file_path", JStr "recording.har")];
               Sdk.ToolUseBlock "Bash" [("command", JStr "python3 api_client.py")];
               Sdk.ToolResultBlock (Some true)];
            Sdk.ResultMessage false None]
           [Sdk.AssistantMessage [Sdk.ToolUseBlock "Write" []]] []);
    [simpl; discriminate|reflexivity..].
Defined.

End EngineerMoreRuns.

(** ** cli.py: the [engineer] command once the archive is found *)

Section CommandMore.
Import Py World Utils Spec.
Variable env : Env.
Implicit Types (f : FS) (p q : Path) (w : World).

Lemma append_empty (a b : string) : a +:+ b = EmptyString -> a = EmptyString /\ b = EmptyString.
Proof. destruct a; simpl; [auto|discriminate]. Qed.

Lemma path_str_nonempty p name : path_str (p / name) <> EmptyString.
Proof.
  intros H. cbn [path_str div] in H.
  repeat (apply append_empty in H as [? H]); discriminate.
Qed.

(** The wrapper builds the engineer and runs the analysis to its end. *)
Lemma run_reverse_engineering_run run_id har prompt model extra verbose w :
  let scripts := e_root env / "scripts" / run_id in
  let e := Engineer.MkEngineer run_id har prompt model extra scripts
             (Tui.MkClaudeUI verbose 0 []) in
  unobstructed (fs w) scripts ->
  exists f,
    mkdir_parents scripts (fs w) = inr f /\
    Engineer.__init__ env run_id har prompt model extra verbose w =
      Ok e (set_fs f w) /\
    Engineer.run_reverse_engineering env run_id har prompt model extra verbose w =
    let r := Engineer.analyze_and_generate env (Engineer.MkRun e (set_fs f w)) in
    match r with
    | Ok v s' => Ok v (Engineer.world s')
    | Raise x s' => Raise x (Engineer.world s')
    | Exit c s' => Exit c (Engineer.world s')
    | Hang s' => Hang (Engineer.world s')
    end.
Proof.
  intros scripts e U.
  destruct (resolve_unobstructed scripts w U) as (f & E & R).
  exists f. split; [exact E|].
  assert (I : Engineer.__init__ env run_id har prompt model extra verbose w =
              Ok e (set_fs f w)).
  { unfold Engineer.__init__. unfold bind at 1.
    change (get_scripts_dir env run_id) with (resolve scripts). now rewrite R. }
  split; [exact I|].
  unfold Engineer.run_reverse_engineering. unfold bind at 1. rewrite I.
  reflexivity.
Qed.

(** Every line of an analysis is the presenter's, and no file is touched. *)
Lemma analyze_and_generate_lines e w :
  exists shown s',
    Engineer.analyze_and_generate env (Engineer.MkRun e w) =
      Ok (analysis_result (e_agent env)
            (path_str (Engineer.scripts_dir e / "api_client.py"))) s' /\
    out (Engineer.world s') =
      out w ++ UiHeader (Engineer.run_id e) (Engineer.prompt e) (Engineer.model e)
               :: UiStartAnalysis :: shown /\
    Forall presenter_line shown /\
    fs (Engineer.world s') = fs w.
Proof.
  destruct (analyze_and_generate_run env e w) as (s0 & A0 & _ & _ & Fs).
  assert (Fs0 : fs (Engineer.world s0) = fs w).
  { rewrite Fs. unfold analysis_begun.
    destruct (Sdk.enter_fault (e_agent env)); reflexivity. }
  assert (S0 : s0 = final (Engineer.analyze_and_generate env (Engineer.MkRun e w)))
    by now rewrite A0.
  assert (Early : forall x y : exn,
            Sdk.enter_fault (e_agent env) = Some x \/
            Sdk.enter_fault (e_agent env) = None /\
            Sdk.query_fault (e_agent env) = Some y ->
            exists z, out (Engineer.world s0) =
              out w ++ UiHeader (Engineer.run_id e) (Engineer.prompt e)
                         (Engineer.model e)
                       :: UiStartAnalysis :: [UiError (exn_msg z); UiInstallHint]).
  { intros x y H. rewrite S0. unfold Engineer.analyze_and_generate.
    cbv [bind Engineer.attr gets try_except with_ Engineer.io zoom
         Engineer.agent_call modify raise ret Engineer.on_ui Tui.header
         Tui.start_analysis Tui.console Tui.error show sys_exit].
    destruct H as [En|[En Qu]]; rewrite En; [|rewrite Qu];
      [|destruct (Sdk.exit_fault (e_agent env))];
      eexists;
      cbn [final Engineer.world Engineer.set_world Engineer.set_screen Tui.world
           out add_out add_event Engineer.self Tui.self];
      unfold id; rewrite <- !app_assoc; reflexivity. }
  destruct (Sdk.enter_fault (e_agent env)) as [x|] eqn:En.
  { destruct (Early x x) as (z & O); [now left|].
    exists [UiError (exn_msg z); UiInstallHint], s0.
    split; [exact A0|]. split; [exact O|]. split; [repeat constructor|exact Fs0]. }
  destruct (Sdk.query_fault (e_agent env)) as [y|] eqn:Qu.
  { destruct (Early y y) as (z & O); [now right|].
    exists [UiError (exn_msg z); UiInstallHint], s0.
    split; [exact A0|]. split; [exact O|]. split; [repeat constructor|exact Fs0]. }
  clear Early.
  destruct (analyze_and_generate_shows env e w En Qu)
    as (k & s' & [F _] & A & _ & O).
  assert (s0 = s') by (rewrite S0, A; reflexivity). subst s'.
  eexists _, s0. split; [exact A0|].
  split; [rewrite O; cbn [app]; reflexivity|]. split; [|exact Fs0].
  apply Forall_app. split.
  - eapply Forall_impl; [exact F|]. intros [] P; simpl in *; auto.
  - unfold ending, exit_lines.
    destruct (first_result _) as [[[|] ?]|], (Sdk.stream_fault (e_agent env)),
      (Sdk.exit_fault (e_agent env)); repeat constructor.
Qed.

Lemma stored_prompt_absent har w :
  fs w !! (har / "metadata.json") = None -> stored_prompt har w = Ok fallback_prompt w.
Proof.
  intros A. unfold stored_prompt, bind, path_exists, gets, exists_, div.
  simpl. unfold div in A. rewrite A. reflexivity.
Qed.

Lemma stored_prompt_record har w fields :
  fs w !! (har / "metadata.json") = Some (File (Json (JObj fields))) ->
  stored_prompt har w = Ok (from_option id fallback_prompt (assoc "prompt" fields)) w.
Proof.
  intros A. unfold stored_prompt, json_load, path_exists, gets, exists_,
    get, lift_os, read_file, div, bind.
  unfold div in A. simpl. rewrite A. simpl. rewrite ?A. reflexivity.
Qed.

Lemma stored_prompt_malformed har w n :
  fs w !! (har / "metadata.json") = Some n -> not_a_record n ->
  exists x, stored_prompt har w = Raise x w /\
    exn_class x = match n with
                  | Dir => "IsADirectoryError"
                  | File (Raw _) => "JSONDecodeError"
                  | File (Binary _) => "UnicodeDecodeError"
                  | File (Json _) => "AttributeError"
                  end.
Proof.
  intros A N. unfold stored_prompt, json_load, path_exists, gets, exists_,
    get, lift_os, read_file, div, bind.
  unfold div in A. simpl. rewrite A. simpl. rewrite ?A.
  destruct n as [|[[]| |]]; simpl in *; try contradiction; eauto.
Qed.

(** The command, once the capture directory and the archive are there. *)
Lemma engineer_found run_id model instructions w :
  let har := e_root env / "har" / run_id in
  is_dir (fs w) har = true ->
  exists_ (fs w) (har / "recording.har") = true ->
  Cli.engineer env run_id model instructions w =
  (prompt <- stored_prompt har ;;
   script_path <- Engineer.run_reverse_engineering env run_id
                    (har / "recording.har") prompt model instructions true ;;
   announce script_path) w.
Proof.
  intros har D Found. unfold Cli.engineer.
  change (get_har_dir env run_id) with (resolve har).
  unfold bind at 1. rewrite (resolve_present har w D).
  unfold bind at 1, path_exists at 1, gets. fold har. rewrite Found.
  cbn [negb]. unfold stored_prompt, bind. fold har.
  destruct (path_exists (har / "metadata.json") w) as [[|] ?| | |]; reflexivity.
Qed.

(** The command with the prompt it settled on. *)
Lemma engineer_run run_id model instructions w chosen :
  let har := e_root env / "har" / run_id in
  let scripts := e_root env / "scripts" / run_id in
  let script := path_str (scripts / "api_client.py") in
  is_dir (fs w) har = true ->
  exists_ (fs w) (har / "recording.har") = true ->
  stored_prompt har w = Ok chosen w ->
  unobstructed (fs w) scripts ->
  exists f shown w',
    mkdir_parents scripts (fs w) = inr f /\
    Cli.engineer env run_id model instructions w = Ok tt w' /\
    fs w' = f /\
    Forall presenter_line shown /\
    out w' = out w ++ UiHeader run_id chosen model :: UiStartAnalysis :: shown ++
             announcement (analysis_result (e_agent env) script).
Proof.
  intros har scripts script D Found P U.
  rewrite (engineer_found run_id model instructions w D Found). fold har.
  unfold bind at 1. rewrite P. unfold bind at 1.
  destruct (run_reverse_engineering_run run_id (har / "recording.har") chosen
              model instructions true w U) as (f & E & _ & ->).
  fold scripts. cbn zeta.
  match goal with
  | |- context [Engineer.analyze_and_generate env (Engineer.MkRun ?e ?w1)] =>
      destruct (analyze_and_generate_lines e w1) as (shown & s' & -> & O & F & Fs)
  end.
  cbn [Engineer.scripts_dir Engineer.run_id Engineer.prompt Engineer.model
       out fs set_fs] in *. fold script. unfold announce.
  exists f, shown.
  destruct (analysis_result (e_agent env) script) as [path|] eqn:V.
  - assert (path = script).
    { unfold analysis_result in V.
      destruct (Sdk.enter_fault (e_agent env)), (Sdk.query_fault (e_agent env)),
        (terminal_event (Sdk.stream (e_agent env))) as [[|]|],
        (Sdk.exit_fault (e_agent env)); congruence. }
    subst path. destruct (decide (script = "")) as [Z|_].
    + now apply path_str_nonempty in Z.
    + eexists. split; [exact E|]. split; [reflexivity|].
      cbn [fs out add_out]. split; [exact Fs|]. split; [exact F|].
      rewrite O. cbn [announcement]. rewrite <- !app_assoc. reflexivity.
  - eexists. split; [exact E|]. split; [reflexivity|].
    split; [exact Fs|]. split; [exact F|].
    rewrite O. cbn [announcement]. now rewrite app_nil_r.
Qed.

(** X10.  The fallback prompt.  When the archive of a run exists and its
    metadata file is absent, or holds a record without a [prompt] key, the
    analysis command runs the analysis with the fixed text "Reverse
    engineer the captured APIs": the command is the analysis of that text
    followed by the announcement of its result, and - the model name
    holding no markup - the text is shown in the session header and placed
    in the task sent to the agent by the time the command ends.  (The run
    identifier is a token as [generate_run_id] makes them; no regular file
    sits at the scripts directory or above it.) *)
Theorem fallback_prompt_when_none_stored run_id model instructions w :
  let har := e_root env / "har" / run_id in
  let scripts := e_root env / "scripts" / run_id in
  let e := Engineer.MkEngineer run_id (har / "recording.har") fallback_prompt
             model instructions scripts (Tui.MkClaudeUI true 0 []) in
  let r := Cli.engineer env run_id model instructions w in
  run_token run_id ->
  is_dir (fs w) har = true ->
  exists_ (fs w) (har / "recording.har") = true ->
  key_not_stored (fs w) (har / "metadata.json") "prompt" ->
  r = (script_path <- Engineer.run_reverse_engineering env run_id
                        (har / "recording.har")
                        (JStr "Reverse engineer the captured APIs")
                        model instructions true ;;
       announce script_path) w /\
  task_prompt (Engineer._build_analysis_prompt e) =
    JStr "Reverse engineer the captured APIs" /\
  (unobstructed (fs w) scripts ->
   markup_free_opt model = true ->
   exists shown called,
     out (final r) = out w ++
       UiHeader run_id (JStr "Reverse engineer the captured APIs") model ::
       UiStartAnalysis :: shown /\
     trace (final r) = trace w ++ EvClientEnter (agent_options e) :: called /\
     (Sdk.enter_fault (e_agent env) = None ->
      exists rest, called = EvQuery (Engineer._build_analysis_prompt e) :: rest)).
Proof.
  intros har scripts e r _ D Found K. subst r.
  assert (P : stored_prompt har w = Ok fallback_prompt w).
  { destruct K as [A|(fields & A & N)].
    - now apply stored_prompt_absent.
    - rewrite (stored_prompt_record har w fields A), N. reflexivity. }
  assert (Er : Cli.engineer env run_id model instructions w =
               (script_path <- Engineer.run_reverse_engineering env run_id
                                 (har / "recording.har") fallback_prompt
                                 model instructions true ;;
                announce script_path) w).
  { rewrite (engineer_found run_id model instructions w D Found). fold har.
    unfold bind at 1. now rewrite P. }
  rewrite Er.
  split; [reflexivity|]. split; [reflexivity|].
  intros U _.
  destruct (analysis_begins env run_id (har / "recording.har") fallback_prompt
              model instructions w U) as (shown & called & _ & O & T & Q).
  exists shown, called. auto.
Qed.

(** X11.  Metadata that is not a record.  When the archive exists and
    [metadata.json] is there but is not a file holding a JSON object - a
    directory, bytes that do not decode, text that does not parse, or a
    document such as a list - the analysis command raises before it does
    anything else: nothing is printed, no scripts directory is created and
    the agent is never contacted.  The exception is the one of the failing
    step: [IsADirectoryError] from [open], [UnicodeDecodeError] or
    [JSONDecodeError] from [json.load], [AttributeError] from
    [metadata.get].  (The run identifier is a token as [generate_run_id]
    makes them.) *)
Theorem malformed_metadata_stops_command run_id model instructions w n :
  let har := e_root env / "har" / run_id in
  run_token run_id ->
  is_dir (fs w) har = true ->
  exists_ (fs w) (har / "recording.har") = true ->
  fs w !! (har / "metadata.json") = Some n ->
  not_a_record n ->
  exists x,
    Cli.engineer env run_id model instructions w = Raise x w /\
    exn_class x = match n with
                  | Dir => "IsADirectoryError"
                  | File (Raw _) => "JSONDecodeError"
                  | File (Binary _) => "UnicodeDecodeError"
                  | File (Json _) => "AttributeError"
                  end.
Proof.
  intros har _ D Found A N.
  destruct (stored_prompt_malformed har w n A N) as (x & P & C).
  exists x. split; [|exact C].
  rewrite (engineer_found run_id model instructions w D Found). fold har.
  unfold bind at 1. now rewrite P.
Qed.

(** X12.  The command and the agent's failures.  When the archive
    exists and the prompt the command settles on is read without error,
    the analysis command returns normally whichever of entering the
    client, sending the query, reading the stream and leaving the client
    raises - no exception of the agent session reaches the caller.  All it
    prints after the header are lines of the presenter, followed by the
    line "Generated API script: <path>" exactly when the analysis returned
    the script path, that is, when the session raised nowhere and its first
    result message reported success.  (The run identifier is a token as
    [generate_run_id] makes them; the prompt, the model, the project path
    and what the session makes the presenter print hold no markup; no
    regular file sits at the scripts directory or above it.) *)
Theorem command_survives_the_agent run_id model instructions w chosen :
  let har := e_root env / "har" / run_id in
  let scripts := e_root env / "scripts" / run_id in
  let script := path_str (scripts / "api_client.py") in
  run_token run_id ->
  plain (path_str (e_root env)) = true ->
  header_plain run_id chosen model = true ->
  session_plain (e_agent env) = true ->
  is_dir (fs w) har = true ->
  exists_ (fs w) (har / "recording.har") = true ->
  stored_prompt har w = Ok chosen w ->
  unobstructed (fs w) scripts ->
  exists w' shown,
    Cli.engineer env run_id model instructions w = Ok tt w' /\
    Forall presenter_line shown /\
    out w' = out w ++ UiHeader run_id chosen model :: UiStartAnalysis :: shown ++
             announcement (analysis_result (e_agent env) script) /\
    (analysis_result (e_agent env) script = Some script <->
     session_clean (e_agent env) /\
     terminal_event (Sdk.stream (e_agent env)) = Some false) /\
    (analysis_result (e_agent env) script = Some script \/
     analysis_result (e_agent env) script = None).
Proof.
  intros har scripts script _ _ _ _ D Found P U.
  destruct (engineer_run run_id model instructions w chosen D Found P U)
    as (f & shown & w' & E & R & Fs & F & O).
  exists w', shown. split; [exact R|]. split; [exact F|].
  split; [exact O|].
  split; unfold analysis_result, session_clean;
    destruct (Sdk.enter_fault (e_agent env)), (Sdk.query_fault (e_agent env)),
      (terminal_event (Sdk.stream (e_agent env))) as [[|]|],
      (Sdk.exit_fault (e_agent env)); auto;
    split; try easy; intros (? & ? & ?); easy || (intros; easy).
Qed.

End CommandMore.

Section CommandMoreRuns.
Import Py World Utils Spec.

Lemma fallback_prompt_when_none_stored_witness :
  let r := Cli.engineer Sample.quiet Sample.rid None None Sample.archive_only in
  exists shown,
    out (final r) =
      UiHeader Sample.rid (JStr "Reverse engineer the captured APIs") None ::
      UiStartAnalysis :: shown.
Proof.
  destruct (fallback_prompt_when_none_stored Sample.quiet Sample.rid None None
              Sample.archive_only)
    as (_ & _ & Shown).
  - split; reflexivity.
  - vm_compute. reflexivity.
  - vm_compute. reflexivity.
  - left. vm_compute. reflexivity.
  - destruct Shown as (shown & called & O & _).
    + vm_compute. reflexivity.
    + reflexivity.
    + exists shown. exact O.
Defined.

Lemma malformed_metadata_stops_command_witness :
  exists x,
    Cli.engineer Sample.quiet Sample.rid None None Sample.garbled =
      Raise x Sample.garbled /\
    exn_class x = "JSONDecodeError".
Proof.
  apply (malformed_metadata_stops_command Sample.quiet Sample.rid None None
           Sample.garbled (File (Raw "{"))).
  - split; reflexivity.
  - vm_compute. reflexivity.
  - vm_compute. reflexivity.
  - vm_compute. reflexivity.
  - exact I.
Defined.

Lemma command_survives_the_agent_witness :
  exists w' shown,
    Cli.engineer Sample.exit_breaks Sample.rid None None Sample.captured =
      Ok tt w' /\
    Forall presenter_line shown /\
    out w' = out Sample.captured ++
      UiHeader Sample.rid (JStr Sample.intent) None :: UiStartAnalysis :: shown.
Proof.
  destruct (command_survives_the_agent Sample.exit_breaks Sample.rid None None
              Sample.captured (JStr Sample.intent))
    as (w' & shown & R & F & O & _).
  - split; reflexivity.
  - reflexivity.
  - reflexivity.
  - reflexivity.
  - vm_compute. reflexivity.
  - vm_compute. reflexivity.
  - vm_compute. reflexivity.
  - vm_compute. reflexivity.
  - exists w', shown. split; [exact R|]. split; [exact F|].
    rewrite O. cbn [analysis_result announcement Sdk.enter_fault Sdk.query_fault
      Sdk.exit_fault Sdk.stream e_agent Sample.exit_breaks Sample.agent_exit_breaks
      terminal_event].
    now rewrite app_nil_r.
Defined.

End CommandMoreRuns.

(** ** cli.py: the [manual] command *)

Section ManualCommand.
Import Py World Utils Spec.
Implicit Types (w : World) (ans : Cli.Answers).




Variable env : Env.

(** The command with a description given: up to the end of the capture. *)
Lemma manual_described ans r budget p url reverse_engineer model instructions w b w1 :
  Browser.__init__ env (generate_run_id r) p w = Ok b w1 ->
  Cli.manual env ans r budget (Some p) url reverse_engineer model instructions w =
  match Browser.start env budget url (Browser.MkSession b w1) with
  | Ok har_path s1 =>
      if reverse_engineer then
        (script_path <- Engineer.run_reverse_engineering env (generate_run_id r)
                          har_path (JStr p) model instructions true ;;
         match script_path with
         | Some path =>
             if decide (path = "") then ret tt
             else print (nl +:+ "[green]✓[/green] Generated API script: [cyan]" +:+
                         path +:+ "[/cyan]")
         | None => ret tt
         end) (Browser.world s1)
      else Ok tt (Browser.world s1)
  | Raise x s1 => Raise x (Browser.world s1)
  | Exit c s1 => Exit c (Browser.world s1)
  | Hang s1 => Hang (Browser.world s1)
  end.
Proof.
  intros I. unfold Cli.manual. unfold bind at 1, ret at 1.
  cbn [Cli.opt_prompt Cli.opt_url Cli.opt_reverse_engineer Cli.opt_model].
  unfold bind at 1. rewrite I. unfold bind at 1, zoom.
  destruct (Browser.start env budget url _); try reflexivity.
  destruct reverse_engineer; reflexivity.
Qed.

(** X14.  An interrupted capture is never analysed.  When a signal ends
    the capture - [start] leaves through [sys.exit] - the [manual] command
    leaves with exit code 0 in the very state the recorder's [close] left:
    with or without [-r], whatever the model and the instructions, no
    analysis is started and nothing more is printed, although the archive
    and the metadata have been saved. *)
Theorem interrupted_capture_is_not_analysed ans r budget p url model instructions
    w b w1 c s' :
  Browser.__init__ env (generate_run_id r) p w = Ok b w1 ->
  Browser.start env budget url (Browser.MkSession b w1) = Exit c s' ->
  (forall reverse_engineer,
     Cli.manual env ans r budget (Some p) url reverse_engineer model instructions w =
     Exit 0%Z (Browser.world s')) /\
  exists s0, same_run (started env b w1) s0 /\
             s' = closed env (Browser.self s0) (Browser.world s0).
Proof.
  intros I S. split.
  - intros re. rewrite (manual_described _ _ _ _ _ _ _ _ _ _ _ I), S.
    now apply start_Exit in S as (-> & _).
  - apply init_Ok in I as (Hb & _).
    apply start_Exit in S as (_ & s0 & q & Same & Hc).
    exists s0. split; [exact Same|].
    pose proof (same_run_fields _ _ _ _ Same) as (_ & _ & F3 & F4 & F5 & _).
    destruct s0 as [b' w']. cbn [Browser.self Browser.world] in *.
    apply close_Ok in Hc as (_ & _ & ->); [reflexivity|].
    unfold recorder_paths. rewrite F3, F4, F5. subst b. split; reflexivity.
Qed.

(** X15.  The analysis that follows a capture.  When [manual -r] is
    given a description and the capture runs to its end, the analysis is
    run for the same run: the header shows the run identifier and the
    description of the capture, and the task sent to the agent names the
    archive the recorder returned; the metadata file the capture left
    holds that identifier and description.  Whichever call of the agent
    session raises, the command returns normally, and it announces the
    script exactly when the analysis returned it.  (The description, the
    model, the project path and what the session makes the presenter print
    hold no markup; no regular file sits at the scripts directory or above
    it when the capture ends.) *)
Theorem analysis_follows_capture ans r budget p url model instructions
    w b w1 har_path s1 :
  let run_id := generate_run_id r in
  let har := e_root env / "har" / run_id in
  let scripts := e_root env / "scripts" / run_id in
  let script := path_str (scripts / "api_client.py") in
  let e := Engineer.MkEngineer run_id (har / "recording.har") (JStr p) model
             instructions scripts (Tui.MkClaudeUI true 0 []) in
  random128 r ->
  plain (path_str (e_root env)) = true ->
  markup_free p = true ->
  markup_free_opt model = true ->
  session_plain (e_agent env) = true ->
  Browser.__init__ env run_id p w = Ok b w1 ->
  Browser.start env budget url (Browser.MkSession b w1) = Ok har_path s1 ->
  unobstructed (fs (Browser.world s1)) scripts ->
  exists w' shown fields,
    Cli.manual env ans r budget (Some p) url true model instructions w = Ok tt w' /\
    har_path = har / "recording.har" /\
    Forall presenter_line shown /\
    out w' = out (Browser.world s1) ++
             UiHeader run_id (JStr p) model :: UiStartAnalysis :: shown ++
             announcement (analysis_result (e_agent env) script) /\
    task_har_path (Engineer._build_analysis_prompt e) = har_path /\
    (Sdk.enter_fault (e_agent env) = None ->
     EvQuery (Engineer._build_analysis_prompt e) ∈ trace w') /\
    fs (Browser.world s1) !! (har / "metadata.json") =
      Some (File (Json (JObj fields))) /\
    assoc "run_id" fields = Some (JStr run_id) /\
    assoc "prompt" fields = Some (JStr p).
Proof.
  intros run_id har scripts script e _ _ _ _ _ I S U.
  rewrite (manual_described _ _ _ _ _ _ _ _ _ _ _ I), S.
  apply init_Ok in I as (Hb & _).
  apply start_Ok in S as (s0 & Same & Hc).
  pose proof (same_run_fields _ _ _ _ Same) as (F1 & F2 & F3 & F4 & F5 & _).
  destruct s0 as [b' w0]. cbn [Browser.self Browser.world] in *.
  assert (P : recorder_paths b').
  { unfold recorder_paths. rewrite F3, F4, F5. subst b. split; reflexivity. }
  apply close_Ok in Hc as (_ & -> & ->); [|exact P].
  assert (Hp : Browser.har_path b' = har / "recording.har")
    by (rewrite F4; subst b; reflexivity).
  assert (Meta : exists fields,
            fs (Browser.world (closed env b' w0)) !! (har / "metadata.json") =
              Some (File (Json (JObj fields))) /\
            assoc "run_id" fields = Some (JStr run_id) /\
            assoc "prompt" fields = Some (JStr p)).
  { eexists. split; [|split].
    - replace (har / "metadata.json") with (Browser.metadata_path b')
        by (rewrite F5; subst b; reflexivity).
      rewrite closed_metadata. unfold Browser.metadata_of. reflexivity.
    - cbn [assoc]. rewrite F1. subst b. reflexivity.
    - cbn [assoc]. rewrite F2. subst b. reflexivity. }
  destruct Meta as (fields & M & A1 & A2).
  rewrite Hp.
  set (wc := Browser.world (closed env b' w0)) in *.
  destruct (run_reverse_engineering_run env run_id (har / "recording.har") (JStr p)
              model instructions true wc U) as (f & E & _ & R).
  fold run_id. unfold bind at 1. rewrite R. cbn zeta. fold scripts e.
  destruct (analyze_and_generate_lines env e (set_fs f wc))
    as (shown & s' & A & O & F & Fs).
  destruct (analyze_and_generate_run env e (set_fs f wc)) as (s2 & A0 & _ & T & _).
  rewrite A in A0. injection A0 as <-. rewrite A.
  cbn [Engineer.run_id Engineer.prompt Engineer.model Engineer.scripts_dir e
       out fs set_fs] in O, Fs.
  change (path_str (Engineer.scripts_dir e / "api_client.py")) with script.
  assert (Q : Sdk.enter_fault (e_agent env) = None ->
              EvQuery (Engineer._build_analysis_prompt e) ∈
              trace (Engineer.world s')).
  { intros En. destruct T as [k ->]. unfold analysis_begun. rewrite En.
    cbn [trace add_event add_out set_fs]. set_solver. }
  destruct (analysis_result (e_agent env) script) as [path|] eqn:V.
  - assert (path = script).
    { unfold analysis_result in V.
      destruct (Sdk.enter_fault (e_agent env)), (Sdk.query_fault (e_agent env)),
        (terminal_event (Sdk.stream (e_agent env))) as [[|]|],
        (Sdk.exit_fault (e_agent env)); congruence. }
    subst path. destruct (decide (script = "")) as [Z|_].
    { now apply path_str_nonempty in Z. }
    eexists _, shown, fields. split; [reflexivity|]. split; [reflexivity|].
    split; [exact F|]. cbn [out fs trace add_out]. rewrite O.
    split; [cbn [announcement]; rewrite <- !app_assoc; reflexivity|].
    split; [reflexivity|]. split; [exact Q|]. split; [exact M|]. split; assumption.
  - eexists _, shown, fields. split; [reflexivity|]. split; [reflexivity|].
    split; [exact F|]. rewrite O.
    split; [cbn [announcement]; now rewrite app_nil_r|].
    split; [reflexivity|]. split; [exact Q|]. split; [exact M|]. split; assumption.
Qed.

End ManualCommand.

Section ManualCommandRuns.
Import Py World Utils Spec.

Lemma interrupted_capture_is_not_analysed_witness :
  let r := Browser.start Sample.interrupted 3 None
             (Browser.MkSession Sample.fresh Sample.w1) in
  Cli.manual Sample.interrupted Sample.no_answers Sample.draw 3
    (Some Sample.intent) None true None None Sample.w0 =
  Exit 0%Z (Browser.world (final r)).
Proof.
  intros r.
  assert (I : Browser.__init__ Sample.interrupted (generate_run_id Sample.draw)
                Sample.intent Sample.w0 = Ok Sample.fresh Sample.w1)
    by (vm_compute; reflexivity).
  assert (S : r = Exit 0%Z (final r)) by (vm_compute; reflexivity).
  apply (proj1 (interrupted_capture_is_not_analysed Sample.interrupted
                  Sample.no_answers Sample.draw 3 Sample.intent None None None
                  Sample.w0 Sample.fresh Sample.w1 0%Z (final r) I S) true).
Defined.

Lemma analysis_follows_capture_witness :
  let r := Browser.start Sample.quiet 3 None
             (Browser.MkSession Sample.fresh Sample.w1) in
  exists w' shown fields,
    Cli.manual Sample.quiet Sample.no_answers Sample.draw 3
      (Some Sample.intent) None true None None Sample.w0 = Ok tt w' /\
    out w' = out (Browser.world (final r)) ++
      UiHeader (generate_run_id Sample.draw) (JStr Sample.intent) None ::
      UiStartAnalysis :: shown ++
      announcement
        (analysis_result (e_agent Sample.quiet)
           (path_str (e_root Sample.quiet / "scripts" /
                      generate_run_id Sample.draw / "api_client.py"))) /\
    fs (Browser.world (final r)) !! (Sample.capture_dir / "metadata.json") =
      Some (File (Json (JObj fields))) /\
    assoc "run_id" fields = Some (JStr Sample.rid) /\
    assoc "prompt" fields = Some (JStr Sample.intent).
Proof.
  set (r := Browser.start Sample.quiet 3 None
              (Browser.MkSession Sample.fresh Sample.w1)).
  assert (I : Browser.__init__ Sample.quiet (generate_run_id Sample.draw)
                Sample.intent Sample.w0 = Ok Sample.fresh Sample.w1)
    by (vm_compute; reflexivity).
  assert (S : r = Ok (Sample.capture_dir / "recording.har") (final r))
    by (vm_compute; reflexivity).
  assert (U : unobstructed (fs (Browser.world (final r)))
                (e_root Sample.quiet / "scripts" / generate_run_id Sample.draw))
    by (vm_compute; reflexivity).
  assert (Rn : random128 Sample.draw) by (unfold random128, Sample.draw; lia).
  destruct (analysis_follows_capture Sample.quiet Sample.no_answers Sample.draw 3
              Sample.intent None None None Sample.w0 Sample.fresh Sample.w1
              _ (final r) Rn eq_refl eq_refl eq_refl eq_refl I S U)
    as (w' & shown & fields & R & _ & _ & O & _ & _ & M & A1 & A2).
  exists w', shown, fields. split; [exact R|]. split; [exact O|].
  split; [exact M|]. split; [exact A1|exact A2].
Defined.

End ManualCommandRuns.

(** ** tui.py: the texts the presenter cuts to size *)

Section PresenterText.
Import Py Spec.
Implicit Types (s t : string) (n : nat) (c : ascii).

Lemma str_length_app s t :
  String.length (s +:+ t) = String.length s + String.length t.
Proof. induction s as [|c s IH]; simpl; auto. Qed.

Lemma str_drop_length n : forall s,
  String.length (str_drop n s) = String.length s - n.
Proof. induction n as [|n IH]; intros [|c s]; simpl; auto. Qed.

Lemma str_take_drop n : forall s, str_take n s +:+ str_drop n s = s.
Proof.
  induction n as [|n IH]; intros [|c s]; simpl; auto.
  change (String c (str_take n s +:+ str_drop n s) = String c s). now rewrite IH.
Qed.

Lemma lstrip_length s : String.length (lstrip s) <= String.length s.
Proof.
  induction s as [|c s IH]; simpl; auto. destruct (isspace c); simpl; lia.
Qed.

Lemma rstrip_length s : String.length (rstrip s) <= String.length s.
Proof.
  induction s as [|c s IH]; simpl; auto.
  destruct (rstrip s); [destruct (isspace c)|]; simpl in *; lia.
Qed.

Lemma strip_length s : String.length (strip s) <= String.length s.
Proof.
  unfold strip. etransitivity; [apply rstrip_length|apply lstrip_length].
Qed.

Lemma replace_char_length a b s :
  String.length (replace_char a b s) = String.length s.
Proof. induction s as [|c s IH]; simpl; auto. Qed.

Lemma str_forall_app f s t :
  str_forall f (s +:+ t) = str_forall f s && str_forall f t.
Proof.
  induction s as [|c s IH]; simpl; auto. now rewrite IH, andb_assoc.
Qed.

Lemma str_forall_lstrip f s : str_forall f s = true -> str_forall f (lstrip s) = true.
Proof.
  induction s as [|c s IH]; simpl; auto. intros H.
  apply andb_true_iff in H as [Hc Hs].
  destruct (isspace c); simpl; [auto|]. now rewrite Hc, Hs.
Qed.

Lemma str_forall_rstrip f s : str_forall f s = true -> str_forall f (rstrip s) = true.
Proof.
  induction s as [|c s IH]; simpl; auto. intros H.
  apply andb_true_iff in H as [Hc Hs]. specialize (IH Hs).
  destruct (rstrip s); [destruct (isspace c)|]; simpl in *; rewrite ?Hc; auto.
Qed.

Lemma one_line_replace s : one_line (replace_char (ascii_of_nat 10) " " s) = true.
Proof.
  unfold one_line. induction s as [|c s IH]; simpl; auto.
  rewrite IH, andb_true_r.
  destruct (Ascii.eqb c (ascii_of_nat 10)) eqn:E; [reflexivity|].
  now rewrite E.
Qed.

Lemma truncate_path_short path max_len :
  (Z.of_nat (String.length path) <= max_len)%Z ->
  Tui._truncate_path path max_len = path.
Proof.
  intros Fits. unfold Tui._truncate_path.
  destruct (Z.leb_spec (Z.of_nat (String.length path)) max_len); [reflexivity|lia].
Qed.

Lemma truncate_path_long path max_len :
  (3 < max_len < Z.of_nat (String.length path))%Z ->
  Tui._truncate_path path max_len =
  "..." +:+ str_drop (String.length path - (Z.to_nat max_len - 3)) path.
Proof.
  intros Long. unfold Tui._truncate_path.
  destruct (Z.leb_spec (Z.of_nat (String.length path)) max_len); [lia|].
  unfold slice_from, slice_index.
  destruct (Z.ltb_spec (- (max_len - 3)) 0) as [_|]; [|lia].
  do 2 f_equal. lia.
Qed.

(** X16.  A path cut for display.  For a limit above 3,
    [_truncate_path] returns a string of exactly
    [min(len(path), max_len)] characters: the path itself when it fits,
    and otherwise three dots followed by the end of the path, a non-empty
    beginning being cut off.  Cutting what was already cut changes
    nothing. *)
Theorem truncated_path_fits path max_len :
  (3 < max_len)%Z ->
  let shown := Tui._truncate_path path max_len in
  Z.of_nat (String.length shown) = Z.min (Z.of_nat (String.length path)) max_len /\
  ((Z.of_nat (String.length path) <= max_len)%Z /\ shown = path \/
   (max_len < Z.of_nat (String.length path))%Z /\
   exists cut kept, path = cut +:+ kept /\ cut <> EmptyString /\
                    shown = "..." +:+ kept) /\
  Tui._truncate_path shown max_len = shown.
Proof.
  intros Big shown. subst shown.
  destruct (Z.le_gt_cases (Z.of_nat (String.length path)) max_len) as [Fits|Long].
  - rewrite (truncate_path_short path max_len Fits).
    split; [lia|]. split; [left; auto|]. now apply truncate_path_short.
  - rewrite (truncate_path_long path max_len) by lia.
    set (k := String.length path - (Z.to_nat max_len - 3)).
    assert (L : String.length ("..." +:+ str_drop k path) = Z.to_nat max_len).
    { rewrite str_length_app, str_drop_length. simpl. lia. }
    split; [lia|]. split.
    + right. split; [exact Long|].
      exists (str_take k path), (str_drop k path).
      split; [now rewrite str_take_drop|]. split; [|reflexivity].
      intros E. apply (f_equal String.length) in E.
      rewrite str_take_length in E. simpl in E. lia.
    + apply truncate_path_short. lia.
Qed.

(** X17.  The line of the agent's text.  For a limit that is not
    negative, the text [thinking] puts on its line has no newline and
    at most [max_length + 3] characters - the limit and the three dots
    appended when the text is longer than the limit; a text within the
    limit is shown with at most its own length. *)
Theorem thinking_text_fits text max_length :
  (0 <= max_length)%Z ->
  let shown := Tui.display_text text max_length in
  one_line shown = true /\
  (Z.of_nat (String.length shown) <= max_length + 3)%Z /\
  ((Z.of_nat (String.length text) <= max_length)%Z ->
   String.length shown <= String.length text) /\
  ((max_length < Z.of_nat (String.length text))%Z ->
   exists body, shown = body +:+ "...").
Proof.
  intros Pos shown. subst shown. unfold Tui.display_text.
  set (body := strip (replace_char (ascii_of_nat 10) " " (slice_to max_length text))).
  assert (One : one_line body = true).
  { unfold body, strip, one_line.
    apply str_forall_rstrip, str_forall_lstrip, one_line_replace. }
  assert (Len : String.length body <=
                Nat.min (Z.to_nat max_length) (String.length text)).
  { unfold body. etransitivity; [apply strip_length|].
    rewrite replace_char_length. unfold slice_to, slice_index.
    destruct (Z.ltb_spec max_length 0); [lia|].
    rewrite str_take_length. lia. }
  destruct (Z.ltb_spec max_length (Z.of_nat (String.length text))) as [Long|Fits].
  - split; [|split; [|split]].
    + unfold one_line in *. rewrite str_forall_app, One. reflexivity.
    + rewrite str_length_app. simpl. lia.
    + lia.
    + intros _. now exists body.
  - split; [exact One|]. split; [lia|]. split; [lia|]. lia.
Qed.

Lemma truncated_path_fits_witness :
  Z.of_nat (String.length
    (Tui._truncate_path "/srv/reverse-api/har/a1b2c3d4e5f6/recording.har" 20)) = 20%Z.
Proof.
  destruct (truncated_path_fits "/srv/reverse-api/har/a1b2c3d4e5f6/recording.har" 20)
    as (L & _); [lia|].
  rewrite L. reflexivity.
Defined.

Lemma thinking_text_fits_witness :
  one_line (Tui.display_text ("The archive holds" +:+ nl +:+ "two login calls") 24)
    = true.
Proof.
  apply (thinking_text_fits ("The archive holds" +:+ nl +:+ "two login calls") 24).
  lia.
Defined.

End PresenterText.
